(** * CleanSheet: the sanitization gateway, embedded and verified

    A shallow embedding of [app.py] (reputation client, sandbox supervisor,
    job controller) and of [worker.py] (CDR transformer, format normalizer,
    pixel reconstruction, output validator), with the properties that the
    specification states about them.

    Python control flow is kept as written: [try]/[except]/[finally] and
    early [return] are combinators of a small control monad; the
    filesystem, the Docker daemon and the reputation service are an
    explicit world and explicit oracles. *)

From stdpp Require Import gmap strings list pretty.
From Stdlib Require Import Ascii ZArith QArith Lia Lqa.

Set Default Proof Using "Type".
Local Open Scope Z_scope.

(** ** Python control flow *)

Module Py.

(** How a block of statements ends: it falls through with a value, it
    executes [return r], or it raises an exception carrying a message. *)
Inductive ctl (R A : Type) : Type :=
  | Normal (a : A)
  | Return (r : R)
  | Raise (e : string).
Arguments Normal {R A} a.
Arguments Return {R A} r.
Arguments Raise {R A} e.

(** The result of a call to an external library: a value or an exception. *)
Inductive outcome (A : Type) : Type :=
  | Ok (a : A)
  | Err (e : string).
Arguments Ok {A} a.
Arguments Err {A} e.

(** A block over a state [S], inside a function whose result type is [R]. *)
Definition M (S R A : Type) : Type := S → ctl R A * S.

Definition ret {S R A} (a : A) : M S R A := λ s, (Normal a, s).

Definition bind {S R A B} (m : M S R A) (k : A → M S R B) : M S R B :=
  λ s, match m s with
       | (Normal a, s') => k a s'
       | (Return r, s') => (Return r, s')
       | (Raise e, s') => (Raise e, s')
       end.

(** [return r] *)
Definition return_ {S R A} (r : R) : M S R A := λ s, (Return r, s).

(** [raise Exception(e)] *)
Definition raise {S R A} (e : string) : M S R A := λ s, (Raise e, s).

Definition gets {S R A} (f : S → A) : M S R A := λ s, (Normal (f s), s).
Definition modify {S R} (f : S → S) : M S R unit := λ s, (Normal tt, f s).

(** A library call whose outcome the oracle fixed. *)
Definition call {S R A} (o : outcome A) : M S R A :=
  match o with
  | Ok a => ret a
  | Err e => raise e
  end.

(** [try: body except Exception as e: handler e].  A [return] inside the
    body is not an exception and passes through. *)
Definition try_except {S R A} (body : M S R A) (handler : string → M S R A)
  : M S R A :=
  λ s, match body s with
       | (Raise e, s') => handler e s'
       | r => r
       end.

(** [try: body finally: fin].  The [finally] block runs however the body
    ended; when it falls through, the body's ending stands. *)
Definition try_finally {S R A} (body : M S R A) (fin : M S R unit)
  : M S R A :=
  λ s, match body s with
       | (c, s') =>
           match fin s' with
           | (Normal _, s'') => (c, s'')
           | (Return r, s'') => (Return r, s'')
           | (Raise e, s'') => (Raise e, s'')
           end
       end.

(** [if c: body] with no [else]. *)
Definition when {S R} (c : bool) (body : M S R unit) : M S R unit :=
  if c then body else ret tt.

(** [def f(...): body], called from a block of another function: the
    callee's [return r] (or falling off its end) is the value of the call
    expression, an exception that escapes propagates into the caller. *)
Definition def {S R R' : Type} (body : M S R R) : M S R' R :=
  λ s, match body s with
       | (Normal r, s') => (Normal r, s')
       | (Return r, s') => (Normal r, s')
       | (Raise e, s') => (Raise e, s')
       end.

(** A block of a function with local variables [L], run with their
    initial values; the locals are dropped when the function is left. *)
Definition with_locals {L S R A} (l : L) (body : M (L * S) R A) : M S R A :=
  λ s, match body (l, s) with
       | (c, (_, s')) => (c, s')
       end.

(** A statement that does not touch the locals. *)
Definition global {L S R A} (m : M S R A) : M (L * S) R A :=
  λ ls, match m ls.2 with
        | (c, s') => (c, (ls.1, s'))
        end.

Definition get_local {L S R} : M (L * S) R L := λ ls, (Normal ls.1, ls).
Definition set_local {L S R} (l : L) : M (L * S) R unit :=
  λ ls, (Normal tt, (l, ls.2)).

(** Calling a function from outside: the value it returns, or the
    exception that escaped it. *)
Definition run_def {S R} (body : M S R R) (s : S) : outcome R * S :=
  match body s with
  | (Normal r, s') => (Ok r, s')
  | (Return r, s') => (Ok r, s')
  | (Raise e, s') => (Err e, s')
  end.

End Py.

Import Py.

Declare Scope py_scope.
Delimit Scope py_scope with py.
Notation "x <- m ;; k" := (bind m (λ x, k))
  (at level 100, m at next level, right associativity) : py_scope.
Notation "m ;;; k" := (bind m (λ _, k))
  (at level 100, right associativity) : py_scope.
Local Open Scope py_scope.

(** ** Strings as the code uses them *)

Module Str.

(** [s.rsplit(c, 1)] when [s] contains [c]: the text before the last [c]
    and the text after it; [None] when [c] does not occur (the resulting
    list has one element, and indexing it at 1 raises [IndexError]). *)
Fixpoint rsplit1 (c : Ascii.ascii) (s : string) : option (string * string) :=
  match s with
  | EmptyString => None
  | String x s' =>
      match rsplit1 c s' with
      | Some (a, b) => Some (String x a, b)
      | None => if Ascii.eqb x c then Some (EmptyString, s') else None
      end
  end.

Definition rsplit_dot (s : string) : option (string * string) :=
  rsplit1 "."%char s.

(** [s.rsplit('.', 1)[0]] *)
Definition rsplit_dot_0 (s : string) : string :=
  match rsplit_dot s with
  | Some (a, _) => a
  | None => s
  end.

(** Every character of [s] is [c]. *)
Fixpoint all_char (c : Ascii.ascii) (s : string) : bool :=
  match s with
  | EmptyString => true
  | String x s' => Ascii.eqb x c && all_char c s'
  end.

(** [s.rstrip(c)] *)
Fixpoint rstrip (c : Ascii.ascii) (s : string) : string :=
  match s with
  | EmptyString => EmptyString
  | String x s' =>
      match rstrip c s' with
      | EmptyString =>
          if Ascii.eqb x c then EmptyString else String x EmptyString
      | r => String x r
      end
  end.

(** [s.endswith('/')] *)
Fixpoint ends_with_slash (s : string) : bool :=
  match s with
  | EmptyString => false
  | String x EmptyString => Ascii.eqb x "/"
  | String _ s' => ends_with_slash s'
  end.

(** [os.path.basename(p)]: the text after the last slash. *)
Definition basename (p : string) : string :=
  match rsplit1 "/"%char p with
  | Some (_, b) => b
  | None => p
  end.

(** [os.path.dirname(p)] of [posixpath]: the text up to the last slash,
    without its trailing slashes unless it consists of slashes only. *)
Definition dirname (p : string) : string :=
  match rsplit1 "/"%char p with
  | Some (a, _) =>
      let head := a +:+ "/" in
      if all_char "/" head then head else rstrip "/" head
  | None => EmptyString
  end.

(** [os.path.splitext(name)[0]] for a base name: the text before the
    last dot, unless only dots come before it (leading dots do not start
    an extension). *)
Definition splitext_0 (name : string) : string :=
  match rsplit_dot name with
  | Some (a, _) => if all_char "." a then name else a
  | None => name
  end.

(** [os.path.join(folder, name)] of [posixpath] for a [name] that does
    not start with a slash (with one, the result is [name] itself): a
    slash is put between the two unless the folder is empty or ends with
    one.  The names joined in the program are of that kind: a constant,
    a job identifier and an underscore before the rest, or a name made
    from the base name of a path. *)
Definition path_join (folder name : string) : string :=
  match folder with
  | EmptyString => name
  | _ =>
      if ends_with_slash folder then folder +:+ name
      else folder +:+ "/" +:+ name
  end.

(** [p in s] for two strings: [p] occurs in [s]. *)
Fixpoint occurs_in (p s : string) : bool :=
  String.prefix p s
  || match s with
     | EmptyString => false
     | String _ s' => occurs_in p s'
     end.

Definition lower_ascii (c : Ascii.ascii) : Ascii.ascii :=
  let n := Ascii.N_of_ascii c in
  if ((65 <=? n) && (n <=? 90))%N then Ascii.ascii_of_N (n + 32) else c.

(** [s.lower()] on ASCII text. *)
Fixpoint lower (s : string) : string :=
  match s with
  | EmptyString => EmptyString
  | String c s' => String (lower_ascii c) (lower s')
  end.

Definition is_empty (s : string) : bool :=
  match s with EmptyString => true | _ => false end.

End Str.

(** ** app.py: hash and staging, reputation client, sandbox supervisor,
       job controller *)

Module App.

(** *** The world the gateway runs in *)

(** What the code observes of a file's content: its size
    ([os.path.getsize], [file.tell()]) and its SHA-256 digest. *)
Record blob := { blob_size : N; blob_sha256 : string }.

(** Calls on the Docker daemon, in the order they were made.  [EvRun c]
    records that [containers.run] created and started the instance [c]
    and returned it; [EvLaunchFailed c] that it created the instance [c]
    and raised when starting it. *)
Inductive event :=
  | EvBuild
  | EvRun (c : string)
  | EvLaunchFailed (c : string)
  | EvWait (c : string)
  | EvLogs (c : string)
  | EvRemove (c : string).

(** The staging areas (path to content) and the Docker call log. *)
Record world := { fs : gmap string blob; trace : list event }.

Definition UPLOAD_FOLDER : string := "/app/uploads".
Definition OUTPUT_FOLDER : string := "/app/output".

Definition ALLOWED_EXTENSIONS : list string :=
  ["pdf"; "doc"; "docx"; "xls"; "xlsx"; "ppt"; "pptx"; "txt"; "rtf"; "odt";
   "jpg"; "jpeg"; "png"].

Definition MAX_FILE_SIZE : N := 100 * 1024 * 1024.

Definition allowed_file (filename : string) : bool :=
  match Str.rsplit_dot filename with
  | Some (_, ext) => bool_decide (Str.lower ext ∈ ALLOWED_EXTENSIONS)
  | None => false
  end.

(** *** The reputation service *)

(** [last_analysis_stats] and [stats]: a JSON object of engine counts. *)
Definition stats_get (stats : gmap string Z) (k : string) : Z :=
  default 0 (stats !! k).

(** The replies of the three endpoints.  A field the code indexes
    (['data']['attributes'][...]) is [None] when the JSON lacks it, and
    indexing it raises [KeyError]. *)
Record files_reply :=
  { files_status_code : Z; last_analysis_stats : option (gmap string Z) }.
Record upload_reply :=
  { upload_status_code : Z; upload_id : option string }.
Record analysis_reply :=
  { analysis_status_code : Z;
    analysis_status : option string;
    analysis_stats : option (gmap string Z) }.

(** The service as an oracle: [GET /files/<sha256>], [POST /files] and the
    [i]-th [GET /analyses/<id>] of a poll.  [Err] is a transport error
    raised by [requests]. *)
Record virustotal := {
  files_get : string → outcome files_reply;
  files_post : blob → outcome upload_reply;
  analyses_get : string → nat → outcome analysis_reply;
}.

(** *** The Docker daemon *)

Inductive image_lookup :=
  | ImageFound
  | ImageNotFound
  | ImageError (e : string).

(** The outcome of each call of the supervisor.  docker-py's
    [containers.run] is two calls on the daemon, the creation of the
    instance and its start: [containers_create] and [container_start];
    [worker_output] is what the worker leaves at the job's output path;
    [container_remove n] is the outcome of the destruction call made
    after [n] earlier ones. *)
Record docker := {
  connect : outcome unit;
  images_get : image_lookup;
  images_build : outcome unit;
  containers_create : outcome string;
  container_start : outcome unit;
  worker_output : option blob;
  container_wait : outcome Z;
  container_logs : outcome string;
  container_remove : nat → outcome unit;
}.

(** What [containers.run(..., detach=True)] gives its caller: the
    instance once it is created and started, or the exception of the call
    that failed. *)
Definition containers_run (d : docker) : outcome string :=
  match containers_create d with
  | Ok c =>
      match container_start d with
      | Ok _ => Ok c
      | Err e => Err e
      end
  | Err e => Err e
  end.

(** Everything outside the process that one request depends on.
    [file_save] is the outcome of [file.save]; when it raises,
    [save_leaves] is what it had written to the path by then, if
    anything. *)
Record env := {
  VIRUSTOTAL_API_KEY : string;
  vt : virustotal;
  dk : docker;
  secure_filename : string → string;
  uuid4 : string;
  file_save : outcome unit;
  save_leaves : option blob;
}.

(** *** Filesystem primitives *)

Section Primitives.
Context {R : Type}.

Definition os_path_exists (p : string) : M world R bool :=
  gets (λ w, bool_decide (is_Some (fs w !! p))).

Definition os_remove (p : string) : M world R unit :=
  w <- gets id ;;
  match fs w !! p with
  | Some _ => modify (λ w, {| fs := delete p (fs w); trace := trace w |})
  | None => raise "FileNotFoundError"
  end.

Definition os_path_getsize (p : string) : M world R N :=
  w <- gets id ;;
  match fs w !! p with
  | Some b => ret (blob_size b)
  | None => raise "FileNotFoundError"
  end.

Definition write_file (p : string) (b : blob) : M world R unit :=
  modify (λ w, {| fs := <[p := b]> (fs w); trace := trace w |}).

Definition emit (e : event) : M world R unit :=
  modify (λ w, {| fs := fs w; trace := trace w ++ [e] |}).

(** Indexing a JSON reply. *)
Definition json {A} (field : option A) : M world R A :=
  match field with
  | Some a => ret a
  | None => raise "KeyError"
  end.

Definition get_file_hash (filepath : string) : M world R string :=
  w <- gets id ;;
  match fs w !! filepath with
  | Some b => ret (blob_sha256 b)
  | None => raise "FileNotFoundError"
  end.

(** [open(filepath, 'rb')] *)
Definition open_rb (filepath : string) : M world R blob :=
  w <- gets id ;;
  match fs w !! filepath with
  | Some b => ret b
  | None => raise "FileNotFoundError"
  end.

End Primitives.

(** *** Reputation client *)

Section Gateway.
Variable E : env.

(** The body of the polling loop [for _ in range(12)], at iteration [i]
    with [n] iterations left. *)
Fixpoint poll (analysis_id : string) (i n : nat)
  : M world (bool * string) unit :=
  match n with
  | O => ret tt
  | S n' =>
      (* time.sleep(5) *)
      analysis_response <- call (analyses_get (vt E) analysis_id i) ;;
      (if analysis_status_code analysis_response =? 200 then
         status <- json (analysis_status analysis_response) ;;
         if String.eqb status "completed" then
           stats <- json (analysis_stats analysis_response) ;;
           let malicious := stats_get stats "malicious" in
           let suspicious := stats_get stats "suspicious" in
           if 0 <? malicious then
             return_ (false, "THREAT DETECTED: " +:+ pretty malicious
                             +:+ " engines flagged as malicious")
           else if 3 <? suspicious then
             return_ (false, "SUSPICIOUS: " +:+ pretty suspicious
                             +:+ " engines flagged as suspicious")
           else
             return_ (true, "Clean (0/"
                            +:+ pretty (stats_get stats "harmless"
                                        + stats_get stats "undetected")
                            +:+ " engines)")
         else ret tt
       else ret tt) ;;;
      poll analysis_id (S i) n'
  end.

Definition scan_with_virustotal {R} (filepath job_id : string)
  : M world R (bool * string) :=
  def (
    when (Str.is_empty (VIRUSTOTAL_API_KEY E))
      (return_ (true, "No API key configured")) ;;;
    try_except (
      file_hash <- get_file_hash filepath ;;
      response <- call (files_get (vt E) file_hash) ;;
      if files_status_code response =? 200 then
        stats <- json (last_analysis_stats response) ;;
        let malicious := stats_get stats "malicious" in
        let suspicious := stats_get stats "suspicious" in
        if 0 <? malicious then
          return_ (false, "THREAT DETECTED: " +:+ pretty malicious
                          +:+ " engines flagged as malicious")
        else if 3 <? suspicious then
          return_ (false, "SUSPICIOUS: " +:+ pretty suspicious
                          +:+ " engines flagged as suspicious")
        else
          return_ (true, "Clean (0/"
                         +:+ pretty (stats_get stats "harmless"
                                     + stats_get stats "undetected")
                         +:+ " engines)")
      else if files_status_code response =? 404 then
        f <- open_rb filepath ;;
        upload_response <- call (files_post (vt E) f) ;;
        if (upload_status_code upload_response =? 200)
           || (upload_status_code upload_response =? 201) then
          analysis_id <- json (upload_id upload_response) ;;
          poll analysis_id 0 12 ;;;
          return_ (true, "Analysis timeout - proceeding")
        else
          return_ (true, "Upload failed - proceeding")
      else
        return_ (true, "API error - proceeding"))
    (λ e, return_ (true, "Scan error - proceeding: " +:+ e))).

(** *** Sandbox supervisor *)

(** The destruction calls made so far. *)
Definition is_remove (e : event) : bool :=
  match e with EvRemove _ => true | _ => false end.
Definition removals (t : list event) : nat :=
  length (List.filter is_remove t).

(** [container.remove(force=True)] *)
Definition container_remove_force {R} (c : string) : M world R unit :=
  w <- gets id ;;
  emit (EvRemove c) ;;;
  call (container_remove (dk E) (removals (trace w))).

(** [client.containers.run(..., detach=True, ...)], as docker-py does
    it: [container = self.create(...)], then [container.start()], then
    [return container].  When the start raises, the instance exists and
    the caller gets the exception, not the instance.  On success the
    worker runs in the instance, leaving its output (if any) at the job's
    output path. *)
Definition client_containers_run {R} (output_path : string)
  : M world R string :=
  c <- call (containers_create (dk E)) ;;
  match container_start (dk E) with
  | Ok _ => emit (EvRun c)
  | Err e => emit (EvLaunchFailed c) ;;; raise e
  end ;;;
  match worker_output (dk E) with
  | Some b => write_file output_path b
  | None => ret tt
  end ;;;
  ret c.

Definition sanitize_in_container {R} (input_path output_path job_id : string)
  : M world R bool :=
  def (
    try_except (call (connect (dk E))) (λ _, return_ false) ;;;
    with_locals (None : option string) (
      try_finally
        (try_except (
           (* Build worker image if it doesn't exist *)
           match images_get (dk E) with
           | ImageFound => ret tt
           | ImageNotFound =>
               try_except
                 (global (emit EvBuild) ;;; call (images_build (dk E)))
                 (λ _, return_ false)
           | ImageError e => raise e
           end ;;;
           container <- global (client_containers_run output_path) ;;
           set_local (Some container) ;;;
           result <- global (emit (EvWait container) ;;;
                             call (container_wait (dk E))) ;;
           logs <- global (emit (EvLogs container) ;;;
                           call (container_logs (dk E))) ;;
           global (container_remove_force container) ;;;
           if result =? 0 then
             present <- global (os_path_exists output_path) ;;
             when (negb present) (return_ false) ;;;
             output_size <- global (os_path_getsize output_path) ;;
             when (output_size =? 0)%N (return_ false) ;;;
             scanned <- global (scan_with_virustotal output_path job_id) ;;
             let is_clean := scanned.1 in
             when (negb is_clean) (
               present <- global (os_path_exists output_path) ;;
               when present (global (os_remove output_path)) ;;;
               return_ false) ;;;
             return_ true
           else
             return_ false)
           (λ _, return_ false))
        (container <- get_local ;;
         match container with
         | Some c =>
             try_except (global (container_remove_force c)) (λ _, ret tt)
         | None => ret tt
         end))).

(** *** Job controller *)

(** The nested function [cleanup] of [upload_file], closed over the two
    staged paths. *)
Definition cleanup (input_path output_path : string) : M world unit unit :=
  def (
    present <- os_path_exists input_path ;;
    when present (os_remove input_path) ;;;
    present <- os_path_exists output_path ;;
    when present (os_remove output_path)).

Inductive body :=
  | JsonError (error : string)
  | SendFile (path download_name : string)
  | Html.

(** A Flask response: status, body, the headers the controller adds, and
    the callbacks registered with [call_on_close], which Flask runs once
    the body has been sent and the response is closed. *)
Record response := {
  status : Z;
  payload : body;
  headers : list (string * string);
  on_close : list (M world unit unit);
}.

Definition jsonify_error (msg : string) (code : Z) : response :=
  {| status := code; payload := JsonError msg; headers := [];
     on_close := [] |}.

Definition send_file (path download_name : string) : response :=
  {| status := 200; payload := SendFile path download_name; headers := [];
     on_close := [] |}.

Definition set_header (r : response) (k v : string) : response :=
  {| status := status r; payload := payload r;
     headers := headers r ++ [(k, v)]; on_close := on_close r |}.

Definition call_on_close (r : response) (f : M world unit unit) : response :=
  {| status := status r; payload := payload r; headers := headers r;
     on_close := on_close r ++ [f] |}.

(** An uploaded file of the multipart form, and a request. *)
Record upload := { filename : string; content : blob }.
Record request := { method : string; files : gmap string upload }.

Definition upload_file {R} (req : request) : M world R response :=
  def (
    if String.eqb (method req) "POST" then
      try_except (
        match files req !! "file" with
        | None => return_ (jsonify_error "No file provided" 400)
        | Some file =>
            when (Str.is_empty (filename file)
                  || negb (allowed_file (filename file)))
              (return_ (jsonify_error "Invalid file type" 400)) ;;;
            (* Check file size *)
            let file_size := blob_size (content file) in
            when (MAX_FILE_SIZE <? file_size)%N
              (return_ (jsonify_error "File size exceeds 100MB limit" 400)) ;;;
            let filename := secure_filename E (filename file) in
            let job_id := uuid4 E in
            let input_path :=
              Str.path_join UPLOAD_FOLDER (job_id +:+ "_" +:+ filename) in
            let output_path :=
              Str.path_join OUTPUT_FOLDER (job_id +:+ "_sanitized.pdf") in
            (* file.save(input_path) *)
            match file_save E with
            | Ok _ => write_file input_path (content file)
            | Err e =>
                match save_leaves E with
                | Some part => write_file input_path part
                | None => ret tt
                end ;;;
                raise e
            end ;;;
            (* Pre-scan with VirusTotal (informational only, don't reject) *)
            scanned <- scan_with_virustotal input_path job_id ;;
            let is_clean := scanned.1 in
            let scan_message := scanned.2 in
            let threat_detected := negb is_clean in
            let threat_info :=
              if threat_detected then Some scan_message else None in
            sanitized <- sanitize_in_container input_path output_path job_id ;;
            when sanitized (
              (* time.sleep(2) *)
              present <- os_path_exists output_path ;;
              when present (
                let response :=
                  send_file output_path
                    ("sanitized_" +:+ Str.rsplit_dot_0 filename +:+ ".pdf") in
                let response :=
                  match threat_info with
                  | Some info =>
                      set_header
                        (set_header response "X-Threat-Warning"
                           "Original file contained malware - now sanitized")
                        "X-Threat-Details" info
                  | None => response
                  end in
                let response :=
                  call_on_close response (cleanup input_path output_path) in
                return_ response)) ;;;
            present <- os_path_exists input_path ;;
            when present (os_remove input_path) ;;;
            return_ (jsonify_error "Sanitization failed" 500)
        end)
        (λ e, return_ (jsonify_error e 500))
    else
      return_ {| status := 200; payload := Html; headers := [];
                 on_close := [] |}).

(** Flask closing a response: the registered callbacks run in order. *)
Definition close_response (r : response) (w : world) : world :=
  foldl (λ w f, (f w).2) w (on_close r).

End Gateway.


End App.

(** ** worker.py: format normalizer, CDR transformer, pixel
       reconstruction, output validator *)

Module Worker.

(** *** Documents and images *)

(** A PDF object as PyPDF2 hands it to the code. *)
#[warnings="-register-all"]
Inductive pdfobj :=
  | PNull
  | PInt (z : Z)
  | PName (s : string)
  | PText (s : string)
  | PArray (l : list pdfobj)
  | PDict (d : gmap string pdfobj).

(** A parsed document: the page dictionaries in page order
    ([reader.pages]), the catalog ([trailer['/Root']],
    [writer._root_object]) and the information dictionary. *)
Record pdf := {
  pages : list (gmap string pdfobj);
  root : gmap string pdfobj;
  info : gmap string pdfobj;
}.

(** A PIL image: mode, [size = (width, height)] in pixels, and whatever
    metadata travels with it. *)
Record image := {
  mode : string;
  width : Z;
  height : Z;
  metadata : list string;
}.

(** One [drawImage] call on a reportlab canvas, in points.  The
    coordinates are Python floats; they are modelled by exact rationals. *)
Record placement := {
  drawn : image;
  at_x : Q;
  at_y : Q;
  drawn_width : Q;
  drawn_height : Q;
}.

(** A reportlab canvas: the pages finished by [showPage] and the
    drawings of the page under construction. *)
Record canvas := {
  pagesize : Q * Q;
  finished : list (list placement);
  current : list placement;
}.

(** File contents in the worker's filesystem, in the representation of
    whoever wrote them. *)
Inductive file :=
  | FPdf (d : pdf)
  | FImage (img : image)
  | FCanvas (size : Q * Q) (pgs : list (list placement))
  | FBytes (n : N).

(** [os.path.getsize(p) == 0]: only a file of no bytes is empty; a
    serialized PDF or image always has a header. *)
Definition is_empty_file (f : file) : bool :=
  match f with
  | FBytes 0 => true
  | _ => false
  end.

(** [reportlab.lib.pagesizes.letter] *)
Definition letter : Q * Q := (612%Q, 792%Q).

(** *** Python operators on PDF objects *)

Definition names_key (key : string) (x : pdfobj) : bool :=
  match x with
  | PName s | PText s => String.eqb s key
  | _ => false
  end.

(** [key in o] *)
Definition py_contains (key : string) (o : pdfobj) : outcome bool :=
  match o with
  | PDict d => Ok (bool_decide (is_Some (d !! key)))
  | PArray l => Ok (existsb (names_key key) l)
  | PName s | PText s => Ok (Str.occurs_in key s)
  | PNull | PInt _ => Err "TypeError"
  end.

(** [del o[key]] *)
Definition py_delitem (key : string) (o : pdfobj) : outcome pdfobj :=
  match o with
  | PDict d =>
      if bool_decide (is_Some (d !! key)) then Ok (PDict (delete key d))
      else Err "KeyError"
  | _ => Err "TypeError"
  end.

(** *** External tools *)

(** What the worker's libraries and subprocesses do, as oracles:
    the catalog and information dictionary of a new [PyPDF2.PdfWriter()],
    the clock, pdf2image's [convert_from_path], the headless office
    converter (the file it leaves beside the requested output, or an error
    for a timeout or a nonzero exit), whether PIL raises while processing
    an image, and whether the trailer of a PDF file holds the catalog
    dictionary itself rather than a reference to it (the standard asks
    for a reference, and PyPDF2's and reportlab's writers write one). *)
Record env := {
  INPUT_FILE : option string;
  OUTPUT_FILE : option string;
  PdfWriter_root : gmap string pdfobj;
  PdfWriter_info : gmap string pdfobj;
  now : string;
  convert_from_path : file → Z → outcome (list image);
  libreoffice : file → outcome (option file);
  pil_raises : image → bool;
  trailer_holds_catalog : file → bool;
}.

(** [now] is what [datetime.now()] gives in the one call of [disarm_pdf]
    that a run of the worker makes.  Another call reads the clock again:
    it is made in the environment [at_time E t], with [t] the reading of
    that call. *)
Definition at_time (E : env) (t : string) : env :=
  {| INPUT_FILE := INPUT_FILE E;
     OUTPUT_FILE := OUTPUT_FILE E;
     PdfWriter_root := PdfWriter_root E;
     PdfWriter_info := PdfWriter_info E;
     now := t;
     convert_from_path := convert_from_path E;
     libreoffice := libreoffice E;
     pil_raises := pil_raises E;
     trailer_holds_catalog := trailer_holds_catalog E |}.

(** [PyPDF2.PdfReader(path)] on a file's content. *)
Definition parse_pdf (f : file) : outcome pdf :=
  match f with
  | FPdf d => Ok d
  | FCanvas _ pgs =>
      Ok {| pages := (λ _, {[ "/Type" := PName "/Page" ]}) <$> pgs;
            root := {[ "/Type" := PName "/Catalog" ]};
            info := ∅ |}
  | FImage _ | FBytes _ => Err "PdfReadError"
  end.

Section Files.
Context {R : Type}.

Definition os_path_exists (p : string) : M (gmap string file) R bool :=
  gets (λ fs, bool_decide (is_Some (fs !! p))).

Definition read_file (p : string) : M (gmap string file) R file :=
  fs <- gets id ;;
  match fs !! p with
  | Some f => ret f
  | None => raise "FileNotFoundError"
  end.

Definition write_file (p : string) (f : file) : M (gmap string file) R unit :=
  modify (λ fs, <[p := f]> fs).

Definition os_remove (p : string) : M (gmap string file) R unit :=
  f <- read_file p ;;
  modify (λ fs, delete p fs).

(** [shutil.copy(src, dst)]: refuses to copy a file onto itself. *)
Definition shutil_copy (src dst : string) : M (gmap string file) R unit :=
  f <- read_file src ;;
  if String.eqb src dst then raise "SameFileError"
  else write_file dst f.

(** [os.makedirs(d, exist_ok=True)]: raises when a regular file is in the
    place of the directory or of its parent; the directories themselves
    are not files of the model. *)
Definition os_makedirs (d : string) : M (gmap string file) R unit :=
  fs <- gets id ;;
  if bool_decide (is_Some ((fs : gmap string file) !! d)) then
    raise "FileExistsError"
  else if bool_decide (is_Some (fs !! Str.dirname d)) then
    raise "NotADirectoryError"
  else ret tt.

Definition os_rename (src dst : string) : M (gmap string file) R unit :=
  f <- read_file src ;;
  modify (λ fs, <[dst := f]> (delete src fs)).

(** [shutil.rmtree(d, ignore_errors=True)] *)
Definition shutil_rmtree (d : string) : M (gmap string file) R unit :=
  modify (λ fs, filter (λ kv, String.prefix (d +:+ "/") kv.1 = false) fs).

End Files.

Section Pipeline.
Variable E : env.

Abbreviation fsys := (gmap string file).

(** *** Metadata stripping *)

(** The result is a fresh RGB image of the same size that carries no
    metadata; when PIL raises on the way, the image is returned as it
    is. *)
Definition strip_metadata_from_image (img : image) : image :=
  if pil_raises E img then img
  else {| mode := "RGB"; width := width img; height := height img;
          metadata := [] |}.

(** *** CDR transformer *)

(** The statements of the page loop that edit one page. *)
Definition disarm_page (page : gmap string pdfobj) : gmap string pdfobj :=
  (* Remove annotations (links, forms, etc) *)
  let page :=
    if bool_decide (is_Some (page !! "/Annots")) then delete "/Annots" page
    else page in
  (* Remove actions *)
  let page :=
    if bool_decide (is_Some (page !! "/AA")) then delete "/AA" page
    else page in
  let page :=
    if bool_decide (is_Some (page !! "/A")) then delete "/A" page
    else page in
  page.

(** [writer.add_page(page)].  PyPDF2 clones the page into the writer:
    the clone has the page tree of the writer as [/Parent] and no
    [/StructParents], and every other entry of the page.  A page is
    modelled apart from these two entries, which tie it to its document,
    so that the clone is the page; what is stated below of the entries of
    a page leaves the two out. *)
Definition add_page (writer : pdf) (page : gmap string pdfobj) : pdf :=
  {| pages := pages writer ++ [page]; root := root writer;
     info := info writer |}.

(** [if '/Names' in root: if key in root['/Names']: del root['/Names'][key]] *)
Definition remove_from_names {R} (key : string) (writer : pdf)
  : M fsys R pdf :=
  match root writer !! "/Names" with
  | Some names =>
      present <- call (py_contains key names) ;;
      if present : bool then
        names' <- call (py_delitem key names) ;;
        ret {| pages := pages writer;
               root := <["/Names" := names']> (root writer);
               info := info writer |}
      else ret writer
  | None => ret writer
  end.

Definition remove_open_action (writer : pdf) : pdf :=
  if bool_decide (is_Some (root writer !! "/OpenAction")) then
    {| pages := pages writer; root := delete "/OpenAction" (root writer);
       info := info writer |}
  else writer.

(** [writer.add_metadata({...})]: the entries are written over the
    writer's information dictionary. *)
Definition add_metadata (writer : pdf) : pdf :=
  {| pages := pages writer;
     root := root writer;
     info :=
       <["/Title" := PText "Sanitized Document"]>
       (<["/Author" := PText "CleanSheet"]>
       (<["/Subject" := PText "Document Sanitized"]>
       (<["/Creator" := PText "CleanSheet Sanitization System"]>
       (<["/Producer" := PText "CleanSheet"]>
       (<["/CreationDate" := PText (now E)]> (info writer)))))) |}.

Definition disarm_pdf {R} (pdf_path output_path : string)
  : M fsys R bool :=
  def (
    try_except (
      f <- read_file pdf_path ;;
      reader <- call (parse_pdf f) ;;
      let writer :=
        {| pages := []; root := PdfWriter_root E;
           info := PdfWriter_info E |} in
      (* Copy pages without preserving any interactive content *)
      let writer :=
        foldl (λ writer page, add_page writer (disarm_page page))
              writer (pages reader) in
      (* Remove document-level JavaScript *)
      writer <- remove_from_names "/JavaScript" writer ;;
      (* Remove embedded files *)
      writer <- remove_from_names "/EmbeddedFiles" writer ;;
      (* Remove OpenAction (auto-execute on open) *)
      let writer := remove_open_action writer in
      (* Strip all metadata *)
      let writer := add_metadata writer in
      (* Write cleaned PDF *)
      write_file output_path (FPdf writer) ;;;
      return_ true)
    (λ _,
      (* If CDR fails, copy original for further processing *)
      shutil_copy pdf_path output_path ;;;
      return_ false)).

(** *** Format normalizer *)

(** The office converter run on [input_path] with [--outdir] the
    directory of the requested output: it leaves its result, if any,
    at [<outdir>/<stem>.pdf]. *)
Definition run_libreoffice {R} (input_path outdir : string)
  : M fsys R unit :=
  f <- read_file input_path ;;
  produced <- call (libreoffice E f) ;;
  match produced with
  | Some g =>
      write_file
        (Str.path_join outdir
           (Str.splitext_0 (Str.basename input_path) +:+ ".pdf")) g
  | None => ret tt
  end.

Definition strip_macros_from_office {R} (input_path output_pdf : string)
  : M fsys R bool :=
  def (
    try_except (
      run_libreoffice input_path (Str.dirname output_pdf) ;;;
      (* Find the converted file *)
      let converted_name :=
        Str.splitext_0 (Str.basename input_path) +:+ ".pdf" in
      let converted_path :=
        Str.path_join (Str.dirname output_pdf) converted_name in
      present <- os_path_exists converted_path ;;
      when present (
        os_rename converted_path output_pdf ;;;
        return_ true) ;;;
      return_ false)
    (λ _, return_ false)).

Definition is_in (x : string) (l : list string) : bool :=
  existsb (String.eqb x) l.

Definition convert_to_pdf {R} (input_path output_path : string)
  : M fsys R bool :=
  def (
    ext <- match Str.rsplit_dot input_path with
           | Some (_, e) => ret (Str.lower e)
           | None => raise "IndexError"
           end ;;
    when (String.eqb ext "pdf") (
      (* Apply CDR to existing PDF *)
      let temp_cdr := output_path +:+ ".cdr.pdf" in
      disarm_pdf input_path temp_cdr ;;;
      (* Use CDR'd version for further processing *)
      shutil_copy temp_cdr output_path ;;;
      present <- os_path_exists temp_cdr ;;
      when present (os_remove temp_cdr) ;;;
      return_ true) ;;;
    when (is_in ext ["jpg"; "jpeg"; "png"]) (
      f <- read_file input_path ;;
      img <- match f with
             | FImage img => ret img
             | _ => raise "UnidentifiedImageError"
             end ;;
      (* Strip all metadata *)
      let img := strip_metadata_from_image img in
      (* Convert to RGB if necessary *)
      let img :=
        if negb (String.eqb (mode img) "RGB") then
          {| mode := "RGB"; width := width img; height := height img;
             metadata := metadata img |}
        else img in
      (* Save as PDF: one page of the image's size at 100 DPI *)
      let w := (inject_Z (width img) * 72 / 100)%Q in
      let h := (inject_Z (height img) * 72 / 100)%Q in
      write_file output_path
        (FCanvas (w, h)
           [[ {| drawn := img; at_x := 0; at_y := 0;
                 drawn_width := w; drawn_height := h |} ]]) ;;;
      return_ true) ;;;
    when (is_in ext ["doc"; "docx"; "xls"; "xlsx"; "ppt"; "pptx"; "odt";
                     "rtf"]) (
      (* Office documents - macros automatically stripped during conversion *)
      converted <- strip_macros_from_office input_path output_path ;;
      return_ converted) ;;;
    (* Generic conversion for other formats *)
    try_except (
      run_libreoffice input_path (Str.dirname output_path) ;;;
      let converted_name :=
        Str.splitext_0 (Str.basename input_path) +:+ ".pdf" in
      let converted_path :=
        Str.path_join (Str.dirname output_path) converted_name in
      present <- os_path_exists converted_path ;;
      when present (
        os_rename converted_path output_path ;;;
        return_ true) ;;;
      return_ false)
    (λ _, return_ false)).

(** *** Pixel reconstruction pass *)

Definition pdf_to_pixels {R} (pdf_path : string)
  : M fsys R (option (list image)) :=
  def (
    try_except (
      f <- read_file pdf_path ;;
      (* Higher DPI for better quality *)
      images <- call (convert_from_path E f 200) ;;
      return_ (Some images))
    (λ _, return_ None)).

(** [canvas.Canvas(output_path, pagesize=letter)] *)
Definition Canvas (size : Q * Q) : canvas :=
  {| pagesize := size; finished := []; current := [] |}.

Definition drawImage (c : canvas) (img : image) (x y w h : Q) : canvas :=
  {| pagesize := pagesize c; finished := finished c;
     current := current c ++ [ {| drawn := img; at_x := x; at_y := y;
                                  drawn_width := w; drawn_height := h |} ] |}.

Definition showPage (c : canvas) : canvas :=
  {| pagesize := pagesize c; finished := finished c ++ [current c];
     current := [] |}.

(** [c.save()]: a page still under construction is finished first. *)
Definition save (c : canvas) : file :=
  FCanvas (pagesize c)
    (match current c with
     | [] => finished c
     | _ => finished c ++ [current c]
     end).

(** The body of the loop [for i, img in enumerate(images)]. *)
Definition draw_page {R} (c : canvas) (img : image) : M fsys R canvas :=
  (* Strip any remaining metadata *)
  let img := strip_metadata_from_image img in
  let img_width := width img in
  let img_height := height img in
  when (img_width =? 0) (raise "ZeroDivisionError") ;;;
  let aspect := (inject_Z img_height / inject_Z img_width)%Q in
  let page_width := letter.1 in
  let page_height := letter.2 in
  let display_width := (page_width - 40)%Q in
  let display_height := (display_width * aspect)%Q in
  let exceeds := negb (Qle_bool display_height (page_height - 40)) in
  let display_height' :=
    if exceeds then (page_height - 40)%Q else display_height in
  let display_width' :=
    if exceeds then (display_height' / aspect)%Q else display_width in
  let x := ((page_width - display_width') / 2)%Q in
  let y := ((page_height - display_height') / 2)%Q in
  let c := drawImage c img x y display_width' display_height' in
  ret (showPage c).

Fixpoint draw_pages {R} (c : canvas) (images : list image)
  : M fsys R canvas :=
  match images with
  | [] => ret c
  | img :: rest =>
      c <- draw_page c img ;;
      draw_pages c rest
  end.

Definition pixels_to_pdf {R} (images : list image) (output_path : string)
  : M fsys R bool :=
  def (
    try_except (
      let c := Canvas letter in
      c <- draw_pages c images ;;
      write_file output_path (save c) ;;;
      return_ true)
    (λ _, return_ false)).

(** *** Output validator *)

(** [key in reader.trailer.get('/Root', {})]: [dict.get] hands out the
    trailer's entry as the file holds it, without resolving a reference
    as [reader.trailer['/Root']] does, and a reference supports no [in]:
    the test raises [TypeError] unless the trailer holds the catalog
    itself. *)
Definition in_trailer_Root (f : file) (reader : pdf) (key : string)
  : outcome bool :=
  if trailer_holds_catalog E f then
    Ok (bool_decide (is_Some (root reader !! key)))
  else Err "TypeError".

(** [key in reader.trailer['/Root']['/Names']], reached when the catalog
    has a [/Names] entry. *)
Definition in_Names (reader : pdf) (key : string) : outcome bool :=
  match root reader !! "/Names" with
  | Some names => py_contains key names
  | None => Err "KeyError"
  end.

Definition validate_output {R} (output_path : string) : M fsys R bool :=
  def (
    try_except (
      present <- os_path_exists output_path ;;
      when (negb present) (return_ false) ;;;
      f <- read_file output_path ;;
      when (is_empty_file f) (return_ false) ;;;
      (* Try to open as PDF to verify it's valid *)
      try_except (
        reader <- call (parse_pdf f) ;;
        (* Verify no JavaScript *)
        has_names <- call (in_trailer_Root f reader "/Names") ;;
        when has_names (
          present <- call (in_Names reader "/JavaScript") ;;
          when present (return_ false)) ;;;
        (* Verify no embedded files *)
        has_names <- call (in_trailer_Root f reader "/Names") ;;
        when has_names (
          present <- call (in_Names reader "/EmbeddedFiles") ;;
          when present (return_ false)) ;;;
        return_ true)
      (λ _, return_ false))
    (λ _, return_ false)).

(** *** The worker process *)

(** [not s] for an environment variable: unset or empty. *)
Definition unset (v : option string) : bool :=
  match v with
  | Some s => Str.is_empty s
  | None => true
  end.

(** [not pixel_images]: [None] or the empty list. *)
Definition falsy {A} (l : option (list A)) : bool :=
  match l with
  | Some (_ :: _) => false
  | _ => true
  end.

(** An exception that no handler caught ends the interpreter with exit
    status 1. *)
Definition uncaught {S A} (m : M S Z A) : M S Z A :=
  try_except m (λ _, return_ 1).

(** [main()] as the script calls it (lines 363-364); its result is the
    exit status of the process: the status given to [sys.exit], which
    raises [SystemExit] (not an [Exception], so it passes the [except]
    clause and runs the [finally] block on its way out), or 1 when an
    exception escapes [main], as one of [os.makedirs] does. *)
Definition main : M fsys Z Z :=
  def (uncaught (
    let input_file := INPUT_FILE E in
    let output_file := OUTPUT_FILE E in
    when (unset input_file || unset output_file) (return_ 1) ;;;
    let input_file := default EmptyString input_file in
    let output_file := default EmptyString output_file in
    present <- os_path_exists input_file ;;
    when (negb present) (return_ 1) ;;;
    let temp_dir := "/tmp/cleansheet_work" in
    (* from here on the directory exists, and the finally block's
       os.path.exists(temp_dir) holds *)
    os_makedirs temp_dir ;;;
    try_finally
      (try_except (
         (* Step 1: Convert to PDF with CDR and macro stripping *)
         let intermediate_pdf := Str.path_join temp_dir "intermediate.pdf" in
         converted <- convert_to_pdf input_file intermediate_pdf ;;
         when (negb converted) (return_ 1) ;;;
         (* Step 2: Apply additional PDF-level CDR if needed *)
         let cdr_pdf := Str.path_join temp_dir "cdr.pdf" in
         disarm_pdf intermediate_pdf cdr_pdf ;;;
         (* Step 3: Render to pixels (ultimate sanitization) *)
         pixel_images <- pdf_to_pixels cdr_pdf ;;
         when (falsy pixel_images) (return_ 1) ;;;
         (* Step 4: Reconstruct PDF from pixels *)
         reconstructed <- pixels_to_pdf (default [] pixel_images) output_file ;;
         when (negb reconstructed) (return_ 1) ;;;
         (* Step 5: Validate output *)
         valid <- validate_output output_file ;;
         when (negb valid) (return_ 1) ;;;
         return_ 0)
         (λ _, return_ 1))
      (* Secure cleanup of temporary files *)
      (shutil_rmtree temp_dir))).

End Pipeline.

End Worker.

(** ** The vocabulary of the specification *)

Module Spec.

Import App.

(** *** Scan verdicts *)

(** The tagged verdict of the data model (the indeterminate verdicts are
    the remaining results of the client). *)
Inductive verdict :=
  | Clean (engines_total : Z)
  | Suspicious (count : Z)
  | Malicious (count : Z).

(** The interpretation of a statistics object as the specification words
    it: [malicious >= 1] is malicious; [malicious == 0 && suspicious > 3]
    is suspicious; otherwise clean. *)
Definition spec_verdict (stats : gmap string Z) : verdict :=
  let malicious := stats_get stats "malicious" in
  let suspicious := stats_get stats "suspicious" in
  if 1 <=? malicious then Malicious malicious
  else if (malicious =? 0) && (3 <? suspicious) then Suspicious suspicious
  else Clean (stats_get stats "harmless" + stats_get stats "undetected").

(** How the client reports a verdict to its caller: the flag [is_clean]
    and the message. *)
Definition scan_result (v : verdict) : bool * string :=
  match v with
  | Malicious n =>
      (false, "THREAT DETECTED: " +:+ pretty n
              +:+ " engines flagged as malicious")
  | Suspicious n =>
      (false, "SUSPICIOUS: " +:+ pretty n
              +:+ " engines flagged as suspicious")
  | Clean t => (true, "Clean (0/" +:+ pretty t +:+ " engines)")
  end.

(** *** The regimes of the reputation client *)

(** Hash lookup: the service answers [found] for the digest of [b] and
    these are its [last_analysis_stats]. *)
Definition lookup_stats (E : env) (b : blob) : option (gmap string Z) :=
  match files_get (vt E) (blob_sha256 b) with
  | Ok r => if files_status_code r =? 200 then last_analysis_stats r else None
  | Err _ => None
  end.

(** Submit: the service answers [not-found], accepts the upload of [b]
    and names the analysis. *)
Definition submitted (E : env) (b : blob) : option string :=
  match files_get (vt E) (blob_sha256 b) with
  | Ok r =>
      if files_status_code r =? 404 then
        match files_post (vt E) b with
        | Ok u =>
            if (upload_status_code u =? 200) || (upload_status_code u =? 201)
            then upload_id u else None
        | Err _ => None
        end
      else None
  | Err _ => None
  end.

(** A poll reply that leaves the analysis running. *)
Definition still_pending (r : analysis_reply) : bool :=
  negb (analysis_status_code r =? 200)
  || match analysis_status r with
     | Some s => negb (String.eqb s "completed")
     | None => false
     end.

Definition pending_before (E : env) (id : string) (i : nat) : bool :=
  forallb (λ j, match analyses_get (vt E) id j with
                | Ok r => still_pending r
                | Err _ => false
                end) (seq 0 i).

(** Poll: the analysis [id] is still running in the polls before the
    [i]-th, which reports [completed] with these [stats]. *)
Definition polled_stats (E : env) (id : string) (i : nat)
  : option (gmap string Z) :=
  if pending_before E id i then
    match analyses_get (vt E) id i with
    | Ok r =>
        if analysis_status_code r =? 200 then
          match analysis_status r with
          | Some s => if String.eqb s "completed" then analysis_stats r
                      else None
          | None => None
          end
        else None
    | Err _ => None
    end
  else None.

(** The statistics the client gets to interpret for a file of content
    [b], in either regime. *)
Definition reported (E : env) (b : blob) (stats : gmap string Z) : Prop :=
  lookup_stats E b = Some stats
  ∨ ∃ id i, submitted E b = Some id ∧ (i < 12)%nat
            ∧ polled_stats E id i = Some stats.

(** *** Degraded operation *)

Definition is_err {A} (o : outcome A) : bool :=
  match o with Ok _ => false | Err _ => true end.

Definition is_ok {A} (o : outcome A) : bool :=
  match o with Ok _ => true | Err _ => false end.

(** A transport error in one of the twelve polls of analysis [id], the
    earlier ones having left the analysis running. *)
Definition poll_error (E : env) (id : string) : bool :=
  existsb (λ i, pending_before E id i && is_err (analyses_get (vt E) id i))
          (seq 0 12).

(** A transport error in one of the requests the client makes for a file
    of content [b]: the lookup, the upload after [not-found], or a poll. *)
Definition transport_error (E : env) (b : blob) : bool :=
  match files_get (vt E) (blob_sha256 b) with
  | Err _ => true
  | Ok r =>
      if files_status_code r =? 404 then
        match files_post (vt E) b with
        | Err _ => true
        | Ok _ =>
            match submitted E b with
            | Some id => poll_error E id
            | None => false
            end
        end
      else false
  end.

(** No credential configured, or a transport error. *)
Definition degraded (E : env) (b : blob) : bool :=
  Str.is_empty (VIRUSTOTAL_API_KEY E) || transport_error E b.

(** An indeterminate verdict: the client reports [is_clean] with the
    reason it could not tell. *)
Definition indeterminate (r : bool * string) : Prop :=
  r = (true, "No API key configured")
  ∨ ∃ e, r = (true, "Scan error - proceeding: " +:+ e).

(** *** Jobs *)

(** The verdict the client returns for a staged file of content [b]. *)
Definition verdict_on (E : env) (b : blob) : bool * string :=
  match @scan_with_virustotal E unit "f" "j"
          {| fs := {[ "f" := b ]}; trace := [] |} with
  | (Normal r, _) => r
  | _ => (true, EmptyString)
  end.

(** The request passes the validation of the controller and its file is
    staged: a POST with a [file] part whose name has an allowed extension
    and whose size is within the limit, saved without error. *)
Definition staged_upload (E : env) (req : request) : option upload :=
  if String.eqb (method req) "POST" then
    match files req !! "file" with
    | Some u =>
        if negb (Str.is_empty (filename u)) && allowed_file (filename u)
           && (blob_size (content u) <=? MAX_FILE_SIZE)%N
           && is_ok (file_save E)
        then Some u else None
    | None => None
    end
  else None.

(** The staged paths of the job. *)
Definition input_path (E : env) (u : upload) : string :=
  Str.path_join UPLOAD_FOLDER
    (uuid4 E +:+ "_" +:+ secure_filename E (filename u)).

Definition output_path (E : env) : string :=
  Str.path_join OUTPUT_FOLDER (uuid4 E +:+ "_sanitized.pdf").

Definition image_ready (d : docker) : bool :=
  match images_get d with
  | ImageFound => true
  | ImageNotFound => is_ok (images_build d)
  | ImageError _ => false
  end.

(** The sandbox ran to completion: the daemon answered every call, the
    image was present or built, the worker ran in instance [c], exited
    with status 0 and left the non-empty output [b]; [k] destruction
    calls had been made before. *)
Definition worker_succeeded (E : env) (k : nat) : option (string * blob) :=
  match containers_run (dk E), worker_output (dk E), container_wait (dk E) with
  | Ok c, Some b, Ok 0 =>
      if is_ok (connect (dk E)) && image_ready (dk E)
         && is_ok (container_logs (dk E))
         && is_ok (container_remove (dk E) k)
         && negb (blob_size b =? 0)%N
      then Some (c, b) else None
  | _, _, _ => None
  end.

(** The Docker calls of a run of the supervisor that reaches the
    post-scan, the [finally] block included. *)
Definition sandbox_trace (E : env) (c : string) : list event :=
  match images_get (dk E) with
  | ImageNotFound => [EvBuild]
  | _ => []
  end ++ [EvRun c; EvWait c; EvLogs c; EvRemove c; EvRemove c].

(** The world when the controller answers a delivered job: both staged
    artifacts are in place. *)
Definition delivered_world (E : env) (u : upload) (c : string) (b : blob)
    (w : world) : world :=
  {| fs := <[output_path E := b]> (<[input_path E u := content u]> (fs w));
     trace := trace w ++ sandbox_trace E c |}.

(** The world when the controller answers a job that failed its
    post-scan: neither staged artifact is left. *)
Definition rejected_world (E : env) (u : upload) (c : string) (b : blob)
    (w : world) : world :=
  {| fs := delete (input_path E u)
             (delete (output_path E)
                (<[output_path E := b]>
                   (<[input_path E u := content u]> (fs w))));
     trace := trace w ++ sandbox_trace E c |}.

Definition threat_headers (details : string) : list (string * string) :=
  [("X-Threat-Warning", "Original file contained malware - now sanitized");
   ("X-Threat-Details", details)].

(** The same environment with another reputation service. *)
Definition with_vt (E : env) (service : virustotal) : env :=
  {| VIRUSTOTAL_API_KEY := VIRUSTOTAL_API_KEY E; vt := service; dk := dk E;
     secure_filename := secure_filename E; uuid4 := uuid4 E;
     file_save := file_save E; save_leaves := save_leaves E |}.

(** The response of a delivered job: the sanitized file as an
    attachment, the threat-warning headers when the pre-scan of the
    upload did not pass, and the cleanup callback. *)
Definition delivery (E : env) (u : upload) : response :=
  {| status := 200;
     payload :=
       SendFile (output_path E)
         ("sanitized_" +:+ Str.rsplit_dot_0 (secure_filename E (filename u))
          +:+ ".pdf");
     headers :=
       if (verdict_on E (content u)).1 then []
       else threat_headers (verdict_on E (content u)).2;
     on_close := [cleanup (input_path E u) (output_path E)] |}.

(** The world in which the supervisor is started: the upload is staged. *)
Definition staged_world (E : env) (u : upload) (w : world) : world :=
  {| fs := <[input_path E u := content u]> (fs w); trace := trace w |}.

(** The cleanup invariant as the specification words it for the input:
    its removal is immediate, so when the controller has answered a staged
    job the input file is gone. *)
Definition input_removed_at_response (E : env) (req : request) (w : world)
  : Prop :=
  ∀ u resp w',
    staged_upload E req = Some u →
    @upload_file E unit req w = (Normal resp, w') →
    fs w' !! input_path E u = None.

(** *** Sandbox instances *)

Definition is_run (e : event) : bool :=
  match e with EvRun _ | EvLaunchFailed _ => true | _ => false end.

(** The instances created in a call log, started or not. *)
Definition created (t : list event) : nat := length (List.filter is_run t).

(** The log creates the instance [c] at position [i]. *)
Definition creates (t : list event) (i : nat) (c : string) : Prop :=
  t !! i = Some (EvRun c) ∨ t !! i = Some (EvLaunchFailed c).

(** Every instance created in the log has a destruction call on it later
    in the log. *)
Definition destroyed_after_creation (t : list event) : Prop :=
  ∀ i c, creates t i c →
         ∃ j, (i < j)%nat ∧ t !! j = Some (EvRemove c).

(** Every instance that [containers.run] returned has a destruction call
    on it later in the log. *)
Definition destroyed_after_launch (t : list event) : Prop :=
  ∀ i c, t !! i = Some (EvRun c) →
         ∃ j, (i < j)%nat ∧ t !! j = Some (EvRemove c).

(** The image build, when the supervisor had to attempt one. *)
Definition build_log (E : env) : list event :=
  match images_get (dk E) with
  | ImageNotFound => [EvBuild]
  | _ => []
  end.

(** The Docker call logs of the supervisor, one per way of leaving it:
    no daemon; no instance created (the image lookup, the build or the
    creation failed); the instance created and its start failed; the wait
    raised (timeout included); the log capture raised; and the paths on
    which the wait and the log capture returned. *)
Inductive supervisor_log (E : env) : list event → Prop :=
  | log_no_daemon : supervisor_log E []
  | log_not_created : supervisor_log E (build_log E)
  | log_start_failed c : supervisor_log E (build_log E ++ [EvLaunchFailed c])
  | log_wait_raised c :
      supervisor_log E (build_log E ++ [EvRun c; EvWait c; EvRemove c])
  | log_logs_raised c :
      supervisor_log E
        (build_log E ++ [EvRun c; EvWait c; EvLogs c; EvRemove c])
  | log_completed c :
      supervisor_log E
        (build_log E ++ [EvRun c; EvWait c; EvLogs c; EvRemove c; EvRemove c]).


End Spec.

(** ** Concrete jobs *)

Module Examples.

Import App Spec.

(** A reputation service that knows four digests: [flagged] (two engines
    say malicious), [odd] (five say suspicious), [fresh] (not found: the
    upload is accepted and the analysis completes at the third poll, four
    engines saying suspicious) and everything else (found, clean). *)
Definition service : virustotal := {|
  files_get := λ h,
    if String.eqb h "flagged" then
      Ok {| files_status_code := 200;
            last_analysis_stats := Some {[ "malicious" := 2 ]} |}
    else if String.eqb h "odd" then
      Ok {| files_status_code := 200;
            last_analysis_stats := Some {[ "suspicious" := 5 ]} |}
    else if String.eqb h "fresh" then
      Ok {| files_status_code := 404; last_analysis_stats := None |}
    else
      Ok {| files_status_code := 200;
            last_analysis_stats :=
              Some {[ "harmless" := 60; "undetected" := 10 ]} |};
  files_post := λ _,
    Ok {| upload_status_code := 200; upload_id := Some "analysis-1" |};
  analyses_get := λ _ i,
    if (i <? 2)%nat then
      Ok {| analysis_status_code := 200; analysis_status := Some "queued";
            analysis_stats := None |}
    else
      Ok {| analysis_status_code := 200;
            analysis_status := Some "completed";
            analysis_stats := Some {[ "suspicious" := 4 ]} |};
|}.

(** A reputation service that cannot be reached. *)
Definition unreachable : virustotal := {|
  files_get := λ _, Err "ConnectionError";
  files_post := λ _, Err "ConnectionError";
  analyses_get := λ _ _, Err "ConnectionError";
|}.

(** A daemon on which everything works; the worker leaves [out] at the
    output path and exits with [code].  Destroying an instance twice
    raises [NotFound]. *)
Definition daemon (out : option blob) (code : Z) : docker := {|
  connect := Ok tt;
  images_get := ImageFound;
  images_build := Ok tt;
  containers_create := Ok "c0ffee";
  container_start := Ok tt;
  worker_output := out;
  container_wait := Ok code;
  container_logs := Ok "SANITIZATION WORKER STARTED";
  container_remove := λ n, match n with O => Ok tt | _ => Err "NotFound" end;
|}.

(** A daemon that creates the instance and then fails to start it. *)
Definition start_fails : docker := {|
  connect := Ok tt;
  images_get := ImageFound;
  images_build := Ok tt;
  containers_create := Ok "c0ffee";
  container_start := Err "APIError: OCI runtime create failed";
  worker_output := None;
  container_wait := Err "unused";
  container_logs := Err "unused";
  container_remove := λ _, Ok tt;
|}.

Definition environment (key : string) (svc : virustotal) (d : docker) : env := {|
  VIRUSTOTAL_API_KEY := key;
  vt := svc;
  dk := d;
  secure_filename := id;
  uuid4 := "1b4e28ba";
  file_save := Ok tt;
  save_leaves := None;
|}.

Definition document (name : string) (size : N) (digest : string) : upload :=
  {| filename := name;
     content := {| blob_size := size; blob_sha256 := digest |} |}.

Definition post (u : upload) : request :=
  {| method := "POST"; files := {[ "file" := u ]} |}.

Definition empty_world : world := {| fs := ∅; trace := [] |}.

(** The sanitized output of the examples: 4 KiB, with the given digest. *)
Definition sanitized (digest : string) : blob :=
  {| blob_size := 4096; blob_sha256 := digest |}.

End Examples.

(** ** The vocabulary of the specification: the worker *)

Module WorkerSpec.

Import Worker.

(** *** Disarmed documents *)

(** A page with no annotation, automatic-action or action entry. *)
Definition page_disarmed (page : gmap string pdfobj) : Prop :=
  page !! "/Annots" = None ∧ page !! "/AA" = None ∧ page !! "/A" = None.

(** The catalog's name dictionary has the subtree [key]. *)
Definition names_entry (catalog : gmap string pdfobj) (key : string) : Prop :=
  ∃ d, catalog !! "/Names" = Some (PDict d) ∧ is_Some (d !! key).

(** No executable content addressable from the standard entry points. *)
Definition disarmed (d : pdf) : Prop :=
  Forall page_disarmed (pages d)
  ∧ ¬ names_entry (root d) "/JavaScript"
  ∧ ¬ names_entry (root d) "/EmbeddedFiles"
  ∧ root d !! "/OpenAction" = None.

(** What the page edits leave of a page: the three entries are gone,
    and every other entry is as it was; [/Parent] and [/StructParents],
    which [add_page] replaces and drops, are left out. *)
Definition page_kept (page page' : gmap string pdfobj) : Prop :=
  page_disarmed page'
  ∧ ∀ k, k ≠ "/Annots" → k ≠ "/AA" → k ≠ "/A" →
         k ≠ "/Parent" → k ≠ "/StructParents" →
         page' !! k = page !! k.

(** The catalog has no [/Names] entry, or its [/Names] is a dictionary. *)
Definition names_absent_or_dict (catalog : gmap string pdfobj) : bool :=
  match catalog !! "/Names" with
  | None => true
  | Some (PDict _) => true
  | Some _ => false
  end.

(** *** Letterboxing *)

(** The drawing keeps at least [m] points free on each side of the
    letter page. *)
Definition margin_of (m : Q) (pl : placement) : Prop :=
  (m <= at_x pl ∧ at_x pl + drawn_width pl <= 612 - m
   ∧ m <= at_y pl ∧ at_y pl + drawn_height pl <= 792 - m)%Q.

(** The drawing is centered on the letter page. *)
Definition centered (pl : placement) : Prop :=
  (at_x pl + drawn_width pl + at_x pl == 612
   ∧ at_y pl + drawn_height pl + at_y pl == 792)%Q.

(** The drawing has the aspect ratio of the image. *)
Definition aspect_preserved (img : image) (pl : placement) : Prop :=
  (drawn_height pl * inject_Z (width img)
   == drawn_width pl * inject_Z (height img))%Q.

(** Width first: the drawing takes the available width of 572 points,
    unless its height would then exceed the available 752 points, in
    which case it takes the available height. *)
Definition width_first (img : image) (pl : placement) : Prop :=
  if Qle_bool (572 * (inject_Z (height img) / inject_Z (width img))) 752
  then (drawn_width pl == 572)%Q
  else (drawn_height pl == 752)%Q.

(** The images of a rasterized page are not degenerate. *)
Definition proper (img : image) : Prop := 0 < width img ∧ 0 < height img.

(** A page holding one drawing. *)
Definition page_of (pl : placement) : list placement := [pl].

(** The pixel pass as the specification words it: every page of the
    output is one image with a 40-point margin. *)
Definition pages_have_margin_40 (E : env) (images : list image) : Prop :=
  ∀ size pgs pl,
    (@pixels_to_pdf E unit images "/worker/output/out.pdf" ∅).2
      !! "/worker/output/out.pdf" = Some (FCanvas size pgs) →
    pl ∈ concat pgs →
    margin_of 40 pl.

(** *** The worker on a document *)

(** pdf2image yields no page image for a document without pages: it
    raises, or returns the empty list. *)
Definition no_pages_no_images (E : env) : Prop :=
  ∀ f d dpi images,
    parse_pdf f = Ok d → pages d = [] →
    convert_from_path E f dpi = Ok images → images = [].

(** The worker exits with success, having written a zero-page PDF. *)
Definition zero_page_success (E : env) (fs : gmap string file) : Prop :=
  ∃ fs' out f d,
    main E fs = (Normal 0, fs')
    ∧ OUTPUT_FILE E = Some out
    ∧ fs' !! out = Some f
    ∧ parse_pdf f = Ok d
    ∧ pages d = [].

End WorkerSpec.

(** ** Concrete documents *)

Module WorkerExamples.

Import Worker.

(** A rasterizer that renders every page as a letter-sized sheet:
    8.5 by 11 inches at the requested resolution. *)
Definition rasterizer (f : file) (dpi : Z) : outcome (list image) :=
  match parse_pdf f with
  | Ok d =>
      Ok ((λ _, {| mode := "RGB"; width := 17 * dpi / 2; height := 11 * dpi;
                   metadata := [] |}) <$> pages d)
  | Err e => Err e
  end.

(** The worker of a job: PyPDF2's new writer has a catalog with only its
    type and an information dictionary naming the library. *)
Definition worker : env := {|
  INPUT_FILE := Some "/worker/input/1b4e28ba_report.pdf";
  OUTPUT_FILE := Some "/worker/output/1b4e28ba_sanitized.pdf";
  PdfWriter_root := {[ "/Type" := PName "/Catalog" ]};
  PdfWriter_info := {[ "/Producer" := PText "PyPDF2" ]};
  now := "D:20240101000000";
  convert_from_path := rasterizer;
  libreoffice := λ _, Err "CalledProcessError";
  pil_raises := λ _, false;
  trailer_holds_catalog := λ _, false;
|}.

(** A document of [n] annotated pages that opens with a script. *)
Definition hostile (n : nat) : pdf := {|
  pages := replicate n {[ "/Type" := PName "/Page";
                          "/Annots" := PArray [PDict ∅];
                          "/AA" := PDict ∅ ]};
  root := {[ "/Type" := PName "/Catalog";
             "/OpenAction" := PDict {[ "/S" := PName "/JavaScript" ]};
             "/Names" := PDict {[ "/JavaScript" := PDict ∅;
                                  "/EmbeddedFiles" := PDict ∅ ]} ]};
  info := {[ "/Author" := PText "someone" ]};
|}.

(** The worker's filesystem holding the job input. *)
Definition mounted (d : pdf) : gmap string file :=
  {[ "/worker/input/1b4e28ba_report.pdf" := FPdf d ]}.

(** A page rendered at 200 DPI from a letter-sized sheet. *)
Definition letter_scan : image :=
  {| mode := "RGB"; width := 1700; height := 2200; metadata := [] |}.

(** A panorama, wider than the page is. *)
Definition panorama : image :=
  {| mode := "RGB"; width := 4000; height := 1000; metadata := [] |}.

(** A tall receipt. *)
Definition receipt : image :=
  {| mode := "RGB"; width := 600; height := 3000; metadata := [] |}.

End WorkerExamples.

(** ** Further concrete services and daemons *)

Module MoreExamples.

Import App.

(** A service that answers every lookup with the given status and no
    usable body. *)
Definition answering (code : Z) : virustotal := {|
  files_get := λ _,
    Ok {| files_status_code := code; last_analysis_stats := None |};
  files_post := λ _, Err "unused";
  analyses_get := λ _ _, Err "unused";
|}.

(** A service that knows no file and refuses uploads with 413. *)
Definition refusing_uploads : virustotal := {|
  files_get := λ _,
    Ok {| files_status_code := 404; last_analysis_stats := None |};
  files_post := λ _,
    Ok {| upload_status_code := 413; upload_id := None |};
  analyses_get := λ _ _, Err "unused";
|}.

(** A service that knows no file, accepts uploads, and never finishes an
    analysis. *)
Definition never_finishing : virustotal := {|
  files_get := λ _,
    Ok {| files_status_code := 404; last_analysis_stats := None |};
  files_post := λ _,
    Ok {| upload_status_code := 200; upload_id := Some "analysis-2" |};
  analyses_get := λ _ _,
    Ok {| analysis_status_code := 200; analysis_status := Some "queued";
          analysis_stats := None |};
|}.

(** An environment whose disk fills up while an upload is saved: the save
    raises after it has written the first 512 bytes. *)
Definition full_disk : env := {|
  VIRUSTOTAL_API_KEY := "key";
  vt := Examples.service;
  dk := Examples.daemon None 0;
  secure_filename := id;
  uuid4 := "1b4e28ba";
  file_save := Err "No space left on device";
  save_leaves := Some {| blob_size := 512; blob_sha256 := "partial" |};
|}.

End MoreExamples.

(** ** What the supervisor leaves in the staging areas *)

Module Staging.

Import App Spec.

(** The worker ran: the daemon answered, the image was there or was
    built, and [containers.run] returned the instance. *)
Definition launched (E : env) : bool :=
  is_ok (connect (dk E)) && image_ready (dk E)
  && is_ok (containers_run (dk E)).

(** The staging areas once the worker has run: its output, if it left
    one, is at the output path. *)
Definition worker_wrote (E : env) (output : string) (fs : gmap string blob)
  : gmap string blob :=
  match worker_output (dk E) with
  | Some b => <[output := b]> fs
  | None => fs
  end.

(** The supervisor reaches the post-scan and the post-scan does not pass:
    the worker ran and exited with status 0, the logs were read, the
    destruction call (made after [k] earlier ones) succeeded, and the file
    then at the output path is not empty and is reported as not clean. *)
Definition post_scan_rejects (E : env) (k : nat) (output : string)
    (fs : gmap string blob) : bool :=
  launched E
  && match container_wait (dk E) with Ok 0 => true | _ => false end
  && is_ok (container_logs (dk E))
  && is_ok (container_remove (dk E) k)
  && match worker_wrote E output fs !! output with
     | Some b => negb (blob_size b =? 0)%N && negb (verdict_on E b).1
     | None => false
     end.

(** The staging areas when the supervisor returns. *)
Definition staged_after (E : env) (k : nat) (output : string)
    (fs : gmap string blob) : gmap string blob :=
  if post_scan_rejects E k output fs then
    delete output (worker_wrote E output fs)
  else if launched E then worker_wrote E output fs
  else fs.

End Staging.

(** ** app.py: the failsafe sweeper *)

Module Sweeper.

(** An entry of a folder: a regular file or a directory, with its
    modification time in seconds.  A Python float is modelled by the
    rational it denotes; the arithmetic on floats is not exact, and the
    one operation the sweeper uses, the subtraction, is the parameter
    [float_sub] below. *)
Record entry := { is_dir : bool; mtime : Q }.

(** [for x in l: acc = body(acc, x)] *)
Fixpoint for_in {S R A B} (l : list A) (body : B → A → M S R B) (acc : B)
  : M S R B :=
  match l with
  | [] => ret acc
  | x :: rest =>
      acc <- body acc x ;;
      for_in rest body acc
  end.

Section Sweep.
Context {R : Type}.

(** [a - b] on floats: the float the platform gives for the difference
    (in binary64 the exact difference rounded to the nearest float, so
    that [3600.3 - 0.30000000000000004] is [3600.0]). *)
Variable float_sub : Q → Q → Q.

(** The folders that exist, each with its entries by name. *)
Abbreviation disk := (gmap string (gmap string entry)).

Definition os_path_exists (folder : string) : M disk R bool :=
  gets (λ d : disk, bool_decide (is_Some (d !! folder))).

Definition os_listdir (folder : string) : M disk R (list string) :=
  d <- gets id ;;
  match (d : disk) !! folder with
  | Some dir => ret ((map_to_list dir).*1)
  | None => raise "FileNotFoundError"
  end.

(** [os.path.getmtime(os.path.join(folder, filename))] *)
Definition os_path_getmtime (folder filename : string) : M disk R Q :=
  d <- gets id ;;
  match (d : disk) !! folder with
  | Some dir =>
      match dir !! filename with
      | Some e => ret (mtime e)
      | None => raise "FileNotFoundError"
      end
  | None => raise "FileNotFoundError"
  end.

(** [os.remove(os.path.join(folder, filename))]: refuses a directory. *)
Definition os_remove (folder filename : string) : M disk R unit :=
  d <- gets id ;;
  match (d : disk) !! folder with
  | Some dir =>
      match dir !! filename with
      | Some e =>
          if is_dir e then raise "IsADirectoryError"
          else modify (λ d : disk, <[folder := delete filename dir]> d)
      | None => raise "FileNotFoundError"
      end
  | None => raise "FileNotFoundError"
  end.

(** The body of the inner loop, with its [try]/[except]. *)
Definition sweep_entry (current_time : Q) (folder : string) (cleaned : nat)
    (filename : string) : M disk R nat :=
  try_except (
    modified <- os_path_getmtime folder filename ;;
    let file_age := float_sub current_time modified in
    (* [file_age > 3600]: a float against an integer, compared exactly *)
    if negb (Qle_bool file_age 3600) then  (* 1 hour *)
      os_remove folder filename ;;;
      ret (S cleaned)
    else ret cleaned)
  (λ _, ret cleaned).

(** The body of the outer loop. *)
Definition sweep_folder (current_time : Q) (cleaned : nat) (folder : string)
  : M disk R nat :=
  present <- os_path_exists folder ;;
  if negb present then ret cleaned  (* continue *)
  else
    filenames <- os_listdir folder ;;
    for_in filenames (sweep_entry current_time folder) cleaned.

End Sweep.

(** [cleanup_orphaned_files()], with the subtraction of floats and
    [time.time()] as parameters. *)
Definition cleanup_orphaned_files {R} (float_sub : Q → Q → Q)
    (current_time : Q) : M (gmap string (gmap string entry)) R nat :=
  def (
    let cleaned := 0%nat in
    cleaned <- for_in [App.UPLOAD_FOLDER; App.OUTPUT_FOLDER]
                 (sweep_folder float_sub current_time) cleaned ;;
    return_ cleaned).

(** *** Vocabulary *)

(** A regular file whose age, as the floats give it, is more than 3600
    seconds at [now]. *)
Definition expired (float_sub : Q → Q → Q) (now : Q) (e : entry) : bool :=
  negb (is_dir e) && negb (Qle_bool (float_sub now (mtime e)) 3600).

(** Whether the sweeper removes what a name holds, and what it leaves. *)
Definition removes (float_sub : Q → Q → Q) (now : Q) (o : option entry)
  : bool :=
  match o with
  | Some e => expired float_sub now e
  | None => false
  end.

Definition kept (float_sub : Q → Q → Q) (now : Q) (o : option entry)
  : option entry :=
  if removes float_sub now o then None else o.

Definition entry_at (d : gmap string (gmap string entry))
    (folder filename : string) : option entry :=
  match d !! folder with
  | Some dir => dir !! filename
  | None => None
  end.

(** The expired files of a folder. *)
Definition expired_in (float_sub : Q → Q → Q) (now : Q)
    (d : gmap string (gmap string entry)) (folder : string) : nat :=
  match d !! folder with
  | Some dir =>
      length (List.filter (λ kv, expired float_sub now kv.2)
                (map_to_list dir))
  | None => 0
  end.

End Sweeper.

(** ** worker.py: where the worker writes *)

Module Confinement.

Import Worker.

(** The paths below the worker's scratch directory. *)
Definition scratch (p : string) : bool :=
  String.prefix "/tmp/cleansheet_work/" p.

(** A block that creates, overwrites, renames and removes files only at
    paths of [W]: every other path holds after the block what it held
    before, however the block ends. *)
Definition writes_within {R A} (W : string → Prop)
    (m : M (gmap string file) R A) : Prop :=
  ∀ fs p, ¬ W p → (m fs).2 !! p = fs !! p.

(** The scratch directory and the output path of the job. *)
Definition worker_may_write (E : env) (p : string) : Prop :=
  scratch p = true ∨ OUTPUT_FILE E = Some p.

End Confinement.

(** ** More documents *)

Module MoreDocuments.

Import Worker.

(** A one-page document with nothing to disarm, a language in its
    catalog and a title of its own. *)
Definition brochure : pdf := {|
  pages := [ {[ "/Type" := PName "/Page"; "/Contents" := PInt 7 ]} ];
  root := {[ "/Type" := PName "/Catalog"; "/Lang" := PText "en" ]};
  info := {[ "/Title" := PText "Brochure"; "/Author" := PText "someone" ]};
|}.

(** A photograph with transparency and a location tag. *)
Definition photo : image :=
  {| mode := "RGBA"; width := 800; height := 600; metadata := ["GPS"] |}.

End MoreDocuments.

(** ** Proof support *)

Import App Spec.

Ltac py_unfold1 :=
  unfold def, with_locals, global, get_local, set_local, try_except,
    try_finally, bind, ret, return_, raise, when, call, gets, modify,
    App.json, App.get_file_hash, App.open_rb, App.os_path_exists,
    App.os_remove, App.os_path_getsize, App.write_file, App.emit in *.

Ltac py_unfold := repeat (progress (py_unfold1; simpl in *)).

Arguments containers_run : simpl never.
Arguments poll : simpl never.
Arguments scan_with_virustotal : simpl never.
Arguments sanitize_in_container : simpl never.
Arguments upload_file : simpl never.
Arguments cleanup : simpl never.

(** ** The reputation client *)

Section Reputation.
Variable E : env.

(** One iteration of the polling loop. *)
Lemma poll_S id i n :
  poll E id i (S n) =
  (analysis_response <- call (analyses_get (vt E) id i) ;;
   (if analysis_status_code analysis_response =? 200 then
      status <- App.json (analysis_status analysis_response) ;;
      if String.eqb status "completed" then
        stats <- App.json (analysis_stats analysis_response) ;;
        let malicious := stats_get stats "malicious" in
        let suspicious := stats_get stats "suspicious" in
        if 0 <? malicious then
          return_ (false, "THREAT DETECTED: " +:+ pretty malicious
                          +:+ " engines flagged as malicious")
        else if 3 <? suspicious then
          return_ (false, "SUSPICIOUS: " +:+ pretty suspicious
                          +:+ " engines flagged as suspicious")
        else
          return_ (true, "Clean (0/"
                         +:+ pretty (stats_get stats "harmless"
                                     + stats_get stats "undetected")
                         +:+ " engines)")
      else ret tt
    else ret tt) ;;;
   poll E id (S i) n).
Proof. reflexivity. Qed.

Lemma pending_before_S id i :
  pending_before E id (S i) = true →
  pending_before E id i = true
  ∧ ∃ r, analyses_get (vt E) id i = Ok r ∧ still_pending r = true.
Proof.
  unfold pending_before. rewrite seq_S, forallb_app. simpl.
  intros [H1 H2]%andb_prop. split; [done|].
  destruct (analyses_get (vt E) id i) as [r|]; [|done].
  exists r. split; [done|]. by destruct (still_pending r).
Qed.

Lemma pending_before_lt id i j :
  pending_before E id i = true → (j < i)%nat →
  ∃ r, analyses_get (vt E) id j = Ok r ∧ still_pending r = true.
Proof.
  induction i as [|i IH]; [lia|].
  intros [Hi Hr]%pending_before_S Hj.
  destruct (decide (j = i)) as [->|]; [done|]. apply IH; [done|lia].
Qed.

(** Polls that leave the analysis running are skipped by the loop. *)
Lemma poll_pending id n : ∀ i w,
  (∀ j, (i ≤ j < i + n)%nat →
        ∃ r, analyses_get (vt E) id j = Ok r ∧ still_pending r = true) →
  poll E id i n w = (Normal tt, w).
Proof.
  induction n as [|n IH]; intros i w H; [reflexivity|].
  destruct (H i ltac:(lia)) as (r & Hr & Hp).
  rewrite poll_S. py_unfold. rewrite Hr. simpl.
  unfold still_pending in Hp.
  destruct (analysis_status_code r =? 200) eqn:Hc; simpl in Hp |- *.
  - destruct (analysis_status r) as [s|]; [|done].
    destruct (String.eqb s "completed") eqn:Hs; [done|].
    apply IH. intros j Hj. apply H. lia.
  - apply IH. intros j Hj. apply H. lia.
Qed.

Lemma poll_split id k : ∀ n i w,
  (∀ j, (i ≤ j < i + k)%nat →
        ∃ r, analyses_get (vt E) id j = Ok r ∧ still_pending r = true) →
  poll E id i (k + n) w = poll E id (i + k) n w.
Proof.
  induction k as [|k IH]; intros n i w H.
  - by rewrite Nat.add_0_r.
  - destruct (H i ltac:(lia)) as (r & Hr & Hp).
    change (S k + n)%nat with (S (k + n)). rewrite !poll_S.
    replace (i + S k)%nat with (S i + k)%nat by lia.
    rewrite <- IH by (intros j Hj; apply H; lia).
    py_unfold. rewrite Hr. simpl.
    unfold still_pending in Hp.
    destruct (analysis_status_code r =? 200) eqn:Hc; simpl in Hp |- *;
      [|done].
    destruct (analysis_status r) as [s|]; [|done].
    by destruct (String.eqb s "completed").
Qed.

(** The two places where the code interprets statistics agree with the
    specification's reading. *)
Lemma interpret_stats st R :
  0 ≤ stats_get st "malicious" →
  (if 0 <? stats_get st "malicious" then
     (Return (R:=bool * string) (A:=R)
        (false, "THREAT DETECTED: " +:+ pretty (stats_get st "malicious")
                +:+ " engines flagged as malicious"))
   else if 3 <? stats_get st "suspicious" then
     Return (false, "SUSPICIOUS: " +:+ pretty (stats_get st "suspicious")
                    +:+ " engines flagged as suspicious")
   else
     Return (true, "Clean (0/"
                   +:+ pretty (stats_get st "harmless"
                               + stats_get st "undetected")
                   +:+ " engines)"))
  = Return (scan_result (spec_verdict st)).
Proof.
  intros Hm. unfold spec_verdict.
  destruct (0 <? stats_get st "malicious") eqn:H1.
  - by replace (1 <=? stats_get st "malicious") with true by lia.
  - replace (1 <=? stats_get st "malicious") with false by lia.
    replace (stats_get st "malicious" =? 0) with true by lia. simpl.
    by destruct (3 <? stats_get st "suspicious").
Qed.

End Reputation.

Section Verdicts.
Variable E : env.

Lemma scan_lookup R filepath job_id w b st :
  Str.is_empty (VIRUSTOTAL_API_KEY E) = false →
  fs w !! filepath = Some b →
  lookup_stats E b = Some st →
  0 ≤ stats_get st "malicious" →
  @scan_with_virustotal E R filepath job_id w
  = (Normal (scan_result (spec_verdict st)), w).
Proof.
  intros Hk Hf Hl Hm. unfold lookup_stats in Hl.
  unfold scan_with_virustotal. py_unfold. rewrite Hk, Hf. simpl.
  destruct (files_get (vt E) (blob_sha256 b)) as [r|]; [|done]. simpl.
  destruct (files_status_code r =? 200); [|done].
  rewrite Hl. simpl.
  pose proof (interpret_stats st unit Hm) as Hi.
  destruct (0 <? stats_get st "malicious");
    [|destruct (3 <? stats_get st "suspicious")];
    injection Hi as <-; reflexivity.
Qed.

Lemma scan_polled R filepath job_id w b st id i :
  Str.is_empty (VIRUSTOTAL_API_KEY E) = false →
  fs w !! filepath = Some b →
  submitted E b = Some id →
  (i < 12)%nat →
  polled_stats E id i = Some st →
  0 ≤ stats_get st "malicious" →
  @scan_with_virustotal E R filepath job_id w
  = (Normal (scan_result (spec_verdict st)), w).
Proof.
  intros Hk Hf Hs Hi Hp Hm. unfold submitted in Hs. unfold polled_stats in Hp.
  destruct (pending_before E id i) eqn:Hpend; [|done].
  destruct (analyses_get (vt E) id i) as [r|] eqn:Hr; [|done].
  destruct (analysis_status_code r =? 200) eqn:Hc; [|done].
  destruct (analysis_status r) as [s|] eqn:Hst; [|done].
  destruct (String.eqb s "completed") eqn:Hcomp; [|done].
  assert (poll E id 0 12 w = (Return (scan_result (spec_verdict st)), w))
    as Hpoll.
  { replace 12%nat with (i + S (11 - i))%nat by lia.
    rewrite poll_split
      by (intros j Hj; apply (pending_before_lt E id i); [done|lia]).
    rewrite poll_S. py_unfold. rewrite Hr. simpl. rewrite Hc, Hst. simpl.
    rewrite Hcomp, Hp. simpl.
    pose proof (interpret_stats st unit Hm) as Hint.
    destruct (0 <? stats_get st "malicious");
      [|destruct (3 <? stats_get st "suspicious")];
      injection Hint as <-; reflexivity. }
  unfold scan_with_virustotal. py_unfold. rewrite Hk, Hf. simpl.
  destruct (files_get (vt E) (blob_sha256 b)) as [r0|]; [|done]. simpl.
  destruct (files_status_code r0 =? 200) eqn:H200.
  { apply Z.eqb_eq in H200. rewrite H200 in Hs. done. }
  destruct (files_status_code r0 =? 404); [|done].
  rewrite Hf. simpl.
  destruct (files_post (vt E) b) as [u|]; [|done]. simpl.
  destruct ((upload_status_code u =? 200) || (upload_status_code u =? 201));
    [|done].
  rewrite Hs. simpl. by rewrite Hpoll.
Qed.

(** C3.  Whenever the reputation service reports statistics for a staged
    file, by a [found] answer to the hash lookup or by a completed
    analysis within the twelve polls after a submission, the client
    returns the verdict the specification assigns to them: malicious when
    [malicious >= 1], suspicious when [malicious == 0] and
    [suspicious > 3], clean otherwise.  Engine counts are taken to be
    non-negative. *)
Theorem verdict_interpretation R filepath job_id w b st :
  Str.is_empty (VIRUSTOTAL_API_KEY E) = false →
  fs w !! filepath = Some b →
  reported E b st →
  0 ≤ stats_get st "malicious" →
  @scan_with_virustotal E R filepath job_id w
  = (Normal (scan_result (spec_verdict st)), w).
Proof.
  intros Hk Hf [Hl | (id & i & Hs & Hi & Hp)] Hm.
  - by apply scan_lookup with (b := b).
  - by apply scan_polled with (b := b) (id := id) (i := i).
Qed.

End Verdicts.

(** ** The client is a pure function of the file's content *)

Section ScanPure.
Variable E : env.

(** The polling loop does not touch the world, and how it ends does not
    depend on it. *)
Lemma poll_pure id n : ∀ i, ∃ c, ∀ w, poll E id i n w = (c, w).
Proof.
  induction n as [|n IH]; intros i.
  - by exists (Normal tt).
  - destruct (IH (S i)) as [c' Hc'].
    destruct (analyses_get (vt E) id i) as [r|e] eqn:Hr.
    2: { exists (Raise e). intros w. rewrite poll_S. py_unfold. by rewrite Hr. }
    destruct (analysis_status_code r =? 200) eqn:Hc.
    2: { exists c'. intros w. rewrite poll_S. py_unfold. rewrite Hr. simpl.
         rewrite Hc. simpl. apply Hc'. }
    destruct (analysis_status r) as [s|] eqn:Hs.
    2: { exists (Raise "KeyError"). intros w. rewrite poll_S. py_unfold.
         rewrite Hr. simpl. by rewrite Hc, Hs. }
    destruct (String.eqb s "completed") eqn:Hcomp.
    2: { exists c'. intros w. rewrite poll_S. py_unfold. rewrite Hr. simpl.
         rewrite Hc, Hs. simpl. rewrite Hcomp. apply Hc'. }
    destruct (analysis_stats r) as [st|] eqn:Hst.
    2: { exists (Raise "KeyError"). intros w. rewrite poll_S. py_unfold.
         rewrite Hr. simpl. rewrite Hc, Hs. simpl. by rewrite Hcomp, Hst. }
    destruct (0 <? stats_get st "malicious") eqn:Hm;
      [|destruct (3 <? stats_get st "suspicious") eqn:Hsu];
      eexists; intros w; rewrite poll_S; py_unfold; rewrite Hr; simpl;
      rewrite Hc, Hs; simpl; rewrite Hcomp, Hst; simpl; rewrite Hm;
      try rewrite Hsu; reflexivity.
Qed.

(** The client never raises, leaves the world as it is, and its result
    depends only on the content of the file it is given. *)
Lemma scan_content R R' p p' j j' w w' b :
  fs w !! p = Some b →
  fs w' !! p' = Some b →
  ∃ r, @scan_with_virustotal E R p j w = (Normal r, w)
       ∧ @scan_with_virustotal E R' p' j' w' = (Normal r, w').
Proof.
  intros Hf Hf'. unfold scan_with_virustotal. py_unfold.
  destruct (Str.is_empty (VIRUSTOTAL_API_KEY E)); [by eexists|]. simpl.
  rewrite Hf, Hf'. simpl.
  destruct (files_get (vt E) (blob_sha256 b)) as [r|e]; [|by eexists]. simpl.
  destruct (files_status_code r =? 200).
  { destruct (last_analysis_stats r) as [st|]; [|by eexists]. simpl.
    destruct (0 <? stats_get st "malicious"); [by eexists|].
    by destruct (3 <? stats_get st "suspicious"); eexists. }
  destruct (files_status_code r =? 404); [|by eexists].
  rewrite ?Hf, ?Hf'. simpl.
  destruct (files_post (vt E) b) as [u|]; [|by eexists]. simpl.
  destruct ((upload_status_code u =? 200) || (upload_status_code u =? 201));
    [|by eexists].
  destruct (upload_id u) as [id|]; [|by eexists]. simpl.
  destruct (poll_pure id 12 0) as [c Hc]. rewrite !Hc.
  by destruct c; eexists.
Qed.

Lemma scan_verdict_on R filepath job_id w b :
  fs w !! filepath = Some b →
  @scan_with_virustotal E R filepath job_id w = (Normal (verdict_on E b), w).
Proof.
  intros Hf.
  destruct (scan_content R unit filepath "f" job_id "j" w
              {| fs := {[ "f" := b ]}; trace := [] |} b Hf
              (lookup_singleton_eq _ _)) as (r & H1 & H2).
  unfold verdict_on. by rewrite H2.
Qed.

Lemma scan_missing R filepath job_id w :
  fs w !! filepath = None →
  ∃ r, @scan_with_virustotal E R filepath job_id w = (Normal r, w).
Proof.
  intros Hf. unfold scan_with_virustotal. py_unfold.
  destruct (Str.is_empty (VIRUSTOTAL_API_KEY E)); simpl; rewrite ?Hf; eauto.
Qed.

Lemma scan_total R filepath job_id w :
  ∃ r, @scan_with_virustotal E R filepath job_id w = (Normal r, w).
Proof.
  destruct (fs w !! filepath) as [b|] eqn:Hf.
  - eexists. by apply scan_verdict_on.
  - by apply scan_missing.
Qed.

End ScanPure.

(** ** The sandbox supervisor on the path that reaches the post-scan *)

Section Supervisor.
Variable E : env.

Lemma removals_app t t' : removals (t ++ t') = (removals t + removals t')%nat.
Proof. unfold removals. by rewrite List.filter_app, length_app. Qed.

Lemma containers_run_inv (d : docker) c :
  containers_run d = Ok c →
  containers_create d = Ok c ∧ container_start d = Ok tt.
Proof.
  unfold containers_run.
  destruct (containers_create d) as [c'|]; [|done].
  destruct (container_start d) as [[]|]; [|done].
  by intros [= <-].
Qed.

Lemma worker_succeeded_inv k c b :
  worker_succeeded E k = Some (c, b) →
  connect (dk E) = Ok tt
  ∧ image_ready (dk E) = true
  ∧ containers_run (dk E) = Ok c
  ∧ worker_output (dk E) = Some b
  ∧ container_wait (dk E) = Ok 0
  ∧ (∃ logs, container_logs (dk E) = Ok logs)
  ∧ container_remove (dk E) k = Ok tt
  ∧ (blob_size b =? 0)%N = false.
Proof.
  unfold worker_succeeded.
  destruct (containers_run (dk E)) as [c'|]; [|done].
  destruct (worker_output (dk E)) as [b'|]; [|done].
  destruct (container_wait (dk E)) as [[| |]|]; try done.
  destruct (connect (dk E)) as [[]|]; [|done].
  destruct (image_ready (dk E)); [|done].
  destruct (container_logs (dk E)) as [l|]; [|done].
  destruct (container_remove (dk E) k) as [[]|]; [|done].
  destruct (blob_size b' =? 0)%N eqn:Hsz; [done|]. simpl.
  intros [= <- <-]. split_and!; try done. by exists l.
Qed.

(** When the worker succeeded, the supervisor returns the flag of the
    post-scan; it has destroyed the instance, and the output file exactly
    when the post-scan did not pass. *)
Lemma sanitize_post_scan R input output job_id w c b :
  worker_succeeded E (removals (trace w)) = Some (c, b) →
  @sanitize_in_container E R input output job_id w
  = (Normal (verdict_on E b).1,
     {| fs := if (verdict_on E b).1 then <[output := b]> (fs w)
              else delete output (<[output := b]> (fs w));
        trace := trace w ++ sandbox_trace E c |}).
Proof.
  intros (Hcon & Himg & Hrun & Hout & Hwait & [logs Hlogs] & Hrem & Hsize)
    %worker_succeeded_inv.
  unfold sanitize_in_container, client_containers_run, container_remove_force,
    sandbox_trace, image_ready in *.
  assert (<[output := b]> (fs w) !! output = Some b) as Hlk
    by apply lookup_insert_eq.
  destruct (blob_size b) as [|sz] eqn:Hbs; [done|]. clear Hsize.
  apply containers_run_inv in Hrun as [Hcreate Hstart].
  py_unfold. rewrite Hcon. simpl.
  destruct (images_get (dk E)) eqn:Hig;
    [|destruct (images_build (dk E)) eqn:Hb; [|done]|done]; simpl;
    rewrite Hcreate; simpl; rewrite Hstart; simpl;
    rewrite Hout; simpl; rewrite Hwait; simpl;
    rewrite Hlogs; simpl;
    rewrite !removals_app; simpl; rewrite !Nat.add_0_r, Hrem; simpl;
    repeat (progress (rewrite ?Hlk, ?Hbs; simpl));
    (rewrite (scan_verdict_on E _ _ _ _ b) by apply Hlk);
    destruct (verdict_on E b) as [[] msg]; simpl;
    repeat (progress (rewrite ?Hlk; simpl));
    match goal with
    | |- context [container_remove (dk E) ?k] =>
        destruct (container_remove (dk E) k)
    end; simpl; rewrite <- ?app_assoc; reflexivity.
Qed.

End Supervisor.

Section SupervisorPaths.
Variable E : env.

Ltac use_scan_total H :=
  match type of H with
  | context [@scan_with_virustotal E ?R ?p ?j ?w] =>
      let r := fresh "r" in
      let Hr := fresh "H" in
      destruct (scan_total E R p j w) as [r Hr]; rewrite Hr in H; clear Hr
  end.

Ltac case_scrutinee H :=
  match type of H with
  | context [match ?x with _ => _ end] =>
      lazymatch x with
      | context [match _ with _ => _ end] => fail
      | _ => destruct x eqn:?
      end
  | context [if ?x then _ else _] =>
      lazymatch x with
      | context [match _ with _ => _ end] => fail
      | _ => destruct x eqn:?
      end
  end.

Lemma supervisor_log_cases t :
  t = [] ∨ t = build_log E
  ∨ (∃ c, t = build_log E ++ [EvRun c; EvWait c; EvRemove c])
  ∨ (∃ c, t = build_log E ++ [EvRun c; EvWait c; EvLogs c; EvRemove c])
  ∨ (∃ c, t = build_log E
              ++ [EvRun c; EvWait c; EvLogs c; EvRemove c; EvRemove c])
  ∨ (∃ c, t = build_log E ++ [EvLaunchFailed c]) →
  supervisor_log E t.
Proof.
  intros [->|[->|[[c ->]|[[c ->]|[[c ->]|[c ->]]]]]]; constructor.
Qed.

Ltac solve_log :=
  apply supervisor_log_cases; unfold build_log;
  try match goal with
      | H : images_get (dk E) = _ |- _ => rewrite H
      end;
  simpl;
  first
    [ by left
    | by right; left
    | by right; right; left; eexists
    | by right; right; right; left; eexists
    | by right; right; right; right; left; eexists
    | by right; right; right; right; right; eexists ].

(** However the daemon, the worker and the reputation service behave,
    the supervisor returns a flag; its Docker calls are one of the logs
    above, and it touches no staged file but the job's output. *)
Lemma sanitize_paths R input output job_id w :
  ∃ ok fs' t,
    @sanitize_in_container E R input output job_id w
    = (Normal ok, {| fs := fs'; trace := trace w ++ t |})
    ∧ supervisor_log E t
    ∧ ∀ p, p ≠ output → fs' !! p = fs w !! p.
Proof.
  destruct w as [fs0 t0].
  destruct (sanitize_in_container E input output job_id
              {| fs := fs0; trace := t0 |}) as [c w'] eqn:Hs.
  unfold sanitize_in_container, client_containers_run, container_remove_force
    in Hs.
  py_unfold.
  repeat (first [use_scan_total Hs | case_scrutinee Hs]; simpl in * ).
  all: injection Hs as <- <-.
  all: rewrite <- ?app_assoc; simpl.
  all: first
         [ eexists _, _, _; split; [reflexivity|]
         | eexists _, _, []; rewrite app_nil_r; split; [reflexivity|] ].
  all: split;
         [ solve_log
         | intros p Hp;
           by rewrite ?lookup_delete_ne, ?lookup_insert_ne by done ].
Qed.

End SupervisorPaths.

(** ** The job controller *)

Section Controller.
Variable E : env.

Lemma staged_upload_inv req u :
  staged_upload E req = Some u →
  String.eqb (method req) "POST" = true
  ∧ files req !! "file" = Some u
  ∧ Str.is_empty (filename u) = false
  ∧ allowed_file (filename u) = true
  ∧ (MAX_FILE_SIZE <? blob_size (content u))%N = false
  ∧ file_save E = Ok tt.
Proof.
  unfold staged_upload.
  destruct (String.eqb (method req) "POST"); [|done].
  destruct (files req !! "file") as [u'|]; [|done].
  destruct (Str.is_empty (filename u')) eqn:He; [done|].
  destruct (allowed_file (filename u')) eqn:Ha; [|done].
  destruct (blob_size (content u') <=? MAX_FILE_SIZE)%N eqn:Hs; [|done].
  destruct (file_save E) as [[]|]; [|done]. simpl.
  intros [= <-]. split_and!; try done.
  apply N.ltb_ge. by apply N.leb_le.
Qed.

(** Once the upload is staged, the controller's answer is decided by the
    supervisor's flag and by whether the output file is in place: it
    delivers, or it removes the input and reports the failure. *)
Lemma upload_file_staged R req w u ok w1 :
  staged_upload E req = Some u →
  @sanitize_in_container E response (input_path E u)
    (output_path E) (uuid4 E) (staged_world E u w) = (Normal ok, w1) →
  @upload_file E R req w =
  if ok && bool_decide (is_Some (fs w1 !! output_path E)) then
    (Normal (delivery E u), w1)
  else
    (Normal (jsonify_error "Sanitization failed" 500),
     {| fs := delete (input_path E u) (fs w1); trace := trace w1 |}).
Proof.
  intros (Hm & Hf & He & Ha & Hs & Hsave)%staged_upload_inv Hsan.
  unfold staged_world in *. unfold input_path, output_path in *.
  unfold Str.path_join in *.
  unfold upload_file. py_unfold.
  rewrite Hm. simpl. rewrite Hf. simpl. rewrite He, Ha. simpl.
  rewrite Hs. simpl. rewrite Hsave. simpl.
  rewrite (scan_verdict_on E _ _ _ _ (content u)) by apply lookup_insert_eq.
  simpl. rewrite Hsan. simpl.
  assert (∀ p, (if bool_decide (is_Some (fs w1 !! p))
                then λ s : world,
                  match fs s !! p with
                  | Some _ =>
                      λ s0 : world,
                        (Normal (R:=response) (),
                         {| fs := delete p (fs s0); trace := trace s0 |})
                  | None => λ s0 : world, (Raise "FileNotFoundError", s0)
                  end s
                else λ s : world, (Normal (), s)) w1
               = (Normal tt, {| fs := delete p (fs w1); trace := trace w1 |}))
    as Hrm.
  { intros p. destruct (fs w1 !! p) eqn:Hp; simpl.
    - by rewrite Hp.
    - rewrite delete_id by done. by destruct w1. }
  destruct ok; simpl.
  - destruct (bool_decide (is_Some (fs w1 !! _))); simpl.
    + unfold delivery, threat_headers. simpl.
      by destruct (verdict_on E (content u)) as [[] msg].
    + by rewrite Hrm.
  - by rewrite Hrm.
Qed.

End Controller.

(** ** Witnesses and boundary cases of the reputation client *)

Import Examples.

(** The theorem of C3 at work in both regimes: a file the service has
    seen flagged by two engines, and a file it has not seen, whose
    analysis completes at the third poll with four engines suspicious. *)
Lemma verdict_interpretation_witness :
  @scan_with_virustotal (environment "key" service (daemon None 0)) unit
     "/app/uploads/a.pdf" "job"
     {| fs := {[ "/app/uploads/a.pdf" :=
                   {| blob_size := 10; blob_sha256 := "flagged" |} ]};
        trace := [] |}
  = (Normal (false, "THREAT DETECTED: 2 engines flagged as malicious"),
     {| fs := {[ "/app/uploads/a.pdf" :=
                   {| blob_size := 10; blob_sha256 := "flagged" |} ]};
        trace := [] |})
  ∧ @scan_with_virustotal (environment "key" service (daemon None 0)) unit
     "/app/uploads/b.pdf" "job"
     {| fs := {[ "/app/uploads/b.pdf" :=
                   {| blob_size := 10; blob_sha256 := "fresh" |} ]};
        trace := [] |}
  = (Normal (false, "SUSPICIOUS: 4 engines flagged as suspicious"),
     {| fs := {[ "/app/uploads/b.pdf" :=
                   {| blob_size := 10; blob_sha256 := "fresh" |} ]};
        trace := [] |}).
Proof.
  split.
  - refine (verdict_interpretation (environment "key" service (daemon None 0))
              unit "/app/uploads/a.pdf" "job"
              {| fs := {[ "/app/uploads/a.pdf" :=
                            {| blob_size := 10; blob_sha256 := "flagged" |} ]};
                 trace := [] |}
              {| blob_size := 10; blob_sha256 := "flagged" |}
              {[ "malicious" := 2 ]} _ _ _ _).
    + reflexivity.
    + reflexivity.
    + left. reflexivity.
    + vm_compute. discriminate.
  - refine (verdict_interpretation (environment "key" service (daemon None 0))
              unit "/app/uploads/b.pdf" "job"
              {| fs := {[ "/app/uploads/b.pdf" :=
                            {| blob_size := 10; blob_sha256 := "fresh" |} ]};
                 trace := [] |}
              {| blob_size := 10; blob_sha256 := "fresh" |}
              {[ "suspicious" := 4 ]} _ _ _ _).
    + reflexivity.
    + reflexivity.
    + right. exists "analysis-1", 2%nat. split; [reflexivity|].
      split; [lia|reflexivity].
    + vm_compute. discriminate.
Defined.

(** ** Staging: the size limit *)

Section SizeLimit.
Variable E : env.

(** A request that does not get staged is answered with the page or an
    error and makes no Docker call; it leaves the staging areas as they
    are, but for what a save that raised had written by then. *)
Lemma upload_file_not_staged R req w :
  staged_upload E req = None →
  ∃ resp w',
    @upload_file E R req w = (Normal resp, w')
    ∧ trace w' = trace w
    ∧ (payload resp = Html ∨ ∃ m, payload resp = JsonError m)
    ∧ (w' = w
       ∨ ∃ u e part,
           files req !! "file" = Some u
           ∧ file_save E = Err e
           ∧ save_leaves E = Some part
           ∧ w' = {| fs := <[input_path E u := part]> (fs w);
                     trace := trace w |}).
Proof.
  unfold staged_upload, upload_file, input_path. py_unfold.
  destruct (String.eqb (method req) "POST"); simpl.
  2: { eexists _, _. split; [reflexivity|]. split_and!; eauto. }
  destruct (files req !! "file") as [u|]; simpl.
  2: { eexists _, _. split; [reflexivity|]. split_and!; eauto. }
  destruct (Str.is_empty (filename u)); simpl.
  1: { eexists _, _. split; [reflexivity|]. split_and!; eauto. }
  destruct (allowed_file (filename u)); simpl.
  2: { eexists _, _. split; [reflexivity|]. split_and!; eauto. }
  rewrite N.ltb_antisym.
  destruct (blob_size (content u) <=? MAX_FILE_SIZE)%N; simpl.
  2: { eexists _, _. split; [reflexivity|]. split_and!; eauto. }
  destruct (file_save E) as [[]|e]; [done|]. simpl.
  destruct (save_leaves E) as [part|]; simpl.
  - eexists _, _. split; [reflexivity|]. simpl. split_and!; eauto.
    right. by exists u, e, part.
  - eexists _, _. split; [reflexivity|]. simpl. split_and!; eauto.
Qed.

(** C9.  An upload of exactly 100 MiB passes the size check: the
    controller goes on to stage and process it, and answers 200 or 500,
    not 400.  An upload of more than 100 MiB is answered 400 and nothing
    is written to the staging areas; when its name has an allowed
    extension the body is [{"error": "File size exceeds 100MB limit"}]. *)
Theorem size_limit R req u w :
  method req = "POST" →
  files req !! "file" = Some u →
  (blob_size (content u) = (100 * 1024 * 1024)%N →
   Str.is_empty (filename u) = false →
   allowed_file (filename u) = true →
   ∃ resp w', @upload_file E R req w = (Normal resp, w')
              ∧ (status resp = 200 ∨ status resp = 500))
  ∧ ((100 * 1024 * 1024 + 1 ≤ blob_size (content u))%N →
     ∃ resp, @upload_file E R req w = (Normal resp, w)
             ∧ status resp = 400
             ∧ (Str.is_empty (filename u) = false →
                allowed_file (filename u) = true →
                resp = jsonify_error "File size exceeds 100MB limit" 400)).
Proof.
  intros Hm Hf. split.
  - intros Hsz He Ha.
    destruct (file_save E) as [[]|e] eqn:Hsave.
    + assert (staged_upload E req = Some u) as Hst.
      { unfold staged_upload. rewrite Hm, Hf, He, Ha, Hsz, Hsave. done. }
      destruct (sanitize_paths E response (input_path E u) (output_path E)
                  (uuid4 E) (staged_world E u w)) as (ok & fs' & t & Hs & _).
      rewrite (upload_file_staged E R req w u ok _ Hst Hs).
      destruct (ok && _); eexists _, _; (split; [reflexivity|]); simpl; auto.
    + exists (jsonify_error e 500). unfold upload_file. py_unfold.
      rewrite Hm. simpl. rewrite Hf. simpl. rewrite He, Ha. simpl.
      rewrite Hsz. simpl. rewrite Hsave. simpl.
      destruct (save_leaves E); simpl; eexists; (split; [reflexivity|]);
        by right.
  - intros Hsz.
    assert ((MAX_FILE_SIZE <? blob_size (content u))%N = true) as Hgt.
    { apply N.ltb_lt. unfold MAX_FILE_SIZE. lia. }
    unfold upload_file. py_unfold. rewrite Hm. simpl. rewrite Hf. simpl.
    destruct (Str.is_empty (filename u)); simpl.
    { eexists. split; [reflexivity|]. split; [done|]. done. }
    destruct (allowed_file (filename u)); simpl.
    + rewrite Hgt. simpl. eexists. split; [reflexivity|]. done.
    + eexists. split; [reflexivity|]. split; [done|]. done.
Qed.

End SizeLimit.

(** The two sides of the limit, on a reachable service and a working
    daemon: 104857600 bytes are processed and delivered, 104857601 are
    refused and the staging areas stay empty. *)
Lemma size_limit_witness :
  (∃ resp w',
      @upload_file
        (environment "key" service (daemon (Some (sanitized "clean")) 0))
        unit (post (document "report.pdf" 104857600 "clean")) empty_world
      = (Normal resp, w')
      ∧ (status resp = 200 ∨ status resp = 500))
  ∧ (∃ resp,
      @upload_file
        (environment "key" service (daemon (Some (sanitized "clean")) 0))
        unit (post (document "report.pdf" 104857601 "clean")) empty_world
      = (Normal resp, empty_world)
      ∧ status resp = 400
      ∧ (Str.is_empty "report.pdf" = false →
         allowed_file "report.pdf" = true →
         resp = jsonify_error "File size exceeds 100MB limit" 400)).
Proof.
  split.
  - refine (proj1 (size_limit
                     (environment "key" service
                        (daemon (Some (sanitized "clean")) 0))
                     unit (post (document "report.pdf" 104857600 "clean"))
                     (document "report.pdf" 104857600 "clean") empty_world
                     _ _) _ _ _); reflexivity.
  - refine (proj2 (size_limit
                     (environment "key" service
                        (daemon (Some (sanitized "clean")) 0))
                     unit (post (document "report.pdf" 104857601 "clean"))
                     (document "report.pdf" 104857601 "clean") empty_world
                     _ _) _); [reflexivity|reflexivity|].
    vm_compute. discriminate.
Defined.

(** ** Jobs whose worker succeeded *)

Section Jobs.
Variable E : env.

(** The verdict on a file for which the service reports statistics. *)
Lemma verdict_on_reported b st :
  Str.is_empty (VIRUSTOTAL_API_KEY E) = false →
  reported E b st →
  0 ≤ stats_get st "malicious" →
  verdict_on E b = scan_result (spec_verdict st).
Proof.
  intros Hk Hr Hm. unfold verdict_on.
  assert (@scan_with_virustotal E unit "f" "j"
            {| fs := {[ "f" := b ]}; trace := [] |}
          = (Normal (scan_result (spec_verdict st)),
             {| fs := {[ "f" := b ]}; trace := [] |})) as ->; [|done].
  destruct Hr as [Hl | (id & i & Hs & Hi & Hp)].
  - apply scan_lookup with (b := b); done || apply lookup_singleton_eq.
  - apply scan_polled with (b := b) (id := id) (i := i);
      done || apply lookup_singleton_eq.
Qed.

Lemma spec_verdict_malicious st :
  1 ≤ stats_get st "malicious" →
  spec_verdict st = Malicious (stats_get st "malicious").
Proof.
  intros H. unfold spec_verdict.
  by replace (1 <=? stats_get st "malicious") with true by lia.
Qed.

Lemma spec_verdict_suspicious st :
  stats_get st "malicious" = 0 →
  3 < stats_get st "suspicious" →
  spec_verdict st = Suspicious (stats_get st "suspicious").
Proof.
  intros H0 H3. unfold spec_verdict. rewrite H0. simpl.
  by replace (3 <? stats_get st "suspicious") with true by lia.
Qed.

Lemma paths_differ u : input_path E u ≠ output_path E.
Proof. unfold input_path, output_path, Str.path_join. simpl. discriminate. Qed.

(** The post-scan passed: the job is delivered, both staged artifacts in
    place. *)
Lemma upload_file_delivered R req u w c b :
  staged_upload E req = Some u →
  worker_succeeded E (removals (trace w)) = Some (c, b) →
  (verdict_on E b).1 = true →
  @upload_file E R req w = (Normal (delivery E u), delivered_world E u c b w).
Proof.
  intros Hst Hw Hv.
  pose proof (sanitize_post_scan E response (input_path E u) (output_path E)
                (uuid4 E) (staged_world E u w) c b Hw) as Hs.
  rewrite Hv in Hs.
  rewrite (upload_file_staged E R req w u _ _ Hst Hs). simpl.
  rewrite lookup_insert_eq. reflexivity.
Qed.

(** The post-scan did not pass: the job fails, neither staged artifact is
    left. *)
Lemma upload_file_rejected R req u w c b :
  staged_upload E req = Some u →
  worker_succeeded E (removals (trace w)) = Some (c, b) →
  (verdict_on E b).1 = false →
  @upload_file E R req w
  = (Normal (jsonify_error "Sanitization failed" 500),
     rejected_world E u c b w).
Proof.
  intros Hst Hw Hv.
  pose proof (sanitize_post_scan E response (input_path E u) (output_path E)
                (uuid4 E) (staged_world E u w) c b Hw) as Hs.
  rewrite Hv in Hs.
  by rewrite (upload_file_staged E R req w u _ _ Hst Hs).
Qed.

Lemma rejected_world_clean u c b w :
  fs (rejected_world E u c b w) !! output_path E = None
  ∧ fs (rejected_world E u c b w) !! input_path E u = None.
Proof.
  unfold rejected_world. simpl. split.
  - rewrite lookup_delete_ne by apply paths_differ. apply lookup_delete_eq.
  - apply lookup_delete_eq.
Qed.

Lemma delivered_world_staged u c b w :
  fs (delivered_world E u c b w) !! output_path E = Some b
  ∧ fs (delivered_world E u c b w) !! input_path E u = Some (content u).
Proof.
  unfold delivered_world. simpl. split.
  - apply lookup_insert_eq.
  - rewrite lookup_insert_ne by (intros H; by apply (paths_differ u)).
    apply lookup_insert_eq.
Qed.

(** C2.  In a job whose worker succeeded: when the service reports
    [malicious >= 1] for the output (the post-scan), the controller
    answers 500 and the output file (and the input file) is gone; when it
    reports [malicious >= 1] for the upload (the pre-scan), the sandbox is
    run all the same and, the post-scan passing, the artifact is delivered
    with status 200 and the verdict travels in the X-Threat-Warning and
    X-Threat-Details headers. *)
Theorem malicious_verdicts R req u w c b st :
  staged_upload E req = Some u →
  worker_succeeded E (removals (trace w)) = Some (c, b) →
  Str.is_empty (VIRUSTOTAL_API_KEY E) = false →
  1 ≤ stats_get st "malicious" →
  (reported E b st →
   ∃ w', @upload_file E R req w
         = (Normal (jsonify_error "Sanitization failed" 500), w')
         ∧ fs w' !! output_path E = None
         ∧ fs w' !! input_path E u = None)
  ∧ (reported E (content u) st →
     (verdict_on E b).1 = true →
     ∃ resp w', @upload_file E R req w = (Normal resp, w')
                ∧ EvRun c ∈ trace w'
                ∧ status resp = 200
                ∧ payload resp
                  = SendFile (output_path E)
                      ("sanitized_"
                       +:+ Str.rsplit_dot_0 (secure_filename E (filename u))
                       +:+ ".pdf")
                ∧ headers resp
                  = [("X-Threat-Warning",
                      "Original file contained malware - now sanitized");
                     ("X-Threat-Details",
                      "THREAT DETECTED: " +:+ pretty (stats_get st "malicious")
                      +:+ " engines flagged as malicious")]
                ∧ fs w' !! output_path E = Some b).
Proof.
  intros Hst Hw Hk Hm. split.
  - intros Hr. exists (rejected_world E u c b w).
    rewrite (upload_file_rejected R req u w c b Hst Hw).
    + split; [done|]. apply rejected_world_clean.
    + rewrite (verdict_on_reported b st Hk Hr) by lia.
      by rewrite spec_verdict_malicious.
  - intros Hr Hpost. exists (delivery E u), (delivered_world E u c b w).
    rewrite (upload_file_delivered R req u w c b Hst Hw Hpost).
    split; [done|]. split.
    { unfold delivered_world, sandbox_trace. simpl.
      rewrite !elem_of_app. right. right. apply list_elem_of_here. }
    unfold delivery.
    rewrite (verdict_on_reported (content u) st Hk Hr) by lia.
    rewrite spec_verdict_malicious by done. simpl.
    split_and!; try done. apply lookup_insert_eq.
Qed.

End Jobs.

(** C10.  In a job whose worker succeeded, a post-scan for which the
    service reports [malicious == 0] and [suspicious > 3] is handled as a
    malicious one is: the controller answers 500 and the output file (and
    the input file) is gone; with a service reporting [malicious >= 1]
    instead, the answer and the world left behind are the same. *)
Theorem suspicious_post_scan (E : env) R req u w c b st :
  staged_upload E req = Some u →
  worker_succeeded E (removals (trace w)) = Some (c, b) →
  Str.is_empty (VIRUSTOTAL_API_KEY E) = false →
  reported E b st →
  stats_get st "malicious" = 0 →
  3 < stats_get st "suspicious" →
  ∃ w', @upload_file E R req w
        = (Normal (jsonify_error "Sanitization failed" 500), w')
        ∧ fs w' !! output_path E = None
        ∧ fs w' !! input_path E u = None
        ∧ ∀ service st',
            reported (with_vt E service) b st' →
            1 ≤ stats_get st' "malicious" →
            @upload_file (with_vt E service) R req w
            = (Normal (jsonify_error "Sanitization failed" 500), w').
Proof.
  intros Hst Hw Hk Hr H0 H3. exists (rejected_world E u c b w).
  rewrite (upload_file_rejected E R req u w c b Hst Hw).
  2: { rewrite (verdict_on_reported E b st Hk Hr) by lia.
       by rewrite spec_verdict_suspicious. }
  split; [done|]. split; [apply rejected_world_clean|].
  split; [apply rejected_world_clean|].
  intros service st' Hr' Hm.
  change (rejected_world E u c b w)
    with (rejected_world (with_vt E service) u c b w).
  apply upload_file_rejected; [exact Hst|exact Hw|].
  rewrite (verdict_on_reported (with_vt E service) b st' Hk Hr') by lia.
  by rewrite spec_verdict_malicious.
Qed.

(** The theorem of C2 on two jobs: a clean report whose sanitized output
    the service knows as flagged, and a flagged report whose sanitized
    output is clean. *)
Lemma malicious_verdicts_witness :
  (∃ w',
      @upload_file
        (environment "key" service (daemon (Some (sanitized "flagged")) 0))
        unit (post (document "report.pdf" 2048 "clean")) empty_world
      = (Normal (jsonify_error "Sanitization failed" 500), w')
      ∧ fs w' !! "/app/output/1b4e28ba_sanitized.pdf" = None
      ∧ fs w' !! "/app/uploads/1b4e28ba_report.pdf" = None)
  ∧ (∃ resp w',
      @upload_file
        (environment "key" service (daemon (Some (sanitized "clean")) 0))
        unit (post (document "report.pdf" 2048 "flagged")) empty_world
      = (Normal resp, w')
      ∧ EvRun "c0ffee" ∈ trace w'
      ∧ status resp = 200
      ∧ payload resp
        = SendFile "/app/output/1b4e28ba_sanitized.pdf" "sanitized_report.pdf"
      ∧ headers resp
        = [("X-Threat-Warning",
            "Original file contained malware - now sanitized");
           ("X-Threat-Details",
            "THREAT DETECTED: 2 engines flagged as malicious")]
      ∧ fs w' !! "/app/output/1b4e28ba_sanitized.pdf"
        = Some (sanitized "clean")).
Proof.
  split.
  - refine (proj1 (malicious_verdicts
                     (environment "key" service
                        (daemon (Some (sanitized "flagged")) 0))
                     unit (post (document "report.pdf" 2048 "clean"))
                     (document "report.pdf" 2048 "clean") empty_world
                     "c0ffee" (sanitized "flagged") {[ "malicious" := 2 ]}
                     _ _ _ _) _).
    + reflexivity.
    + reflexivity.
    + reflexivity.
    + vm_compute. discriminate.
    + left. reflexivity.
  - refine (proj2 (malicious_verdicts
                     (environment "key" service
                        (daemon (Some (sanitized "clean")) 0))
                     unit (post (document "report.pdf" 2048 "flagged"))
                     (document "report.pdf" 2048 "flagged") empty_world
                     "c0ffee" (sanitized "clean") {[ "malicious" := 2 ]}
                     _ _ _ _) _ _).
    + reflexivity.
    + reflexivity.
    + reflexivity.
    + vm_compute. discriminate.
    + left. reflexivity.
    + reflexivity.
Defined.

(** The theorem of C10 on a job whose sanitized output the service knows
    as suspicious to five engines, compared with a service that reports
    two engines malicious for every file. *)
Lemma suspicious_post_scan_witness :
  ∃ w',
    @upload_file
      (environment "key" service (daemon (Some (sanitized "odd")) 0))
      unit (post (document "report.pdf" 2048 "clean")) empty_world
    = (Normal (jsonify_error "Sanitization failed" 500), w')
    ∧ fs w' !! "/app/output/1b4e28ba_sanitized.pdf" = None
    ∧ fs w' !! "/app/uploads/1b4e28ba_report.pdf" = None
    ∧ ∀ svc st',
        reported
          (with_vt
             (environment "key" service (daemon (Some (sanitized "odd")) 0))
             svc)
          (sanitized "odd") st' →
        1 ≤ stats_get st' "malicious" →
        @upload_file
          (with_vt
             (environment "key" service (daemon (Some (sanitized "odd")) 0))
             svc)
          unit (post (document "report.pdf" 2048 "clean")) empty_world
        = (Normal (jsonify_error "Sanitization failed" 500), w').
Proof.
  refine (suspicious_post_scan
            (environment "key" service (daemon (Some (sanitized "odd")) 0))
            unit (post (document "report.pdf" 2048 "clean"))
            (document "report.pdf" 2048 "clean") empty_world
            "c0ffee" (sanitized "odd") {[ "suspicious" := 5 ]}
            _ _ _ _ _ _).
  - reflexivity.
  - reflexivity.
  - reflexivity.
  - left. reflexivity.
  - reflexivity.
  - vm_compute. reflexivity.
Defined.

(** ** Degraded operation of the reputation client *)

Section Degraded.
Variable E : env.

Lemma poll_error_raises id w :
  poll_error E id = true → ∃ e, poll E id 0 12 w = (Raise e, w).
Proof.
  unfold poll_error. intros (i & Hi & H)%existsb_exists.
  apply in_seq in Hi. apply andb_prop in H as [Hp He].
  destruct (analyses_get (vt E) id i) as [|e] eqn:Hr; [done|].
  exists e. replace 12%nat with (i + S (11 - i))%nat by lia.
  rewrite poll_split
    by (intros j Hj; apply (pending_before_lt E id i); [done|lia]).
  rewrite poll_S. py_unfold. by rewrite Hr.
Qed.

(** Without a credential, or on a transport error, the verdict is
    indeterminate and the flag lets processing proceed. *)
Lemma degraded_indeterminate b :
  degraded E b = true → indeterminate (verdict_on E b).
Proof.
  unfold degraded, verdict_on, indeterminate, scan_with_virustotal.
  py_unfold. destruct (Str.is_empty (VIRUSTOTAL_API_KEY E)); simpl.
  { intros _. by left. }
  rewrite lookup_singleton_eq. simpl.
  unfold transport_error, submitted.
  destruct (files_get (vt E) (blob_sha256 b)) as [r|e]; simpl.
  2: { intros _. right. by exists e. }
  destruct (files_status_code r =? 404) eqn:H404; [|done].
  apply Z.eqb_eq in H404. rewrite H404. simpl.
  rewrite lookup_singleton_eq. simpl.
  destruct (files_post (vt E) b) as [u|e]; simpl.
  2: { intros _. right. by exists e. }
  destruct ((upload_status_code u =? 200) || (upload_status_code u =? 201));
    [|done].
  destruct (upload_id u) as [id|]; [|done]. simpl.
  intros [e He]%(poll_error_raises id {| fs := {[ "f" := b ]}; trace := [] |}).
  rewrite He. right. by exists e.
Qed.

(** C7.  In a job whose worker succeeded, when no API credential is
    configured or a transport error occurs in the scan of the upload and
    in the scan of the output, both scans yield an indeterminate verdict
    that lets processing proceed, and the job is delivered: status 200,
    the sanitized file as the body, and no threat-warning header. *)
Theorem degraded_scan_fail_open R req u w c b :
  staged_upload E req = Some u →
  worker_succeeded E (removals (trace w)) = Some (c, b) →
  degraded E (content u) = true →
  degraded E b = true →
  indeterminate (verdict_on E (content u))
  ∧ indeterminate (verdict_on E b)
  ∧ ∃ resp w',
      @upload_file E R req w = (Normal resp, w')
      ∧ status resp = 200
      ∧ payload resp
        = SendFile (output_path E)
            ("sanitized_"
             +:+ Str.rsplit_dot_0 (secure_filename E (filename u))
             +:+ ".pdf")
      ∧ headers resp = []
      ∧ fs w' !! output_path E = Some b.
Proof.
  intros Hst Hw Hpre Hpost.
  apply degraded_indeterminate in Hpre, Hpost.
  split; [done|]. split; [done|].
  assert ((verdict_on E b).1 = true) as Hb
    by (destruct Hpost as [->|[e ->]]; done).
  assert ((verdict_on E (content u)).1 = true) as Hu
    by (destruct Hpre as [->|[e ->]]; done).
  exists (delivery E u), (delivered_world E u c b w).
  rewrite (upload_file_delivered E R req u w c b Hst Hw Hb).
  unfold delivery. rewrite Hu. simpl.
  split_and!; try done. apply lookup_insert_eq.
Qed.

End Degraded.

(** The theorem of C7 on two jobs: one without a credential, one whose
    reputation service refuses every connection. *)
Lemma degraded_scan_fail_open_witness :
  (indeterminate
     (verdict_on
        (environment EmptyString service (daemon (Some (sanitized "out")) 0))
        (content (document "report.pdf" 2048 "flagged")))
   ∧ indeterminate
       (verdict_on
          (environment EmptyString service
             (daemon (Some (sanitized "out")) 0))
          (sanitized "out"))
   ∧ ∃ resp w',
       @upload_file
         (environment EmptyString service (daemon (Some (sanitized "out")) 0))
         unit (post (document "report.pdf" 2048 "flagged")) empty_world
       = (Normal resp, w')
       ∧ status resp = 200
       ∧ payload resp
         = SendFile "/app/output/1b4e28ba_sanitized.pdf" "sanitized_report.pdf"
       ∧ headers resp = []
       ∧ fs w' !! "/app/output/1b4e28ba_sanitized.pdf"
         = Some (sanitized "out"))
  ∧ (indeterminate
       (verdict_on
          (environment "key" unreachable (daemon (Some (sanitized "out")) 0))
          (content (document "report.pdf" 2048 "flagged")))
     ∧ indeterminate
         (verdict_on
            (environment "key" unreachable
               (daemon (Some (sanitized "out")) 0))
            (sanitized "out"))
     ∧ ∃ resp w',
         @upload_file
           (environment "key" unreachable (daemon (Some (sanitized "out")) 0))
           unit (post (document "report.pdf" 2048 "flagged")) empty_world
         = (Normal resp, w')
         ∧ status resp = 200
         ∧ payload resp
           = SendFile "/app/output/1b4e28ba_sanitized.pdf"
               "sanitized_report.pdf"
         ∧ headers resp = []
         ∧ fs w' !! "/app/output/1b4e28ba_sanitized.pdf"
           = Some (sanitized "out")).
Proof.
  split.
  - refine (degraded_scan_fail_open
              (environment EmptyString service
                 (daemon (Some (sanitized "out")) 0))
              unit (post (document "report.pdf" 2048 "flagged"))
              (document "report.pdf" 2048 "flagged") empty_world
              "c0ffee" (sanitized "out") _ _ _ _); reflexivity.
  - refine (degraded_scan_fail_open
              (environment "key" unreachable
                 (daemon (Some (sanitized "out")) 0))
              unit (post (document "report.pdf" 2048 "flagged"))
              (document "report.pdf" 2048 "flagged") empty_world
              "c0ffee" (sanitized "out") _ _ _ _); reflexivity.
Defined.

(** ** The cleanup of staged artifacts *)

Section Cleanup.
Variable E : env.

(** The cleanup callback removes whichever of the two files is there. *)
Lemma cleanup_spec input output w :
  cleanup input output w
  = (Normal tt,
     {| fs := delete output (delete input (fs w)); trace := trace w |}).
Proof.
  unfold cleanup. py_unfold. destruct w as [fs0 t0]. simpl.
  destruct (fs0 !! input) eqn:Hi; simpl; rewrite ?Hi; simpl.
  - destruct (delete input fs0 !! output) eqn:Ho; simpl; rewrite ?Ho; simpl.
    + done.
    + by rewrite (delete_id _ output).
  - rewrite (delete_id _ input) by done.
    destruct (fs0 !! output) eqn:Ho; simpl; rewrite ?Ho; simpl.
    + done.
    + by rewrite (delete_id _ output).
Qed.

(** C1, as amended.  For every staged job the controller answers, and
    either it delivers (status 200): then the one cleanup callback for the
    two staged paths is registered on the response, both staged files are
    still in place when the controller answers, and both are gone once the
    response has been closed; or it reports the failure of the
    sanitization (status 500): then the input file is gone when the
    controller answers, and so is the output file when the failure is a
    post-scan that did not pass. *)
Theorem cleanup_invariant R req u w :
  staged_upload E req = Some u →
  ∃ resp w',
    @upload_file E R req w = (Normal resp, w')
    ∧ ((status resp = 200
        ∧ on_close resp = [cleanup (input_path E u) (output_path E)]
        ∧ fs w' !! input_path E u = Some (content u)
        ∧ is_Some (fs w' !! output_path E)
        ∧ fs (close_response resp w') !! input_path E u = None
        ∧ fs (close_response resp w') !! output_path E = None)
       ∨ (resp = jsonify_error "Sanitization failed" 500
          ∧ fs w' !! input_path E u = None
          ∧ ∀ c b,
              worker_succeeded E (removals (trace w)) = Some (c, b) →
              (verdict_on E b).1 = false →
              fs w' !! output_path E = None)).
Proof.
  intros Hst.
  destruct (sanitize_paths E response (input_path E u) (output_path E)
              (uuid4 E) (staged_world E u w)) as (ok & fs' & t & Hs & _ & Hfr).
  rewrite (upload_file_staged E R req w u ok _ Hst Hs). simpl.
  destruct (ok && bool_decide (is_Some (fs' !! output_path E))) eqn:Hd.
  - apply andb_prop in Hd as [-> Hout%bool_decide_eq_true_1].
    eexists _, _. split; [reflexivity|]. left.
    assert (fs' !! input_path E u = Some (content u)) as Hin.
    { rewrite Hfr by apply paths_differ. apply lookup_insert_eq. }
    split_and!; try done.
    + unfold close_response, delivery. simpl. rewrite cleanup_spec. simpl.
      rewrite lookup_delete_ne by (intros H; by apply (paths_differ E u)).
      apply lookup_delete_eq.
    + unfold close_response, delivery. simpl. rewrite cleanup_spec. simpl.
      apply lookup_delete_eq.
  - eexists _, _. split; [reflexivity|]. right. simpl.
    split; [done|]. split; [apply lookup_delete_eq|].
    intros c b Hw Hv.
    pose proof (sanitize_post_scan E response (input_path E u)
                  (output_path E) (uuid4 E) (staged_world E u w) c b Hw) as Hp.
    rewrite Hs, Hv in Hp. injection Hp as _ -> _.
    rewrite lookup_delete_ne by apply paths_differ. apply lookup_delete_eq.
Qed.

End Cleanup.

(** The theorem of C1 on a job that is delivered. *)
Lemma cleanup_invariant_witness :
  ∃ resp w',
    @upload_file
      (environment "key" service (daemon (Some (sanitized "clean")) 0))
      unit (post (document "report.pdf" 2048 "clean")) empty_world
    = (Normal resp, w')
    ∧ ((status resp = 200
        ∧ on_close resp
          = [cleanup "/app/uploads/1b4e28ba_report.pdf"
               "/app/output/1b4e28ba_sanitized.pdf"]
        ∧ fs w' !! "/app/uploads/1b4e28ba_report.pdf"
          = Some (content (document "report.pdf" 2048 "clean"))
        ∧ is_Some (fs w' !! "/app/output/1b4e28ba_sanitized.pdf")
        ∧ fs (close_response resp w') !! "/app/uploads/1b4e28ba_report.pdf"
          = None
        ∧ fs (close_response resp w') !! "/app/output/1b4e28ba_sanitized.pdf"
          = None)
       ∨ (resp = jsonify_error "Sanitization failed" 500
          ∧ fs w' !! "/app/uploads/1b4e28ba_report.pdf" = None
          ∧ ∀ c b,
              worker_succeeded
                (environment "key" service
                   (daemon (Some (sanitized "clean")) 0))
                (removals (trace empty_world)) = Some (c, b) →
              (verdict_on
                 (environment "key" service
                    (daemon (Some (sanitized "clean")) 0)) b).1 = false →
              fs w' !! "/app/output/1b4e28ba_sanitized.pdf" = None)).
Proof.
  refine (cleanup_invariant
            (environment "key" service (daemon (Some (sanitized "clean")) 0))
            unit (post (document "report.pdf" 2048 "clean"))
            (document "report.pdf" 2048 "clean") empty_world _).
  reflexivity.
Defined.

(** C1, as stated, fails on a clean report that is sanitized and
    delivered: the controller answers 200 while the input file
    [/app/uploads/1b4e28ba_report.pdf] is still staged; its removal waits,
    with that of the output, for the response to be closed. *)
Lemma input_removal_deferred_counterexample :
  ¬ input_removed_at_response
      (environment "key" service (daemon (Some (sanitized "clean")) 0))
      (post (document "report.pdf" 2048 "clean")) empty_world.
Proof.
  intros H.
  specialize (H (document "report.pdf" 2048 "clean")
                (delivery
                   (environment "key" service
                      (daemon (Some (sanitized "clean")) 0))
                   (document "report.pdf" 2048 "clean"))
                (delivered_world
                   (environment "key" service
                      (daemon (Some (sanitized "clean")) 0))
                   (document "report.pdf" 2048 "clean") "c0ffee"
                   (sanitized "clean") empty_world)
                eq_refl).
  assert (fs (delivered_world
                (environment "key" service
                   (daemon (Some (sanitized "clean")) 0))
                (document "report.pdf" 2048 "clean") "c0ffee"
                (sanitized "clean") empty_world)
          !! input_path
               (environment "key" service
                  (daemon (Some (sanitized "clean")) 0))
               (document "report.pdf" 2048 "clean")
          = Some (content (document "report.pdf" 2048 "clean"))) as Hin
    by apply delivered_world_staged.
  rewrite H in Hin; [discriminate|].
  apply upload_file_delivered; reflexivity.
Qed.

(** On the other failed paths the controller schedules nothing for the
    output: here the worker wrote an output and exited with status 1; the
    controller answers 500 with no callback registered, and the output
    file stays in the staging area. *)
Example output_left_after_worker_failure :
  ∃ w',
    @upload_file
      (environment "key" service (daemon (Some (sanitized "clean")) 1))
      unit (post (document "report.pdf" 2048 "clean")) empty_world
    = (Normal (jsonify_error "Sanitization failed" 500), w')
    ∧ fs w' !! "/app/uploads/1b4e28ba_report.pdf" = None
    ∧ fs w' !! "/app/output/1b4e28ba_sanitized.pdf"
      = Some (sanitized "clean").
Proof. eexists. split; [vm_compute; reflexivity|]. split; reflexivity. Qed.

(** ** The life of a sandbox instance *)

Section Instances.
Variable E : env.

Lemma created_app t t' : created (t ++ t') = (created t + created t')%nat.
Proof. unfold created. by rewrite List.filter_app, length_app. Qed.

Lemma build_log_cases : build_log E = [] ∨ build_log E = [EvBuild].
Proof. unfold build_log. destruct (images_get (dk E)); auto. Qed.

(** In each log of the supervisor at most one instance is created. *)
Lemma supervisor_log_created t : supervisor_log E t → (created t ≤ 1)%nat.
Proof.
  intros []; rewrite ?created_app;
    destruct build_log_cases as [H | H]; rewrite ?H; unfold created; simpl;
    lia.
Qed.

Lemma not_created l : created l = 0%nat → ∀ k x, ¬ creates l k x.
Proof.
  induction l as [|e l IH]; intros Hc k x [Hk | Hk]; [done|done| |].
  - destruct k as [|k]; simpl in Hk.
    + injection Hk as ->. unfold created in Hc. simpl in Hc. lia.
    + apply (IH ltac:(unfold created in *; simpl in Hc;
                      destruct (is_run e); simpl in Hc; lia) k x).
      by left.
  - destruct k as [|k]; simpl in Hk.
    + injection Hk as ->. unfold created in Hc. simpl in Hc. lia.
    + apply (IH ltac:(unfold created in *; simpl in Hc;
                      destruct (is_run e); simpl in Hc; lia) k x).
      by right.
Qed.

Lemma destroyed_after_run pre c mid :
  created pre = 0%nat →
  created mid = 0%nat →
  destroyed_after_creation (pre ++ EvRun c :: mid ++ [EvRemove c]).
Proof.
  intros Hpre Hmid i c' Hi.
  destruct (decide (i < length pre)%nat) as [Hlt|Hge].
  { destruct (not_created pre Hpre i c'). unfold creates in *.
    by rewrite !lookup_app_l in Hi by done. }
  unfold creates in Hi. rewrite !lookup_app_r in Hi by lia.
  destruct (i - length pre)%nat as [|k] eqn:Hk; simpl in Hi.
  - destruct Hi as [Hi | Hi]; [|done]. injection Hi as <-.
    exists (length pre + S (length mid))%nat. split; [lia|].
    rewrite lookup_app_r by lia.
    replace (length pre + S (length mid) - length pre)%nat
      with (S (length mid)) by lia.
    simpl. rewrite lookup_app_r by lia.
    by replace (length mid - length mid)%nat with 0%nat by lia.
  - destruct (decide (k < length mid)%nat) as [Hlt|Hge'].
    + destruct (not_created mid Hmid k c'). unfold creates.
      by rewrite !lookup_app_l in Hi by done.
    + rewrite !lookup_app_r in Hi by lia.
      destruct (k - length mid)%nat; simpl in Hi; by destruct Hi.
Qed.

(** The logs of the supervisor in which every instance created has a
    destruction call after its creation: all but the one of a start that
    failed. *)
Lemma supervisor_log_destroyed t :
  supervisor_log E t →
  destroyed_after_creation t ∨ ∃ c, t = build_log E ++ [EvLaunchFailed c].
Proof.
  assert (created (build_log E) = 0%nat) as Hb
    by (destruct build_log_cases as [H | H]; by rewrite H).
  intros [].
  - left. intros i c [Hi | Hi]; done.
  - left. intros i c Hi. by destruct (not_created _ Hb i c).
  - right. by eexists.
  - left. apply (destroyed_after_run _ c [EvWait c]); done.
  - left. apply (destroyed_after_run _ c [EvWait c; EvLogs c]); done.
  - left. apply (destroyed_after_run _ c [EvWait c; EvLogs c; EvRemove c]);
      done.
Qed.

Lemma supervisor_log_launched t :
  supervisor_log E t → destroyed_after_launch t.
Proof.
  intros Ht. destruct (supervisor_log_destroyed t Ht) as [Hd | [c ->]].
  - intros i c Hi. apply Hd. by left.
  - intros i c' Hi.
    assert (created (build_log E) = 0%nat) as Hb
      by (destruct build_log_cases as [H | H]; by rewrite H).
    destruct (decide (i < length (build_log E))%nat) as [Hlt|Hge].
    + rewrite lookup_app_l in Hi by done.
      destruct (not_created _ Hb i c'). by left.
    + rewrite lookup_app_r in Hi by lia.
      destruct (i - length (build_log E))%nat as [|k]; simpl in Hi; [done|].
      by destruct k.
Qed.

(** The supervisor when the instance is created and its start fails. *)
Lemma sanitize_start_failed R input output job_id w c e :
  connect (dk E) = Ok tt →
  image_ready (dk E) = true →
  containers_create (dk E) = Ok c →
  container_start (dk E) = Err e →
  @sanitize_in_container E R input output job_id w
  = (Normal false,
     {| fs := fs w; trace := trace w ++ build_log E ++ [EvLaunchFailed c] |}).
Proof.
  intros Hcon Himg Hcreate Hstart.
  unfold sanitize_in_container, client_containers_run, build_log, image_ready
    in *.
  py_unfold. rewrite Hcon. simpl.
  destruct (images_get (dk E)); [| |done]; simpl.
  - rewrite Hcreate. simpl. rewrite Hstart. simpl. by destruct w.
  - destruct (images_build (dk E)); [|done]. simpl.
    rewrite Hcreate. simpl. rewrite Hstart. simpl.
    by rewrite <- app_assoc.
Qed.

(** C4.  The claim fails where the launch raises after the instance is
    created: with the daemon answering, the image present or built, the
    creation returning the instance [c] and its start raising,
    [containers.run] raises, [container] is still [None] in the [finally]
    block, and the supervisor returns [False] having made no destruction
    call on [c]: its Docker calls are the image build, if any, and the
    failed launch. *)
Theorem launch_failure_leaves_instance R input output job_id w c e :
  connect (dk E) = Ok tt →
  image_ready (dk E) = true →
  containers_create (dk E) = Ok c →
  container_start (dk E) = Err e →
  ∃ w' t,
    @sanitize_in_container E R input output job_id w = (Normal false, w')
    ∧ trace w' = trace w ++ t
    ∧ creates t (length (build_log E)) c
    ∧ (∀ j, t !! j ≠ Some (EvRemove c))
    ∧ ¬ destroyed_after_creation t.
Proof.
  intros Hcon Himg Hcreate Hstart.
  rewrite (sanitize_start_failed R input output job_id w c e) by done.
  eexists _, _. split; [reflexivity|]. simpl. split; [reflexivity|].
  assert (creates (build_log E ++ [EvLaunchFailed c])
            (length (build_log E)) c) as Hcr.
  { right. rewrite lookup_app_r by lia.
    by replace (length (build_log E) - length (build_log E))%nat
      with 0%nat by lia. }
  assert (∀ j, (build_log E ++ [EvLaunchFailed c]) !! j
               ≠ Some (EvRemove c)) as Hno.
  { intros j.
    destruct build_log_cases as [H | H]; rewrite H;
      by repeat (destruct j as [|j]; simpl; try done). }
  split_and!; try done.
  intros Hd. destruct (Hd _ _ Hcr) as (j & _ & Hj). by apply (Hno j).
Qed.

(** X20.  However the daemon, the worker and the reputation service
    behave, the supervisor returns, and the Docker calls it has made by
    then are one of six logs: none (no daemon), only the image build (no
    instance created: the lookup, the build or the creation failed), the
    image build and a launch that created an instance and failed to start
    it, or a launch that returned the instance followed by the wait and a
    destruction call (the wait raised or timed out), by the wait, the log
    capture and a destruction call (the log capture raised), or by the
    wait, the log capture and two destruction calls (normal and non-zero
    exit).  So every instance that [containers.run] returned has a
    destruction call on it before the supervisor returns; every instance
    created has one unless the log is the one of the failed start; and at
    no point of the run has more than one instance been created.  The
    same holds for the whole job of the controller. *)
Theorem sandbox_destroyed_once_launched R input output job_id req w :
  (∃ ok w' t,
      @sanitize_in_container E R input output job_id w = (Normal ok, w')
      ∧ trace w' = trace w ++ t
      ∧ supervisor_log E t
      ∧ destroyed_after_launch t
      ∧ (destroyed_after_creation t
         ∨ ∃ c, t = build_log E ++ [EvLaunchFailed c])
      ∧ ∀ t1 t2, t = t1 ++ t2 → (created t1 ≤ 1)%nat)
  ∧ (∃ resp w' t,
      @upload_file E R req w = (Normal resp, w')
      ∧ trace w' = trace w ++ t
      ∧ destroyed_after_launch t
      ∧ (destroyed_after_creation t
         ∨ ∃ c, t = build_log E ++ [EvLaunchFailed c])
      ∧ ∀ t1 t2, t = t1 ++ t2 → (created t1 ≤ 1)%nat).
Proof.
  assert (∀ t, supervisor_log E t →
               ∀ t1 t2, t = t1 ++ t2 → (created t1 ≤ 1)%nat) as Hprefix.
  { intros t Ht t1 t2 ->. apply supervisor_log_created in Ht.
    rewrite created_app in Ht. lia. }
  split.
  - destruct (sanitize_paths E R input output job_id w)
      as (ok & fs' & t & Hs & Hlog & _).
    exists ok, {| fs := fs'; trace := trace w ++ t |}, t.
    split_and!; try done.
    + by apply supervisor_log_launched.
    + by apply supervisor_log_destroyed.
    + by apply Hprefix.
  - destruct (staged_upload E req) as [u|] eqn:Hst.
    + destruct (sanitize_paths E response (input_path E u) (output_path E)
                  (uuid4 E) (staged_world E u w))
        as (ok & fs' & t & Hs & Hlog & _).
      rewrite (upload_file_staged E R req w u ok _ Hst Hs).
      destruct (ok && _); eexists _, _, t;
        (split; [reflexivity|]); simpl;
        (split; [done|]);
        (split; [by apply supervisor_log_launched|]);
        (split; [by apply supervisor_log_destroyed|by apply Hprefix]).
    + destruct (upload_file_not_staged E R req w Hst)
        as (resp & w' & Hrun & Htrace & _).
      exists resp, w', []. rewrite app_nil_r. split_and!; try done.
      * left. intros i c [Hi | Hi]; done.
      * intros t1 t2 Ht. symmetry in Ht. apply app_eq_nil in Ht as [-> _].
        unfold created. simpl. lia.
Qed.

End Instances.

(** The failing launch of C4 on a daemon that creates the instance
    [c0ffee] and cannot start it: the supervisor returns [False] and its
    only Docker call is the failed launch. *)
Lemma launch_failure_leaves_instance_witness :
  ∃ w' t,
    @sanitize_in_container (environment "key" service start_fails) unit
      "/app/uploads/1b4e28ba_report.pdf"
      "/app/output/1b4e28ba_sanitized.pdf" "1b4e28ba" empty_world
    = (Normal false, w')
    ∧ trace w' = trace empty_world ++ t
    ∧ creates t (length (build_log (environment "key" service start_fails)))
        "c0ffee"
    ∧ (∀ j, t !! j ≠ Some (EvRemove "c0ffee"))
    ∧ ¬ destroyed_after_creation t.
Proof.
  refine (launch_failure_leaves_instance
            (environment "key" service start_fails) unit
            "/app/uploads/1b4e28ba_report.pdf"
            "/app/output/1b4e28ba_sanitized.pdf" "1b4e28ba" empty_world
            "c0ffee" "APIError: OCI runtime create failed" _ _ _ _);
    reflexivity.
Defined.

(** ** The CDR transformer *)

Import Worker WorkerSpec WorkerExamples.

Ltac wk_unfold1 :=
  unfold def, with_locals, global, get_local, set_local, try_except,
    try_finally, bind, ret, return_, raise, when, call, gets, modify,
    Worker.os_path_exists, Worker.read_file, Worker.write_file,
    Worker.os_remove, Worker.shutil_copy, Worker.os_rename,
    Worker.shutil_rmtree, Worker.os_makedirs, Worker.uncaught in *.

Ltac wk_unfold := repeat (progress (wk_unfold1; simpl in *)).

Arguments disarm_pdf : simpl never.
Arguments convert_to_pdf : simpl never.
Arguments pdf_to_pixels : simpl never.
Arguments pixels_to_pdf : simpl never.
Arguments validate_output : simpl never.
Arguments draw_pages : simpl never.
Arguments draw_page : simpl never.
Arguments strip_macros_from_office : simpl never.
Arguments remove_from_names : simpl never.
Arguments main : simpl never.

Section CDR.
Variable E : Worker.env.

Lemma disarm_page_disarmed page : page_disarmed (disarm_page page).
Proof.
  unfold page_disarmed, disarm_page.
  repeat case_bool_decide;
    repeat match goal with
           | H : ¬ is_Some _ |- _ => apply eq_None_not_Some in H
           end;
    split_and!; simplify_map_eq; done.
Qed.

(** A page without the three entries is left as it is. *)
Lemma disarm_page_absent page :
  page_disarmed page → disarm_page page = page.
Proof.
  intros (H1 & H2 & H3). unfold disarm_page.
  rewrite H1. simpl. rewrite H2. simpl. by rewrite H3.
Qed.

(** The page loop appends the edited pages in order. *)
Lemma page_loop ps : ∀ writer,
  foldl (λ writer page, add_page writer (disarm_page page)) writer ps
  = {| pages := pages writer ++ (disarm_page <$> ps); root := root writer;
       info := info writer |}.
Proof.
  induction ps as [|p ps IH]; intros writer; simpl.
  - rewrite app_nil_r. by destruct writer.
  - rewrite IH. simpl. by rewrite <- app_assoc.
Qed.

(** What the removal from the name dictionary does, when it returns. *)
Lemma remove_from_names_spec R key writer fs :
  match @remove_from_names R key writer fs with
  | (Normal writer', fs') =>
      fs' = fs
      ∧ pages writer' = pages writer
      ∧ info writer' = info writer
      ∧ ¬ names_entry (root writer') key
      ∧ (∀ k, names_entry (root writer') k → names_entry (root writer) k)
      ∧ root writer' !! "/OpenAction" = root writer !! "/OpenAction"
      ∧ names_absent_or_dict (root writer')
        = names_absent_or_dict (root writer)
  | (Return _, _) => False
  | (Raise _, fs') =>
      fs' = fs ∧ names_absent_or_dict (root writer) = false
  end.
Proof.
  unfold remove_from_names, names_entry, names_absent_or_dict.
  destruct (root writer !! "/Names") as [names|] eqn:Hn; wk_unfold.
  2: { rewrite Hn. split_and!; try done. by intros (d & ? & _). }
  destruct names as [| | | | l | d]; simpl; try done.
  - destruct (Str.occurs_in key s); simpl; [done|].
    rewrite Hn. split_and!; try done. by intros (d & ? & _).
  - destruct (Str.occurs_in key s); simpl; [done|].
    rewrite Hn. split_and!; try done. by intros (d & ? & _).
  - destruct (existsb (names_key key) l); simpl; [done|].
    rewrite Hn. split_and!; try done. by intros (d & ? & _).
  - case_bool_decide as Hk; simpl.
    + rewrite lookup_insert_eq. split_and!; try done.
      * intros (d' & [= <-] & Hd'). rewrite lookup_delete_eq in Hd'.
        by destruct Hd'.
      * intros k (d' & [= <-] & Hd'). exists d. split; [done|].
        destruct (decide (key = k)) as [->|Hne].
        -- rewrite lookup_delete_eq in Hd'. by destruct Hd'.
        -- by rewrite lookup_delete_ne in Hd'.
      * by rewrite lookup_insert_ne.
    + rewrite Hn. split_and!; try done.
      intros (d' & [= <-] & Hd'). done.
Qed.

(** Without a [/Names] entry, or with a name dictionary that lacks the
    key, the removal does nothing. *)
Lemma remove_from_names_absent R key writer fs :
  (root writer !! "/Names" = None
   ∨ ∃ d, root writer !! "/Names" = Some (PDict d) ∧ d !! key = None) →
  @remove_from_names R key writer fs = (Normal writer, fs).
Proof.
  unfold remove_from_names. intros [Hn | (d & Hn & Hk)]; rewrite Hn.
  - done.
  - wk_unfold. by rewrite Hk.
Qed.

Lemma remove_open_action_absent writer :
  root writer !! "/OpenAction" = None → remove_open_action writer = writer.
Proof. intros H. unfold remove_open_action. by rewrite H. Qed.

(** The ways the CDR pass ends on a file that is there: it writes a
    disarmed document made of the edited pages and returns [True]; or it
    copies the original forward and returns [False]; or, asked to write
    onto its own input, it raises from that copy. *)
Lemma disarm_pdf_result R pdf_path output_path fs f :
  fs !! pdf_path = Some f →
  (∃ doc d,
      parse_pdf f = Ok doc
      ∧ @disarm_pdf E R pdf_path output_path fs
        = (Normal true, <[output_path := FPdf d]> fs)
      ∧ disarmed d
      ∧ pages d = disarm_page <$> pages doc)
  ∨ ((if String.eqb pdf_path output_path
      then @disarm_pdf E R pdf_path output_path fs
           = (Raise "SameFileError", fs)
      else @disarm_pdf E R pdf_path output_path fs
           = (Normal false, <[output_path := f]> fs))
     ∧ (is_err (parse_pdf f) = true
        ∨ names_absent_or_dict (PdfWriter_root E) = false)).
Proof.
  intros Hf. unfold disarm_pdf. wk_unfold. rewrite Hf. simpl.
  destruct (parse_pdf f) as [doc|e] eqn:Hp; simpl.
  2: { right. rewrite Hf. simpl.
       split; [|by left]. by destruct (String.eqb pdf_path output_path). }
  rewrite page_loop. simpl.
  match goal with
  | |- context [@remove_from_names ?R' "/JavaScript" ?wr ?s] =>
      pose proof (remove_from_names_spec R' "/JavaScript" wr s) as H1;
      destruct (@remove_from_names R' "/JavaScript" wr s) as [[w1| |] fs1]
  end; simpl in *; [|done|].
  2: { right. destruct H1 as [-> H1]. rewrite Hf. simpl.
       split; [|by right]. by destruct (String.eqb pdf_path output_path). }
  destruct H1 as (-> & Hpg1 & Hinfo1 & Hjs1 & Hmono1 & Hoa1 & Hnd1).
  match goal with
  | |- context [@remove_from_names ?R' "/EmbeddedFiles" ?wr ?s] =>
      pose proof (remove_from_names_spec R' "/EmbeddedFiles" wr s) as H2;
      destruct (@remove_from_names R' "/EmbeddedFiles" wr s) as [[w2| |] fs2]
  end; simpl in *; [|done|].
  2: { right. destruct H2 as [-> H2]. rewrite Hf. simpl.
       split; [by destruct (String.eqb pdf_path output_path)|]. right.
       by rewrite <- Hnd1. }
  destruct H2 as (-> & Hpg2 & Hinfo2 & Hef2 & Hmono2 & Hoa2 & _).
  left. eexists doc, _. split; [done|]. split; [reflexivity|].
  unfold disarmed, add_metadata, remove_open_action. simpl.
  assert (∀ k, names_entry (root (if bool_decide
                                       (is_Some (root w2 !! "/OpenAction"))
                                  then {| pages := pages w2;
                                          root := delete "/OpenAction" (root w2);
                                          info := info w2 |}
                                  else w2)) k
               → names_entry (root w2) k) as Hk.
  { intros k. case_bool_decide; [|done]. simpl.
    intros (d & Hd & Hdk). exists d. by rewrite lookup_delete_ne in Hd. }
  split_and!.
  - case_bool_decide; simpl; rewrite Hpg2, Hpg1; simpl;
      apply Forall_fmap, Forall_forall; intros p _;
      apply disarm_page_disarmed.
  - intros H%Hk%Hmono2. done.
  - intros H%Hk. done.
  - case_bool_decide as Hoa; simpl.
    + apply lookup_delete_eq.
    + by apply eq_None_not_Some.
  - case_bool_decide; simpl; by rewrite Hpg2, Hpg1.
Qed.

(** C5.  For a file that parses as a PDF: when the CDR pass returns
    [True], the file it wrote is a PDF whose pages are the input pages,
    none with an [/Annots], [/AA] or [/A] entry, and whose catalog has no
    [/Names/JavaScript], no [/Names/EmbeddedFiles] and no [/OpenAction];
    the pass does return [True] whenever the catalog of the new writer
    has no [/Names] or a dictionary there, whichever entries the input has
    or lacks; and each removal is the identity where its entry is absent. *)
Theorem cdr_disarms R pdf_path output_path fs f doc :
  fs !! pdf_path = Some f →
  parse_pdf f = Ok doc →
  (∀ fs',
      @disarm_pdf E R pdf_path output_path fs = (Normal true, fs') →
      ∃ d, fs' !! output_path = Some (FPdf d)
           ∧ disarmed d
           ∧ pages d = disarm_page <$> pages doc)
  ∧ (names_absent_or_dict (PdfWriter_root E) = true →
     ∃ d, @disarm_pdf E R pdf_path output_path fs
          = (Normal true, <[output_path := FPdf d]> fs)
          ∧ disarmed d)
  ∧ (∀ page, page_disarmed page → disarm_page page = page)
  ∧ (∀ key writer s,
        (root writer !! "/Names" = None
         ∨ ∃ d, root writer !! "/Names" = Some (PDict d) ∧ d !! key = None) →
        @remove_from_names R key writer s = (Normal writer, s))
  ∧ (∀ writer,
        root writer !! "/OpenAction" = None →
        remove_open_action writer = writer).
Proof.
  intros Hf Hp.
  destruct (disarm_pdf_result R pdf_path output_path fs f Hf)
    as [(doc' & d & Hp' & Hd & Hdis & Hpg) | [Hd Hwhy]].
  - rewrite Hp in Hp'. injection Hp' as <-. split_and!.
    + intros fs'. rewrite Hd. intros [= <-]. exists d.
      by rewrite lookup_insert_eq.
    + intros _. by exists d.
    + apply disarm_page_absent.
    + intros key writer s. apply remove_from_names_absent.
    + apply remove_open_action_absent.
  - split_and!.
    + intros fs'. destruct (String.eqb pdf_path output_path); by rewrite Hd.
    + intros Hn. destruct Hwhy as [He | Hn'].
      * by rewrite Hp in He.
      * by rewrite Hn in Hn'.
    + apply disarm_page_absent.
    + intros key writer s. apply remove_from_names_absent.
    + apply remove_open_action_absent.
Qed.

End CDR.

(** The theorem of C5 on a two-page document that carries every one of
    the entries, and on its own output, which carries none. *)
Lemma cdr_disarms_witness :
  (∃ d, @disarm_pdf worker unit "/worker/input/1b4e28ba_report.pdf"
          "/tmp/cleansheet_work/cdr.pdf" (mounted (hostile 2))
        = (Normal true,
           <["/tmp/cleansheet_work/cdr.pdf" := FPdf d]> (mounted (hostile 2)))
        ∧ disarmed d)
  ∧ (∃ d, @disarm_pdf worker unit "/worker/input/1b4e28ba_report.pdf"
            "/tmp/cleansheet_work/cdr.pdf"
            (mounted {| pages := [ {[ "/Type" := PName "/Page" ]} ];
                        root := {[ "/Type" := PName "/Catalog" ]};
                        info := ∅ |})
          = (Normal true,
             <["/tmp/cleansheet_work/cdr.pdf" := FPdf d]>
               (mounted {| pages := [ {[ "/Type" := PName "/Page" ]} ];
                           root := {[ "/Type" := PName "/Catalog" ]};
                           info := ∅ |}))
          ∧ disarmed d).
Proof.
  split.
  - refine (proj1 (proj2 (cdr_disarms worker unit
              "/worker/input/1b4e28ba_report.pdf"
              "/tmp/cleansheet_work/cdr.pdf" (mounted (hostile 2))
              (FPdf (hostile 2)) (hostile 2) _ _)) _); reflexivity.
  - refine (proj1 (proj2 (cdr_disarms worker unit
              "/worker/input/1b4e28ba_report.pdf"
              "/tmp/cleansheet_work/cdr.pdf"
              (mounted {| pages := [ {[ "/Type" := PName "/Page" ]} ];
                          root := {[ "/Type" := PName "/Catalog" ]};
                          info := ∅ |})
              (FPdf {| pages := [ {[ "/Type" := PName "/Page" ]} ];
                       root := {[ "/Type" := PName "/Catalog" ]};
                       info := ∅ |})
              {| pages := [ {[ "/Type" := PName "/Page" ]} ];
                 root := {[ "/Type" := PName "/Catalog" ]};
                 info := ∅ |} _ _)) _); reflexivity.
Defined.

(** ** The pixel reconstruction pass *)

Section Pixels.
Variable E : Worker.env.

Lemma strip_size img :
  width (strip_metadata_from_image E img) = width img
  ∧ height (strip_metadata_from_image E img) = height img.
Proof. unfold strip_metadata_from_image. by destruct (pil_raises E img). Qed.

(** The arithmetic of the loop body, on exact rationals. *)
Lemma letterbox_arithmetic (img : image) :
  proper img →
  let aspect := (inject_Z (height img) / inject_Z (width img))%Q in
  let display_width := (612 - 40)%Q in
  let display_height := (display_width * aspect)%Q in
  let exceeds := negb (Qle_bool display_height (792 - 40)) in
  let display_height' := if exceeds then (792 - 40)%Q else display_height in
  let display_width' :=
    if exceeds then (display_height' / aspect)%Q else display_width in
  let pl := {| drawn := img;
               at_x := (612 - display_width') / 2;
               at_y := (792 - display_height') / 2;
               drawn_width := display_width';
               drawn_height := display_height' |} in
  centered pl ∧ aspect_preserved img pl ∧ width_first img pl
  ∧ margin_of 20 pl.
Proof.
  intros [Hw Hh].
  assert (0 < inject_Z (width img))%Q as Hw' by (unfold Qlt; simpl; lia).
  assert (0 < inject_Z (height img))%Q as Hh' by (unfold Qlt; simpl; lia).
  assert (0 < inject_Z (height img) / inject_Z (width img))%Q as Ha.
  { apply Qlt_shift_div_l; [done|]. by rewrite Qmult_0_l. }
  assert (¬ inject_Z (width img) == 0)%Q as Hw0
    by (intros H; rewrite H in Hw'; by apply Qlt_irrefl in Hw').
  assert (¬ inject_Z (height img) == 0)%Q as Hh0
    by (intros H; rewrite H in Hh'; by apply Qlt_irrefl in Hh').
  intros aspect display_width display_height exceeds.
  unfold centered, aspect_preserved, width_first, margin_of.
  subst exceeds display_height display_width aspect. cbv zeta.
  set (a := (inject_Z (height img) / inject_Z (width img))%Q) in *.
  assert (a * inject_Z (width img) == inject_Z (height img))%Q as Haw
    by (subst a; field; done).
  assert (∀ q, 2 * (q / 2) == q)%Q as Hhalf by (intros q; field).
  destruct (Qle_bool ((612 - 40) * a) (792 - 40)) eqn:Hle;
    cbn [negb at_x at_y drawn_width drawn_height drawn].
  - apply Qle_bool_iff in Hle.
    assert (Qle_bool (572 * a) 752 = true) as ->
      by (apply Qle_bool_iff; lra).
    pose proof (Hhalf (612 - (612 - 40))%Q) as Hx.
    pose proof (Hhalf (792 - (612 - 40) * a)%Q) as Hy.
    set (X := ((612 - (612 - 40)) / 2)%Q) in *.
    set (Y := ((792 - (612 - 40) * a) / 2)%Q) in *.
    clearbody X Y. split_and!; lra.
  - assert (¬ (612 - 40) * a <= 792 - 40)%Q as Hgt
      by (intros H%Qle_bool_iff; congruence).
    assert (Qle_bool (572 * a) 752 = false) as ->.
    { destruct (Qle_bool (572 * a) 752) eqn:H; [|done].
      apply Qle_bool_iff in H. destruct Hgt. lra. }
    assert ((792 - 40) / a <= 572)%Q as Hd.
    { apply Qle_shift_div_r; [done|]. lra. }
    assert ((792 - 40) / a * a == 792 - 40)%Q as Hda.
    { field. intros H. rewrite H in Ha. by apply Qlt_irrefl in Ha. }
    assert ((792 - 40) / a * inject_Z (height img)
            == (792 - 40) * inject_Z (width img))%Q as Hasp.
    { transitivity ((792 - 40) / a * (a * inject_Z (width img)))%Q;
        [by rewrite Haw|].
      transitivity ((792 - 40) / a * a * inject_Z (width img))%Q; [ring|].
      by rewrite Hda. }
    set (D := ((792 - 40) / a)%Q) in *.
    pose proof (Hhalf (612 - D)%Q) as Hx.
    pose proof (Hhalf (792 - (792 - 40))%Q) as Hy.
    set (X := ((612 - D) / 2)%Q) in *.
    set (Y := ((792 - (792 - 40)) / 2)%Q) in *.
    clearbody X Y D. split_and!; lra.
Qed.

(** One iteration of the loop draws one image as the arithmetic says and
    finishes the page. *)
Lemma draw_page_spec R c img fs :
  proper img →
  ∃ pl,
    @draw_page E R c img fs
    = (Normal {| pagesize := pagesize c;
                 finished := finished c ++ [current c ++ [pl]];
                 current := [] |}, fs)
    ∧ drawn pl = strip_metadata_from_image E img
    ∧ centered pl ∧ aspect_preserved img pl ∧ width_first img pl
    ∧ margin_of 20 pl.
Proof.
  intros Hp. destruct (strip_size img) as [Hw Hh].
  assert (proper (strip_metadata_from_image E img)) as Hp'
    by (unfold proper; by rewrite Hw, Hh).
  pose proof (letterbox_arithmetic _ Hp') as Harith. cbv zeta in Harith.
  unfold aspect_preserved, width_first in *. rewrite Hw, Hh in Harith.
  unfold draw_page, letter, showPage, drawImage. cbv zeta.
  cbn [fst snd pagesize finished current]. rewrite Hw, Hh.
  replace (width img =? 0) with false by (destruct Hp; lia).
  unfold bind, when, ret.
  eexists. split; [reflexivity|]. split; [reflexivity|]. exact Harith.
Qed.

(** The loop draws the images in order, one to a page. *)
Lemma draw_pages_spec R images : ∀ c fs,
  current c = [] →
  Forall proper images →
  ∃ pls,
    @draw_pages E R c images fs
    = (Normal {| pagesize := pagesize c;
                 finished := finished c ++ (page_of <$> pls);
                 current := [] |}, fs)
    ∧ Forall2 (λ img pl,
                 drawn pl = strip_metadata_from_image E img
                 ∧ centered pl ∧ aspect_preserved img pl
                 ∧ width_first img pl ∧ margin_of 20 pl) images pls.
Proof.
  induction images as [|img images IH]; intros c fs Hc Himgs.
  - exists []. split; [|constructor]. unfold draw_pages, ret. simpl.
    rewrite app_nil_r. destruct c; simpl in *. by subst.
  - apply Forall_cons in Himgs as [Himg Himgs].
    destruct (draw_page_spec R c img fs Himg) as (pl & Hd & Hpl).
    destruct (IH {| pagesize := pagesize c;
                    finished := finished c ++ [current c ++ [pl]];
                    current := [] |} fs eq_refl Himgs)
      as (pls & Hds & Hpls).
    exists (pl :: pls). split; [|by constructor].
    change (draw_pages E c (img :: images))
      with (bind (@draw_page E R c img) (λ c, draw_pages E c images)).
    unfold bind at 1. rewrite Hd, Hds. simpl.
    rewrite Hc, <- app_assoc. reflexivity.
Qed.

(** C6, as amended.  The rasterizer is asked for 200 DPI and its page
    images are passed on as they are.  From page images of positive size
    the re-emission writes a PDF of letter-sized pages, one per image and
    in order, each holding that single image (stripped of metadata):
    centered, in the aspect ratio of the image, scaled to the available
    width of 612 - 40 points unless the height would then exceed the
    available 792 - 40 points, in which case it is scaled to that height;
    so at least 20 points stay free on each side. *)
Theorem pixel_reconstruction R pdf_path output_path fs images :
  Forall proper images →
  @pdf_to_pixels E R pdf_path fs
  = (Normal match fs !! pdf_path with
            | Some f =>
                match convert_from_path E f 200 with
                | Ok rendered => Some rendered
                | Err _ => None
                end
            | None => None
            end, fs)
  ∧ ∃ pls,
      @pixels_to_pdf E R images output_path fs
      = (Normal true,
         <[output_path := FCanvas (612%Q, 792%Q) (page_of <$> pls)]> fs)
      ∧ Forall2 (λ img pl,
                   drawn pl = strip_metadata_from_image E img
                   ∧ centered pl ∧ aspect_preserved img pl
                   ∧ width_first img pl ∧ margin_of 20 pl) images pls.
Proof.
  intros Himgs. split.
  - unfold pdf_to_pixels. wk_unfold.
    destruct (fs !! pdf_path) as [f|]; simpl; [|done].
    by destruct (convert_from_path E f 200).
  - destruct (draw_pages_spec bool images (Canvas letter) fs eq_refl Himgs)
      as (pls & Hd & Hpls).
    exists pls. split; [|done].
    unfold pixels_to_pdf, def, try_except, bind, return_, Worker.write_file,
      modify.
    rewrite Hd. reflexivity.
Qed.

End Pixels.

(** The theorem of C6 on a letter-sized scan, a panorama and a tall
    receipt. *)
Lemma pixel_reconstruction_witness :
  @pdf_to_pixels worker unit "/tmp/cleansheet_work/cdr.pdf" ∅
  = (Normal match (∅ : gmap string file) !! "/tmp/cleansheet_work/cdr.pdf" with
            | Some f =>
                match convert_from_path worker f 200 with
                | Ok rendered => Some rendered
                | Err _ => None
                end
            | None => None
            end, ∅)
  ∧ ∃ pls,
      @pixels_to_pdf worker unit [letter_scan; panorama; receipt]
        "/worker/output/out.pdf" ∅
      = (Normal true,
         <["/worker/output/out.pdf" :=
             FCanvas (612%Q, 792%Q) (page_of <$> pls)]> ∅)
      ∧ Forall2 (λ img pl,
                   drawn pl = strip_metadata_from_image worker img
                   ∧ centered pl ∧ aspect_preserved img pl
                   ∧ width_first img pl ∧ margin_of 20 pl)
          [letter_scan; panorama; receipt] pls.
Proof.
  refine (pixel_reconstruction worker unit "/tmp/cleansheet_work/cdr.pdf"
            "/worker/output/out.pdf" ∅ [letter_scan; panorama; receipt] _).
  repeat constructor.
Defined.

(** C6, as stated, fails on a letter-sized page rendered at 200 DPI
    (1700 by 2200 pixels): the image is drawn 572 points wide at x = 20,
    so the margin on the left is 20 points, not 40. *)
Lemma margin_counterexample : ¬ pages_have_margin_40 worker [letter_scan].
Proof.
  intros H.
  specialize (H (612%Q, 792%Q)
                [[ {| drawn := letter_scan; at_x := 40 # 2;
                      at_y := 88000 # 3400; drawn_width := 572;
                      drawn_height := 1258400 # 1700 |} ]]
                {| drawn := letter_scan; at_x := 40 # 2;
                   at_y := 88000 # 3400; drawn_width := 572;
                   drawn_height := 1258400 # 1700 |}).
  destruct H as (Hx & _).
  - vm_compute. reflexivity.
  - simpl. apply list_elem_of_here.
  - revert Hx. unfold Qle. simpl. lia.
Qed.


(** ** The worker on a document without pages *)

Section ZeroPages.
Variable E : Worker.env.

(** On a document without pages the CDR pass, whichever way it ends,
    leaves a document without pages at its output path. *)
Lemma disarm_pdf_zero R pdf_path output_path fs f d :
  pdf_path ≠ output_path →
  fs !! pdf_path = Some f →
  parse_pdf f = Ok d →
  pages d = [] →
  ∃ ok g d',
    @disarm_pdf E R pdf_path output_path fs
    = (Normal ok, <[output_path := g]> fs)
    ∧ parse_pdf g = Ok d' ∧ pages d' = [].
Proof.
  intros Hne Hf Hp Hz.
  destruct (disarm_pdf_result E R pdf_path output_path fs f Hf)
    as [(doc & d' & Hp' & Hd & _ & Hpg) | [Hd _]].
  - rewrite Hp in Hp'. injection Hp' as <-.
    exists true, (FPdf d'), d'. split; [done|]. split; [done|].
    by rewrite Hpg, Hz.
  - apply String.eqb_neq in Hne. rewrite Hne in Hd. by exists false, f, d.
Qed.

(** The normalizer passes such a PDF through the CDR pass. *)
Lemma convert_to_pdf_zero R input_path output_path stem ext fs f d :
  Str.rsplit_dot input_path = Some (stem, ext) →
  Str.lower ext = "pdf" →
  output_path +:+ ".cdr.pdf" ≠ output_path →
  input_path ≠ output_path +:+ ".cdr.pdf" →
  fs !! input_path = Some f →
  parse_pdf f = Ok d →
  pages d = [] →
  ∃ g d',
    @convert_to_pdf E R input_path output_path fs
    = (Normal true,
       delete (output_path +:+ ".cdr.pdf")
         (<[output_path := g]> (<[output_path +:+ ".cdr.pdf" := g]> fs)))
    ∧ parse_pdf g = Ok d' ∧ pages d' = [].
Proof.
  intros Hsplit Hext Hne Hin Hf Hp Hz.
  destruct (disarm_pdf_zero bool input_path (output_path +:+ ".cdr.pdf")
              fs f d Hin Hf Hp Hz) as (ok & g & d' & Hd & Hg & Hz').
  exists g, d'. split; [|done].
  unfold convert_to_pdf. wk_unfold. rewrite Hsplit. simpl.
  rewrite Hext. simpl. rewrite Hd. simpl.
  rewrite lookup_insert_eq. simpl.
  replace (output_path +:+ ".cdr.pdf" =? output_path)%string with false
    by (symmetry; by apply String.eqb_neq).
  simpl.
  rewrite lookup_insert_ne by (intros H; by apply Hne).
  rewrite lookup_insert_eq. simpl.
  rewrite lookup_insert_ne by (intros H; by apply Hne).
  rewrite lookup_insert_eq. reflexivity.
Qed.

Lemma pdf_to_pixels_zero R pdf_path fs g d :
  no_pages_no_images E →
  fs !! pdf_path = Some g →
  parse_pdf g = Ok d →
  pages d = [] →
  ∃ rendered,
    @pdf_to_pixels E R pdf_path fs = (Normal rendered, fs)
    ∧ falsy rendered = true.
Proof.
  intros Hcontract Hg Hp Hz. unfold pdf_to_pixels. wk_unfold. rewrite Hg.
  simpl. destruct (convert_from_path E g 200) as [images|e] eqn:Hc; simpl.
  - rewrite (Hcontract g d 200 images Hp Hz Hc). by exists (Some []).
  - by exists None.
Qed.

(** C8, as amended.  For a submitted PDF without pages, pdf2image
    yielding no page image for it, the worker stops at the rendering
    step: it exits with status 1 and writes nothing at its output path. *)
Theorem zero_page_rejected input_file output_file stem ext fs f d :
  INPUT_FILE E = Some input_file →
  OUTPUT_FILE E = Some output_file →
  Str.is_empty input_file = false →
  Str.is_empty output_file = false →
  String.prefix "/tmp/cleansheet_work/" input_file = false →
  String.prefix "/tmp/cleansheet_work/" output_file = false →
  Str.rsplit_dot input_file = Some (stem, ext) →
  Str.lower ext = "pdf" →
  fs !! input_file = Some f →
  parse_pdf f = Ok d →
  pages d = [] →
  no_pages_no_images E →
  ∃ fs', main E fs = (Normal 1, fs')
         ∧ fs' !! output_file = fs !! output_file.
Proof.
  intros Hin Hout Hine Houte Hipre Hopre Hsplit Hext Hf Hp Hz Hcontract.
  assert (input_file ≠ "/tmp/cleansheet_work/intermediate.pdf.cdr.pdf")
    as Hi1 by (intros ->; done).
  assert (input_file ≠ "/tmp/cleansheet_work/intermediate.pdf")
    as Hi2 by (intros ->; done).
  assert (output_file ≠ "/tmp/cleansheet_work/intermediate.pdf.cdr.pdf")
    as Ho1 by (intros ->; done).
  assert (output_file ≠ "/tmp/cleansheet_work/intermediate.pdf")
    as Ho2 by (intros ->; done).
  assert (output_file ≠ "/tmp/cleansheet_work/cdr.pdf")
    as Ho3 by (intros ->; done).
  destruct (bool_decide (is_Some (fs !! "/tmp/cleansheet_work"))
            || bool_decide (is_Some (fs !! "/tmp"))) eqn:Hmk.
  { exists fs. split; [|done].
    unfold main. wk_unfold. rewrite Hin, Hout. simpl.
    rewrite Hine, Houte. simpl. rewrite Hf. simpl.
    change (Str.dirname "/tmp/cleansheet_work") with "/tmp".
    destruct (bool_decide (is_Some (fs !! "/tmp/cleansheet_work")));
      simpl in *; [done|].
    by rewrite Hmk. }
  apply orb_false_elim in Hmk as [Hmk1 Hmk2].
  destruct (convert_to_pdf_zero Z input_file
              "/tmp/cleansheet_work/intermediate.pdf" stem ext fs f d
              Hsplit Hext ltac:(done) Hi1 Hf Hp Hz)
    as (g & d1 & Hconv & Hg & Hz1).
  set (fs1 := delete ("/tmp/cleansheet_work/intermediate.pdf" +:+ ".cdr.pdf")
                (<["/tmp/cleansheet_work/intermediate.pdf" := g]>
                   (<["/tmp/cleansheet_work/intermediate.pdf" +:+ ".cdr.pdf"
                      := g]> fs))) in *.
  assert (fs1 !! "/tmp/cleansheet_work/intermediate.pdf" = Some g) as Hf1.
  { subst fs1. rewrite lookup_delete_ne by done. apply lookup_insert_eq. }
  destruct (disarm_pdf_zero Z "/tmp/cleansheet_work/intermediate.pdf"
              "/tmp/cleansheet_work/cdr.pdf" fs1 g d1 ltac:(done) Hf1 Hg Hz1)
    as (ok & g2 & d2 & Hdis & Hg2 & Hz2).
  destruct (pdf_to_pixels_zero Z "/tmp/cleansheet_work/cdr.pdf"
              (<["/tmp/cleansheet_work/cdr.pdf" := g2]> fs1) g2 d2
              Hcontract (lookup_insert_eq _ _ _) Hg2 Hz2)
    as (rendered & Hpix & Hfalsy).
  eexists. split.
  - unfold main. wk_unfold. rewrite Hin, Hout. simpl.
    rewrite Hine, Houte. simpl. rewrite Hf. simpl.
    change (Str.dirname "/tmp/cleansheet_work") with "/tmp".
    rewrite Hmk1. simpl. rewrite Hmk2. simpl.
    change ("/tmp/cleansheet_work" +:+ "/" +:+ "intermediate.pdf")
      with "/tmp/cleansheet_work/intermediate.pdf".
    change ("/tmp/cleansheet_work" +:+ "/" +:+ "cdr.pdf")
      with "/tmp/cleansheet_work/cdr.pdf".
    rewrite Hconv. simpl. rewrite Hdis. simpl. rewrite Hpix. simpl.
    rewrite Hfalsy. simpl. reflexivity.
  - assert (∀ (m : gmap string file),
              filter (λ kv : string * file,
                        String.prefix "/tmp/cleansheet_work/" kv.1 = false) m
              !! output_file = m !! output_file) as Hfilter.
    { intros m. destruct (m !! output_file) as [x|] eqn:Hx.
      - by apply map_lookup_filter_Some_2.
      - apply map_lookup_filter_None_2. by left. }
    simpl. rewrite Hfilter. subst fs1.
    rewrite lookup_insert_ne by done. rewrite lookup_delete_ne by done.
    rewrite lookup_insert_ne by done. by rewrite lookup_insert_ne by done.
Qed.

End ZeroPages.


Lemma rasterizer_no_pages : no_pages_no_images worker.
Proof.
  intros f d dpi images Hp Hz. simpl. unfold rasterizer.
  rewrite Hp, Hz. by intros [= <-].
Qed.

(** The theorem of C8 on the job input stripped of its pages. *)
Lemma zero_page_rejected_witness :
  ∃ fs', main worker (mounted (hostile 0)) = (Normal 1, fs')
         ∧ fs' !! "/worker/output/1b4e28ba_sanitized.pdf"
           = mounted (hostile 0) !! "/worker/output/1b4e28ba_sanitized.pdf".
Proof.
  refine (zero_page_rejected worker "/worker/input/1b4e28ba_report.pdf"
            "/worker/output/1b4e28ba_sanitized.pdf"
            "/worker/input/1b4e28ba_report" "pdf" (mounted (hostile 0))
            (FPdf (hostile 0)) (hostile 0)
            _ _ _ _ _ _ _ _ _ _ _ _); try reflexivity.
  exact rasterizer_no_pages.
Defined.

(** C8, as stated, fails on a PDF without pages: the rasterizer returns
    the empty list, which [if not pixel_images] takes for a failed
    rendering, and the worker exits with status 1. *)
Lemma zero_page_counterexample :
  ¬ zero_page_success worker (mounted (hostile 0)).
Proof.
  intros (fs' & out & f & d & Hmain & _).
  assert ((main worker (mounted (hostile 0))).1 = Normal 1) as H
    by (vm_compute; reflexivity).
  rewrite Hmain in H. discriminate.
Qed.

(** ** Further properties of the gateway *)

(** *** File names *)

Section FileNames.

Lemma rsplit1_inv c : ∀ s a b,
  Str.rsplit1 c s = Some (a, b) →
  s = a +:+ String c b ∧ Str.rsplit1 c b = None.
Proof.
  induction s as [|x s IH]; intros a b; simpl; [done|].
  destruct (Str.rsplit1 c s) as [[a' b']|] eqn:Hs.
  - intros [= <- <-]. destruct (IH a' b' eq_refl) as [-> Hb]. done.
  - destruct (Ascii.eqb x c) eqn:Hx; [|done].
    apply Ascii.eqb_eq in Hx as ->. by intros [= <- <-].
Qed.

Lemma rsplit1_app c b : ∀ a,
  Str.rsplit1 c b = None →
  Str.rsplit1 c (a +:+ String c b) = Some (a, b).
Proof.
  intros a Hb. induction a as [|x a IH]; simpl.
  - by rewrite Hb, Ascii.eqb_refl.
  - by rewrite IH.
Qed.

(** X1.  A file name is allowed exactly when it is [stem.ext] for an
    extension [ext] without a dot whose lower-case form is in the list: only
    the text after the last dot counts, in any letter case, and a name
    without a dot is refused. *)
Theorem allowed_file_spec filename :
  App.allowed_file filename = true
  ↔ ∃ stem ext,
      filename = stem +:+ "." +:+ ext
      ∧ Str.rsplit1 "." ext = None
      ∧ Str.lower ext ∈ App.ALLOWED_EXTENSIONS.
Proof.
  unfold App.allowed_file, Str.rsplit_dot. split.
  - destruct (Str.rsplit1 "." filename) as [[stem ext]|] eqn:Hs; [|done].
    intros H%bool_decide_eq_true_1.
    apply rsplit1_inv in Hs as [-> Hext]. by exists stem, ext.
  - intros (stem & ext & -> & Hext & Hin).
    change (stem +:+ "." +:+ ext) with (stem +:+ String "." ext).
    rewrite (rsplit1_app _ _ _ Hext). by apply bool_decide_eq_true_2.
Qed.

End FileNames.

(** *** Requests the controller turns away *)

Section Rejections.
Variable E : App.env.

(** X2.  The checks of the controller in their order: a request that is
    not a POST gets the upload page; a POST without a [file] part is
    answered 400 "No file provided"; a file with an empty name or a name
    that is not allowed is answered 400 "Invalid file type" whatever its
    size; in these three cases nothing is staged.  A file that passes the
    name and size checks but whose save raises is answered 500 with the
    text of the exception, and whatever the save had written by then stays
    at the input path: the controller removes nothing on this path.  No
    Docker call is made in any of the four cases. *)
Theorem request_validation R req w :
  (String.eqb (method req) "POST" = false →
   @upload_file E R req w
   = (Normal {| status := 200; payload := Html; headers := [];
                on_close := [] |}, w))
  ∧ (String.eqb (method req) "POST" = true →
     files req !! "file" = None →
     @upload_file E R req w
     = (Normal (jsonify_error "No file provided" 400), w))
  ∧ (∀ u,
       String.eqb (method req) "POST" = true →
       files req !! "file" = Some u →
       Str.is_empty (filename u) || negb (allowed_file (filename u)) = true →
       @upload_file E R req w
       = (Normal (jsonify_error "Invalid file type" 400), w))
  ∧ (∀ u e,
       String.eqb (method req) "POST" = true →
       files req !! "file" = Some u →
       Str.is_empty (filename u) || negb (allowed_file (filename u)) = false →
       (blob_size (content u) ≤ MAX_FILE_SIZE)%N →
       file_save E = Err e →
       @upload_file E R req w
       = (Normal (jsonify_error e 500),
          {| App.fs := match save_leaves E with
                       | Some part => <[input_path E u := part]> (App.fs w)
                       | None => App.fs w
                       end;
             trace := trace w |})).
Proof.
  unfold upload_file, input_path. py_unfold. split_and!.
  - by intros ->.
  - intros -> Hf. simpl. by rewrite Hf.
  - intros u -> Hf Hn. simpl. rewrite Hf. simpl. by rewrite Hn.
  - intros u e -> Hf Hn Hsz Hsave. simpl. rewrite Hf. simpl. rewrite Hn.
    simpl. replace (MAX_FILE_SIZE <? blob_size (content u))%N with false
      by (symmetry; by apply N.ltb_ge).
    simpl. rewrite Hsave. simpl.
    destruct (save_leaves E); simpl; [done|]. by destruct w.
Qed.

End Rejections.

(** The four rejections on concrete requests: a GET, a POST without a
    file, an oversize [setup.exe], and a report on a disk that fills up
    after 512 bytes. *)
Lemma request_validation_witness :
  @upload_file (environment "key" service (daemon None 0)) unit
    {| method := "GET"; files := ∅ |} empty_world
  = (Normal {| status := 200; payload := Html; headers := [];
               on_close := [] |}, empty_world)
  ∧ @upload_file (environment "key" service (daemon None 0)) unit
      {| method := "POST"; files := ∅ |} empty_world
    = (Normal (jsonify_error "No file provided" 400), empty_world)
  ∧ @upload_file (environment "key" service (daemon None 0)) unit
      (post (document "setup.exe" 209715200 "x")) empty_world
    = (Normal (jsonify_error "Invalid file type" 400), empty_world)
  ∧ @upload_file MoreExamples.full_disk unit
      (post (document "report.pdf" 2048 "clean")) empty_world
    = (Normal (jsonify_error "No space left on device" 500),
       {| App.fs :=
            match save_leaves MoreExamples.full_disk with
            | Some part =>
                <[input_path MoreExamples.full_disk
                    (document "report.pdf" 2048 "clean") := part]>
                  (App.fs empty_world)
            | None => App.fs empty_world
            end;
          trace := trace empty_world |}).
Proof.
  split_and!.
  - refine (proj1 (request_validation
                     (environment "key" service (daemon None 0)) unit
                     {| method := "GET"; files := ∅ |} empty_world) _).
    reflexivity.
  - refine (proj1 (proj2 (request_validation
                     (environment "key" service (daemon None 0)) unit
                     {| method := "POST"; files := ∅ |} empty_world)) _ _);
      reflexivity.
  - refine (proj1 (proj2 (proj2 (request_validation
                     (environment "key" service (daemon None 0)) unit
                     (post (document "setup.exe" 209715200 "x"))
                     empty_world)))
              (document "setup.exe" 209715200 "x") _ _ _); reflexivity.
  - refine (proj2 (proj2 (proj2 (request_validation
                     MoreExamples.full_disk unit
                     (post (document "report.pdf" 2048 "clean"))
                     empty_world)))
              (document "report.pdf" 2048 "clean")
              "No space left on device" _ _ _ _ _); try reflexivity.
    vm_compute. discriminate.
Defined.

(** *** The cleanup callback *)

(** X3.  The callback never raises, whether or not the two files are still
    there; afterwards neither is, every other staged file and the Docker log
    are as before, and running it again changes nothing. *)
Theorem cleanup_safe input output w :
  ∃ w',
    cleanup input output w = (Normal tt, w')
    ∧ App.fs w' !! input = None
    ∧ App.fs w' !! output = None
    ∧ (∀ p, p ≠ input → p ≠ output → App.fs w' !! p = App.fs w !! p)
    ∧ trace w' = trace w
    ∧ cleanup input output w' = (Normal tt, w').
Proof.
  eexists. split; [apply cleanup_spec|]. simpl. split_and!.
  - destruct (decide (input = output)) as [->|Hne].
    + apply lookup_delete_eq.
    + rewrite lookup_delete_ne by done. apply lookup_delete_eq.
  - apply lookup_delete_eq.
  - intros p Hi Ho. by rewrite !lookup_delete_ne.
  - done.
  - rewrite cleanup_spec. simpl. f_equal. f_equal.
    apply map_eq. intros p. rewrite !lookup_delete.
    by repeat case_decide.
Qed.

(** *** What the reputation client reports *)

Section Reports.
Variable E : App.env.

Lemma pending_before_intro id k :
  (∀ j, (j < k)%nat →
        ∃ r, analyses_get (vt E) id j = Ok r ∧ still_pending r = true) →
  pending_before E id k = true.
Proof.
  intros H. unfold pending_before. apply forallb_forall.
  intros j Hj%in_seq. destruct (H j ltac:(lia)) as (r & -> & Hr). done.
Qed.

(** When the polling loop ends the scan, it is on a completed analysis
    that follows polls which left it running, and the result reads its
    statistics. *)
Lemma poll_returns id n : ∀ i w r w',
  poll E id i n w = (Return r, w') →
  ∃ k st,
    (i ≤ k < i + n)%nat
    ∧ (∀ j, (i ≤ j < k)%nat →
            ∃ r', analyses_get (vt E) id j = Ok r' ∧ still_pending r' = true)
    ∧ (∃ rep, analyses_get (vt E) id k = Ok rep
              ∧ analysis_status_code rep = 200
              ∧ analysis_status rep = Some "completed"
              ∧ analysis_stats rep = Some st)
    ∧ (r.1 = false →
       (0 < stats_get st "malicious"
        ∧ r = (false, "THREAT DETECTED: " +:+ pretty (stats_get st "malicious")
                      +:+ " engines flagged as malicious"))
       ∨ (stats_get st "malicious" ≤ 0 ∧ 3 < stats_get st "suspicious"
          ∧ r = (false, "SUSPICIOUS: " +:+ pretty (stats_get st "suspicious")
                        +:+ " engines flagged as suspicious"))).
Proof.
  induction n as [|n IH]; intros i w r w'; [done|].
  rewrite poll_S. py_unfold.
  destruct (analyses_get (vt E) id i) as [rep|e] eqn:Hrep; simpl; [|done].
  assert (still_pending rep = true →
          poll E id (S i) n w = (Return r, w') →
          ∃ k st,
            (i ≤ k < i + S n)%nat
            ∧ (∀ j, (i ≤ j < k)%nat →
                 ∃ r', analyses_get (vt E) id j = Ok r'
                       ∧ still_pending r' = true)
            ∧ (∃ rep0, analyses_get (vt E) id k = Ok rep0
                 ∧ analysis_status_code rep0 = 200
                 ∧ analysis_status rep0 = Some "completed"
                 ∧ analysis_stats rep0 = Some st)
            ∧ (r.1 = false →
               (0 < stats_get st "malicious"
                ∧ r = (false,
                       "THREAT DETECTED: "
                       +:+ pretty (stats_get st "malicious")
                       +:+ " engines flagged as malicious"))
               ∨ (stats_get st "malicious" ≤ 0
                  ∧ 3 < stats_get st "suspicious"
                  ∧ r = (false,
                         "SUSPICIOUS: "
                         +:+ pretty (stats_get st "suspicious")
                         +:+ " engines flagged as suspicious"))))
    as Hnext.
  { intros Hpend Hp.
    destruct (IH _ _ _ _ Hp) as (k & st & Hk & Hj & Hc & Hr).
    exists k, st. split; [lia|]. split; [|done].
    intros j Hjk. destruct (decide (j = i)) as [->|]; [by exists rep|].
    apply Hj. lia. }
  destruct (analysis_status_code rep =? 200) eqn:Hcode; simpl.
  2: { apply Hnext. unfold still_pending. by rewrite Hcode. }
  destruct (analysis_status rep) as [s|] eqn:Hs; simpl; [|done].
  destruct (String.eqb s "completed") eqn:Hcomp; simpl.
  2: { apply Hnext. unfold still_pending. rewrite Hs, Hcomp.
       by rewrite orb_true_r. }
  apply String.eqb_eq in Hcomp as ->. apply Z.eqb_eq in Hcode.
  destruct (analysis_stats rep) as [st|] eqn:Hst; simpl; [|done].
  clear Hnext.
  destruct (0 <? stats_get st "malicious") eqn:Hm; simpl;
    [|destruct (3 <? stats_get st "suspicious") eqn:Hsu; simpl];
    intros [= <- <-]; exists i, st;
    (split; [lia|]); (split; [intros j ?; lia|]);
    (split; [by exists rep|]); simpl; intros Hfalse; try done.
  - left. split; [lia|done].
  - right. split; [lia|]. split; [lia|done].
Qed.

(** X4.  Whatever the service does, the client returns a result and leaves
    the world as it is; and it reports a file as not clean only when a
    credential is configured, the file is there, and the service reported
    statistics for it with a malicious engine, or with more than three
    suspicious ones. *)
Theorem scan_flags_only_reported R filepath job_id w :
  ∃ r,
    @scan_with_virustotal E R filepath job_id w = (Normal r, w)
    ∧ (r.1 = false →
       ∃ b st,
         App.fs w !! filepath = Some b
         ∧ Str.is_empty (VIRUSTOTAL_API_KEY E) = false
         ∧ reported E b st
         ∧ ((0 < stats_get st "malicious"
             ∧ r = (false,
                    "THREAT DETECTED: " +:+ pretty (stats_get st "malicious")
                    +:+ " engines flagged as malicious"))
            ∨ (stats_get st "malicious" ≤ 0 ∧ 3 < stats_get st "suspicious"
               ∧ r = (false,
                      "SUSPICIOUS: " +:+ pretty (stats_get st "suspicious")
                      +:+ " engines flagged as suspicious")))).
Proof.
  unfold scan_with_virustotal. py_unfold.
  destruct (Str.is_empty (VIRUSTOTAL_API_KEY E)) eqn:Hk; simpl;
    [by eexists|].
  destruct (App.fs w !! filepath) as [b|] eqn:Hf; simpl; [|by eexists].
  destruct (files_get (vt E) (blob_sha256 b)) as [rep|e] eqn:Hget; simpl;
    [|by eexists].
  destruct (files_status_code rep =? 200) eqn:H200.
  { destruct (last_analysis_stats rep) as [st|] eqn:Hst; simpl;
      [|by eexists].
    assert (reported E b st) as Hrep.
    { left. unfold lookup_stats. by rewrite Hget, H200. }
    destruct (0 <? stats_get st "malicious") eqn:Hm; simpl.
    { eexists. split; [done|]. intros _. exists b, st.
      split_and!; try done. left. split; [lia|done]. }
    destruct (3 <? stats_get st "suspicious") eqn:Hsu; simpl.
    { eexists. split; [done|]. intros _. exists b, st.
      split_and!; try done. right. split; [lia|]. split; [lia|done]. }
    by eexists. }
  destruct (files_status_code rep =? 404) eqn:H404; [|by eexists].
  rewrite Hf. simpl.
  destruct (files_post (vt E) b) as [u|] eqn:Hpost; simpl; [|by eexists].
  destruct ((upload_status_code u =? 200) || (upload_status_code u =? 201))
    eqn:Hcode; [|by eexists].
  destruct (upload_id u) as [id|] eqn:Hid; simpl; [|by eexists].
  assert (submitted E b = Some id) as Hsub.
  { unfold submitted. by rewrite Hget, H404, Hpost, Hcode. }
  destruct (poll_pure E id 12 0) as [c Hc]. rewrite Hc.
  destruct c as [[]|r|e]; simpl; [by eexists| |by eexists].
  exists r. split; [done|]. intros Hr.
  destruct (poll_returns id 12 0 w r w (Hc w))
    as (k & st & Hk12 & Hpend & (rp & Hrp & Hrc & Hrs & Hrst) & Hread).
  exists b, st. split_and!; try done; [|by apply Hread].
  right. exists id, k. split; [done|]. split; [lia|].
  unfold polled_stats. rewrite pending_before_intro.
  - rewrite Hrp, Hrc, Hrs. simpl. done.
  - intros j Hj. apply Hpend. lia.
Qed.

(** X5.  The remaining ways a scan ends undecided, each with [is_clean] set:
    a lookup answered with a status other than 200 and 404; an upload
    answered with a status other than 200 and 201; and twelve polls that all
    leave the analysis running. *)
Theorem scan_undecided R filepath job_id w b :
  Str.is_empty (VIRUSTOTAL_API_KEY E) = false →
  App.fs w !! filepath = Some b →
  (∀ rep,
     files_get (vt E) (blob_sha256 b) = Ok rep →
     files_status_code rep ≠ 200 → files_status_code rep ≠ 404 →
     @scan_with_virustotal E R filepath job_id w
     = (Normal (true, "API error - proceeding"), w))
  ∧ (∀ rep u,
       files_get (vt E) (blob_sha256 b) = Ok rep →
       files_status_code rep = 404 →
       files_post (vt E) b = Ok u →
       upload_status_code u ≠ 200 → upload_status_code u ≠ 201 →
       @scan_with_virustotal E R filepath job_id w
       = (Normal (true, "Upload failed - proceeding"), w))
  ∧ (∀ id,
       submitted E b = Some id →
       pending_before E id 12 = true →
       @scan_with_virustotal E R filepath job_id w
       = (Normal (true, "Analysis timeout - proceeding"), w)).
Proof.
  intros Hk Hf. unfold scan_with_virustotal. py_unfold. rewrite Hk. simpl.
  rewrite Hf. simpl. split_and!.
  - intros rep -> H200 H404. simpl.
    apply Z.eqb_neq in H200, H404. by rewrite H200, H404.
  - intros rep u -> H404 Hpost H200 H201. simpl. rewrite H404. simpl.
    rewrite Hf. simpl. rewrite Hpost. simpl.
    apply Z.eqb_neq in H200, H201. by rewrite H200, H201.
  - intros id Hsub Hpend. unfold submitted in Hsub.
    destruct (files_get (vt E) (blob_sha256 b)) as [rep|]; [|done]. simpl.
    destruct (files_status_code rep =? 404) eqn:H404; [|done].
    apply Z.eqb_eq in H404. rewrite H404. simpl. rewrite Hf. simpl.
    destruct (files_post (vt E) b) as [u|]; [|done]. simpl.
    destruct ((upload_status_code u =? 200) || (upload_status_code u =? 201));
      [|done].
    rewrite Hsub. simpl.
    rewrite poll_pending; [done|].
    intros j Hj. apply (pending_before_lt E id 12); [done|lia].
Qed.

End Reports.

(** The three undecided endings on a service that answers 503, one that
    refuses uploads, and one that never finishes an analysis. *)
Lemma scan_undecided_witness :
  @scan_with_virustotal
    (environment "key" (MoreExamples.answering 503) (daemon None 0)) unit
    "/app/uploads/a.pdf" "job"
    {| App.fs := {[ "/app/uploads/a.pdf" := sanitized "x" ]}; trace := [] |}
  = (Normal (true, "API error - proceeding"),
     {| App.fs := {[ "/app/uploads/a.pdf" := sanitized "x" ]}; trace := [] |})
  ∧ @scan_with_virustotal
      (environment "key" MoreExamples.refusing_uploads (daemon None 0)) unit
      "/app/uploads/a.pdf" "job"
      {| App.fs := {[ "/app/uploads/a.pdf" := sanitized "x" ]}; trace := [] |}
    = (Normal (true, "Upload failed - proceeding"),
       {| App.fs := {[ "/app/uploads/a.pdf" := sanitized "x" ]};
          trace := [] |})
  ∧ @scan_with_virustotal
      (environment "key" MoreExamples.never_finishing (daemon None 0)) unit
      "/app/uploads/a.pdf" "job"
      {| App.fs := {[ "/app/uploads/a.pdf" := sanitized "x" ]}; trace := [] |}
    = (Normal (true, "Analysis timeout - proceeding"),
       {| App.fs := {[ "/app/uploads/a.pdf" := sanitized "x" ]};
          trace := [] |}).
Proof.
  split_and!.
  - refine (proj1 (scan_undecided
              (environment "key" (MoreExamples.answering 503) (daemon None 0))
              unit "/app/uploads/a.pdf" "job"
              {| App.fs := {[ "/app/uploads/a.pdf" := sanitized "x" ]};
                 trace := [] |}
              (sanitized "x") _ _)
              {| files_status_code := 503; last_analysis_stats := None |}
              _ _ _); try reflexivity; vm_compute; discriminate.
  - refine (proj1 (proj2 (scan_undecided
              (environment "key" MoreExamples.refusing_uploads (daemon None 0))
              unit "/app/uploads/a.pdf" "job"
              {| App.fs := {[ "/app/uploads/a.pdf" := sanitized "x" ]};
                 trace := [] |}
              (sanitized "x") _ _))
              {| files_status_code := 404; last_analysis_stats := None |}
              {| upload_status_code := 413; upload_id := None |}
              _ _ _ _ _); try reflexivity; vm_compute; discriminate.
  - refine (proj2 (proj2 (scan_undecided
              (environment "key" MoreExamples.never_finishing (daemon None 0))
              unit "/app/uploads/a.pdf" "job"
              {| App.fs := {[ "/app/uploads/a.pdf" := sanitized "x" ]};
                 trace := [] |}
              (sanitized "x") _ _))
              "analysis-2" _ _); reflexivity.
Defined.

(** *** When the supervisor reports success *)

Section Success.
Variable E : App.env.

Ltac keep_scan H :=
  match type of H with
  | context [@scan_with_virustotal E ?R ?p ?j ?w] =>
      let r := fresh "r" in
      let Hr := fresh "Hscan" in
      destruct (scan_total E R p j w) as [r Hr]; rewrite Hr in H
  end.

Ltac split_scrutinee H :=
  match type of H with
  | context [match ?x with _ => _ end] =>
      lazymatch x with
      | context [match _ with _ => _ end] => fail
      | _ => destruct x eqn:?
      end
  | context [if ?x then _ else _] =>
      lazymatch x with
      | context [match _ with _ => _ end] => fail
      | _ => destruct x eqn:?
      end
  end.

(** What a run of the supervisor that returned [True] went through. *)
Lemma sanitize_true_inv R input output job_id w w' :
  @sanitize_in_container E R input output job_id w = (Normal true, w') →
  ∃ c b,
    connect (dk E) = Ok tt
    ∧ containers_run (dk E) = Ok c
    ∧ container_wait (dk E) = Ok 0
    ∧ is_ok (container_logs (dk E)) = true
    ∧ is_ok (container_remove (dk E) (removals (trace w))) = true
    ∧ App.fs w' !! output = Some b
    ∧ blob_size b ≠ 0%N
    ∧ (verdict_on E b).1 = true
    ∧ trace w'
      = trace w ++ build_log E
        ++ [EvRun c; EvWait c; EvLogs c; EvRemove c; EvRemove c].
Proof.
  destruct w as [fs0 t0]. intros Hs.
  unfold sanitize_in_container, client_containers_run, container_remove_force
    in Hs.
  py_unfold.
  repeat (first [keep_scan Hs | split_scrutinee Hs]; simpl in * ).
  all: try discriminate.
  all: injection Hs as <-.
  all: repeat match goal with
         | H : container_remove (dk E) (removals _) = _ |- _ =>
             rewrite !removals_app in H; simpl in H;
             rewrite ?Nat.add_0_r in H
         end.
  all: match goal with
       | Hsc : scan_with_virustotal E ?o ?j ?w0 = _,
         Hlk : _ = Some ?b |- _ =>
           rewrite (scan_verdict_on E _ o j w0 b Hlk) in Hsc;
           injection Hsc as <-
       end.
  all: match goal with
       | Hrun : containers_create (dk E) = Ok ?c,
         Hv : negb (verdict_on E ?b).1 = false |- _ => exists c, b
       end.
  all: split_and!; simpl.
  all: try match goal with
           | Hc : containers_create (dk E) = Ok ?c,
             Hst : container_start (dk E) = Ok _
             |- containers_run (dk E) = Ok ?c =>
               unfold containers_run; by rewrite Hc, Hst
           | |- Ok ?a = Ok () => by destruct a
           | H : (?a =? 0) = true |- Ok ?a = Ok 0 =>
               by apply Z.eqb_eq in H as ->
           | H : container_remove (dk E) ?k = Ok _
             |- is_ok (container_remove (dk E) ?k) = true => by rewrite H
           | H : (blob_size ?b =? 0)%N = false |- blob_size ?b ≠ 0%N =>
               by apply N.eqb_neq
           | H : negb ?x = false |- ?x = true => by apply negb_false_iff
           | H : images_get (dk E) = _ |- _ = _ ++ build_log E ++ _ =>
               unfold build_log; rewrite H; simpl;
               by rewrite <- !app_assoc
           end.
  all: done.
Qed.

(** X6.  The supervisor returns [True] only after all of this: the daemon
    answered, the instance [c] was created, the wait returned status 0, the
    logs were captured and the first destruction call succeeded; the output
    file is there, is not empty, and its scan passed.  The output file is
    then still in place, the instance has had its two destruction calls,
    and every staged file other than the output, the upload included, is
    as it was. *)
Theorem sanitize_true_only_if R input output job_id w w' :
  @sanitize_in_container E R input output job_id w = (Normal true, w') →
  ∃ c b,
    connect (dk E) = Ok tt
    ∧ containers_run (dk E) = Ok c
    ∧ container_wait (dk E) = Ok 0
    ∧ is_ok (container_logs (dk E)) = true
    ∧ is_ok (container_remove (dk E) (removals (trace w))) = true
    ∧ App.fs w' !! output = Some b
    ∧ blob_size b ≠ 0%N
    ∧ (verdict_on E b).1 = true
    ∧ trace w'
      = trace w ++ build_log E
        ++ [EvRun c; EvWait c; EvLogs c; EvRemove c; EvRemove c]
    ∧ ∀ p, p ≠ output → App.fs w' !! p = App.fs w !! p.
Proof.
  intros Hs.
  destruct (sanitize_true_inv R input output job_id w w' Hs)
    as (c & b & Hconn & Hrun & Hwait & Hlogs & Hrm & Hout & Hsz & Hv & Htr).
  exists c, b. split_and!; try done.
  intros p Hp.
  destruct (sanitize_paths E R input output job_id w)
    as (ok & fs' & t & Hs' & _ & Hfr).
  rewrite Hs in Hs'. injection Hs' as _ ->. simpl. by apply Hfr.
Qed.


(** X7.  What the supervisor leaves in the staging areas, on every path
    (it always returns a flag).  When the worker did not run (no daemon,
    no image, a failed launch) the files are as they were.  When it ran,
    what it wrote is at the output path and stays there on every failure
    (timeout or error of the wait, non-zero exit, error of the log capture
    or of the destruction call, empty output), with one exception: the
    output is deleted again exactly when the supervisor reaches the
    post-scan and the post-scan does not pass, and then the flag is
    [False]. *)
Theorem output_deleted_only_on_failed_scan R input output job_id w :
  ∃ ok w',
    @sanitize_in_container E R input output job_id w = (Normal ok, w')
    ∧ App.fs w'
      = Staging.staged_after E (removals (trace w)) output (App.fs w)
    ∧ (Staging.post_scan_rejects E (removals (trace w)) output (App.fs w)
       = true → ok = false).
Proof.
  destruct w as [fs0 t0].
  destruct (sanitize_in_container E input output job_id
              {| App.fs := fs0; trace := t0 |}) as [c w'] eqn:Hs.
  unfold sanitize_in_container, client_containers_run, container_remove_force
    in Hs.
  py_unfold.
  repeat (first [keep_scan Hs | split_scrutinee Hs]; simpl in * ).
  all: injection Hs as <- <-.
  all: eexists _, _; split; [reflexivity|]; simpl.
  all: repeat match goal with
         | H : container_remove (dk E) (removals _) = _ |- _ =>
             rewrite !removals_app in H; simpl in H;
             rewrite ?Nat.add_0_r in H
         end.
  all: try match goal with
       | Hsc : scan_with_virustotal E ?o ?j ?w0 = _,
         Hlk : _ = Some ?b |- _ =>
           rewrite (scan_verdict_on E _ o j w0 b Hlk) in Hsc;
           injection Hsc as <-
       end.
  all: unfold Staging.staged_after, Staging.post_scan_rejects,
         Staging.launched, Staging.worker_wrote, image_ready, containers_run.
  all: rewrite ?lookup_insert_eq in *; simpl in *.
  all: try discriminate.
  all: repeat match goal with
         | H : (?a =? 0) = true |- _ => apply Z.eqb_eq in H; subst a
         | H : (?a =? 0) = false |- _ => apply Z.eqb_neq in H
         | H : Some _ = Some _ |- _ => injection H as ->
         | H : ?x = _ |- context [?x] => rewrite H; simpl
         | |- context [<[_:=_]> _ !! _] => rewrite lookup_insert_eq; simpl
         end.
  all: rewrite ?andb_false_r; simpl.
  all: try done.
  all: try match goal with
           | H : ?a ≠ 0 |- context [match ?a with _ => _ end] =>
               destruct a; try done
           end.
  all: match goal with
       | |- context [@lookup _ _ (gmap string blob) _ ?o ?m] =>
           destruct (m !! o) eqn:?; simpl in *; try done
       | H : context [@lookup _ _ (gmap string blob) _ ?o ?m] |- _ =>
           destruct (m !! o) eqn:?; simpl in *; try done
       end.
Qed.

End Success.

(** The theorem on a job whose worker and post-scan succeed. *)
Lemma sanitize_true_only_if_witness :
  ∃ c b,
    connect (daemon (Some (sanitized "clean")) 0) = Ok tt
    ∧ containers_run (daemon (Some (sanitized "clean")) 0) = Ok c
    ∧ container_wait (daemon (Some (sanitized "clean")) 0) = Ok 0
    ∧ is_ok (container_logs (daemon (Some (sanitized "clean")) 0)) = true
    ∧ is_ok (container_remove (daemon (Some (sanitized "clean")) 0)
               (removals (trace empty_world))) = true
    ∧ App.fs
        (@sanitize_in_container
           (environment "key" service (daemon (Some (sanitized "clean")) 0))
           unit "/app/uploads/1b4e28ba_report.pdf"
           "/app/output/1b4e28ba_sanitized.pdf" "1b4e28ba" empty_world).2
      !! "/app/output/1b4e28ba_sanitized.pdf" = Some b
    ∧ blob_size b ≠ 0%N
    ∧ (verdict_on
         (environment "key" service (daemon (Some (sanitized "clean")) 0))
         b).1 = true
    ∧ trace
        (@sanitize_in_container
           (environment "key" service (daemon (Some (sanitized "clean")) 0))
           unit "/app/uploads/1b4e28ba_report.pdf"
           "/app/output/1b4e28ba_sanitized.pdf" "1b4e28ba" empty_world).2
      = trace empty_world
        ++ build_log
             (environment "key" service (daemon (Some (sanitized "clean")) 0))
        ++ [EvRun c; EvWait c; EvLogs c; EvRemove c; EvRemove c]
    ∧ ∀ p, p ≠ "/app/output/1b4e28ba_sanitized.pdf" →
           App.fs
             (@sanitize_in_container
                (environment "key" service
                   (daemon (Some (sanitized "clean")) 0))
                unit "/app/uploads/1b4e28ba_report.pdf"
                "/app/output/1b4e28ba_sanitized.pdf" "1b4e28ba"
                empty_world).2 !! p
           = App.fs empty_world !! p.
Proof.
  refine (sanitize_true_only_if
            (environment "key" service (daemon (Some (sanitized "clean")) 0))
            unit "/app/uploads/1b4e28ba_report.pdf"
            "/app/output/1b4e28ba_sanitized.pdf" "1b4e28ba" empty_world _ _).
  vm_compute. reflexivity.
Defined.

(** *** When the controller delivers *)

Section Delivery.
Variable E : App.env.

(** X8.  The controller sends a file only at the end of a whole job: the
    upload passed validation and is still staged, the sandbox ran, the file
    sent is the job's output, which is in place, not empty, and passed its
    post-scan; the answer is 200 with the cleanup callback registered, and
    it carries the two threat headers exactly when the pre-scan of the
    upload did not pass (a suspicious upload included). *)
Theorem delivery_only_if R req w resp w' path name :
  @upload_file E R req w = (Normal resp, w') →
  payload resp = SendFile path name →
  ∃ u c b,
    staged_upload E req = Some u
    ∧ path = output_path E
    ∧ status resp = 200
    ∧ EvRun c ∈ trace w'
    ∧ App.fs w' !! path = Some b
    ∧ blob_size b ≠ 0%N
    ∧ (verdict_on E b).1 = true
    ∧ App.fs w' !! input_path E u = Some (content u)
    ∧ on_close resp = [cleanup (input_path E u) (output_path E)]
    ∧ headers resp
      = if (verdict_on E (content u)).1 then []
        else [("X-Threat-Warning",
               "Original file contained malware - now sanitized");
              ("X-Threat-Details", (verdict_on E (content u)).2)].
Proof.
  intros Hup Hpay.
  destruct (staged_upload E req) as [u|] eqn:Hst.
  2: { destruct (upload_file_not_staged E R req w Hst)
         as (resp' & w1 & Hup' & _ & Hp' & _).
       rewrite Hup in Hup'. injection Hup' as <- _.
       destruct Hp' as [Hp'|[m Hp']]; by rewrite Hpay in Hp'. }
  destruct (sanitize_paths E response (input_path E u) (output_path E)
              (uuid4 E) (staged_world E u w))
    as (ok & fs' & t & Hs & _ & Hfr).
  rewrite (upload_file_staged E R req w u ok _ Hst Hs) in Hup. simpl in Hup.
  destruct (ok && bool_decide (is_Some (fs' !! output_path E))) eqn:Hd.
  2: { injection Hup as <- _. done. }
  apply andb_prop in Hd as [-> _]. injection Hup as <- <-.
  destruct (sanitize_true_inv E _ _ _ _ _ _ Hs)
    as (c & b & _ & _ & _ & _ & _ & Hout & Hsz & Hv & Htr).
  simpl in *. injection Hpay as <- <-.
  exists u, c, b. split_and!; try done.
  - rewrite Htr, !elem_of_app. right. right. apply list_elem_of_here.
  - rewrite Hfr by apply paths_differ. apply lookup_insert_eq.
Qed.

End Delivery.

(** The theorem on a suspicious upload that is sanitized and sent. *)
Lemma delivery_only_if_witness :
  ∃ u c b,
    staged_upload
      (environment "key" service (daemon (Some (sanitized "clean")) 0))
      (post (document "report.pdf" 2048 "odd")) = Some u
    ∧ "/app/output/1b4e28ba_sanitized.pdf"
      = output_path
          (environment "key" service (daemon (Some (sanitized "clean")) 0))
    ∧ status
        (delivery
           (environment "key" service (daemon (Some (sanitized "clean")) 0))
           (document "report.pdf" 2048 "odd")) = 200
    ∧ EvRun c
      ∈ trace
          (delivered_world
             (environment "key" service (daemon (Some (sanitized "clean")) 0))
             (document "report.pdf" 2048 "odd") "c0ffee" (sanitized "clean")
             empty_world)
    ∧ App.fs
        (delivered_world
           (environment "key" service (daemon (Some (sanitized "clean")) 0))
           (document "report.pdf" 2048 "odd") "c0ffee" (sanitized "clean")
           empty_world)
      !! "/app/output/1b4e28ba_sanitized.pdf" = Some b
    ∧ blob_size b ≠ 0%N
    ∧ (verdict_on
         (environment "key" service (daemon (Some (sanitized "clean")) 0))
         b).1 = true
    ∧ App.fs
        (delivered_world
           (environment "key" service (daemon (Some (sanitized "clean")) 0))
           (document "report.pdf" 2048 "odd") "c0ffee" (sanitized "clean")
           empty_world)
      !! input_path
           (environment "key" service (daemon (Some (sanitized "clean")) 0))
           u
      = Some (content u)
    ∧ on_close
        (delivery
           (environment "key" service (daemon (Some (sanitized "clean")) 0))
           (document "report.pdf" 2048 "odd"))
      = [cleanup
           (input_path
              (environment "key" service
                 (daemon (Some (sanitized "clean")) 0)) u)
           (output_path
              (environment "key" service
                 (daemon (Some (sanitized "clean")) 0)))]
    ∧ headers
        (delivery
           (environment "key" service (daemon (Some (sanitized "clean")) 0))
           (document "report.pdf" 2048 "odd"))
      = if (verdict_on
              (environment "key" service
                 (daemon (Some (sanitized "clean")) 0)) (content u)).1
        then []
        else [("X-Threat-Warning",
               "Original file contained malware - now sanitized");
              ("X-Threat-Details",
               (verdict_on
                  (environment "key" service
                     (daemon (Some (sanitized "clean")) 0)) (content u)).2)].
Proof.
  refine (delivery_only_if
            (environment "key" service (daemon (Some (sanitized "clean")) 0))
            unit (post (document "report.pdf" 2048 "odd")) empty_world
            (delivery
               (environment "key" service
                  (daemon (Some (sanitized "clean")) 0))
               (document "report.pdf" 2048 "odd"))
            (delivered_world
               (environment "key" service
                  (daemon (Some (sanitized "clean")) 0))
               (document "report.pdf" 2048 "odd") "c0ffee"
               (sanitized "clean") empty_world)
            "/app/output/1b4e28ba_sanitized.pdf" "sanitized_report.pdf" _ _).
  - vm_compute. reflexivity.
  - reflexivity.
Defined.

(** ** The failsafe sweeper *)

Section Orphans.
Import Sweeper.

Variable float_sub : Q → Q → Q.

Arguments sweep_entry : simpl never.
Arguments sweep_folder : simpl never.

Lemma sweep_entry_spec {R} (t : Q) folder cleaned name (d : gmap string (gmap string entry)) dir :
  d !! folder = Some dir →
  ∃ dir',
    sweep_entry (R := R) float_sub t folder cleaned name d
    = (Normal (if removes float_sub t (dir !! name) then S cleaned else cleaned),
       <[folder := dir']> d)
    ∧ dir' !! name = kept float_sub t (dir !! name)
    ∧ ∀ k, k ≠ name → dir' !! k = dir !! k.
Proof.
  intros Hd. unfold sweep_entry, os_path_getmtime, os_remove, kept.
  py_unfold. rewrite Hd. simpl.
  destruct (dir !! name) as [e|] eqn:He; simpl.
  - unfold expired.
    destruct (Qle_bool (float_sub t (mtime e)) 3600) eqn:Hage; simpl.
    + exists dir. rewrite andb_false_r, insert_id by done. by rewrite He.
    + rewrite Hd. simpl. rewrite He. simpl.
      destruct (is_dir e) eqn:Hdir; simpl.
      * exists dir. rewrite insert_id by done. by rewrite He.
      * exists (delete name dir).
        split; [done|]. split; [by rewrite lookup_delete_eq|].
        intros k Hk. by rewrite lookup_delete_ne.
  - exists dir. rewrite insert_id by done. by rewrite He.
Qed.

Lemma for_in_entries {R} (t : Q) folder :
  ∀ names cleaned (d : gmap string (gmap string entry)) dir,
    d !! folder = Some dir → NoDup names →
    ∃ dir',
      for_in (R := R) names (sweep_entry float_sub t folder) cleaned d
      = (Normal (cleaned + length (List.filter
                   (λ n, removes float_sub t (dir !! n))
                   names))%nat,
         <[folder := dir']> d)
      ∧ (∀ k, k ∈ names → dir' !! k = kept float_sub t (dir !! k))
      ∧ (∀ k, k ∉ names → dir' !! k = dir !! k).
Proof.
  induction names as [|n names IH]; intros cleaned d dir Hd Hnd.
  - exists dir. simpl. rewrite Nat.add_0_r, insert_id by done.
    split; [done|]. split; [|done]. intros k Hk. by apply elem_of_nil in Hk.
  - apply NoDup_cons in Hnd as [Hn Hnd]. simpl.
    destruct (sweep_entry_spec (R := R) t folder cleaned n d dir Hd)
      as (dir1 & Hstep & Hn1 & Hother).
    unfold bind at 1. rewrite Hstep.
    destruct (IH (if removes float_sub t (dir !! n) then S cleaned else cleaned)
                 (<[folder := dir1]> d) dir1) as (dir2 & Hrest & Hin & Hout);
      [by rewrite lookup_insert_eq | done |].
    exists dir2. rewrite Hrest, insert_insert_eq.
    assert (Hsame : List.filter
              (λ n0, removes float_sub t (dir1 !! n0)) names
            = List.filter
              (λ n0, removes float_sub t (dir !! n0)) names).
    { apply List.filter_ext_in. intros k Hk. apply list_elem_of_In in Hk.
      rewrite Hother; [done|]. by intros ->. }
    rewrite Hsame. split.
    + f_equal. f_equal.
      destruct (removes float_sub t (dir !! n)); simpl; lia.
    + split.
      * intros k Hk. apply elem_of_cons in Hk as [-> | Hk].
        -- by rewrite Hout, Hn1.
        -- rewrite Hin by done. rewrite Hother; [done|]. by intros ->.
      * intros k Hk. apply not_elem_of_cons in Hk as [Hkn Hk].
        rewrite Hout by done. by apply Hother.
Qed.

Lemma expired_count (t : Q) (dir : gmap string entry) (l : list (string * entry)) :
  (∀ k e, (k, e) ∈ l → dir !! k = Some e) →
  length (List.filter
            (λ n, removes float_sub t (dir !! n)) (l.*1))
  = length (List.filter (λ kv, expired float_sub t kv.2) l).
Proof.
  induction l as [|[k e] l IH]; intros Hl; [done|].
  assert (Hrest : ∀ k0 e0, (k0, e0) ∈ l → dir !! k0 = Some e0).
  { intros k0 e0 H0. apply Hl. apply elem_of_cons. by right. }
  specialize (IH Hrest).
  rewrite fmap_cons. cbn [List.filter fst snd].
  rewrite (Hl k e) by (apply elem_of_cons; by left).
  unfold removes at 1.
  destruct (expired float_sub t e); cbn [length]; by rewrite IH.
Qed.

Lemma sweep_folder_spec {R} (t : Q) folder cleaned (d : gmap string (gmap string entry)) :
  ∃ d',
    sweep_folder (R := R) float_sub t cleaned folder d
    = (Normal (cleaned + expired_in float_sub t d folder)%nat, d')
    ∧ (∀ name, entry_at d' folder name = kept float_sub t (entry_at d folder name))
    ∧ (∀ other, other ≠ folder → d' !! other = d !! other)
    ∧ (is_Some (d' !! folder) ↔ is_Some (d !! folder)).
Proof.
  unfold sweep_folder, os_path_exists, os_listdir, expired_in, entry_at.
  py_unfold.
  destruct (d !! folder) as [dir|] eqn:Hd; simpl.
  - try rewrite bool_decide_eq_true_2 by done. simpl. rewrite ?Hd. simpl.
    destruct (for_in_entries (R := R) t folder ((map_to_list dir).*1)
                cleaned d dir Hd) as (dir' & Hrun & Hin & Hout).
    { apply NoDup_fst_map_to_list. }
    exists (<[folder := dir']> d). rewrite Hrun, expired_count.
    2:{ intros k e Hk. by apply elem_of_map_to_list in Hk. }
    split; [done|]. rewrite lookup_insert_eq. split_and!.
    + intros name. destruct (dir !! name) as [e|] eqn:He.
      * rewrite Hin, He; [done|]. apply list_elem_of_fmap.
        exists (name, e). split; [done|]. by apply elem_of_map_to_list.
      * rewrite Hout, He; [done|]. intros Hk.
        apply list_elem_of_fmap in Hk as ([k e] & -> & Hk).
        apply elem_of_map_to_list in Hk. simpl in He. congruence.
    + intros other Ho. by rewrite lookup_insert_ne.
    + done.
  - try rewrite bool_decide_eq_false_2 by (by intros [? ?]). simpl.
    exists d. rewrite ?Hd, Nat.add_0_r. split_and!; try done.
Qed.

(** X9.  [cleanup_orphaned_files] never raises.  In each of the two
    staging folders it removes exactly the regular files whose age is
    more than 3600 seconds, the age being the difference the floats give
    between the current time and the modification time (whatever the
    rounding of that subtraction), and keeps every other entry as it
    was: a file whose computed age is 3600 or less, a directory of any
    age.  It returns the number of files it removed, creates no folder,
    and touches no other folder. *)
Theorem orphan_sweep (t : Q) (d : gmap string (gmap string entry)) :
  ∃ d',
    run_def (cleanup_orphaned_files float_sub t) d
    = (Ok (expired_in float_sub t d App.UPLOAD_FOLDER
           + expired_in float_sub t d App.OUTPUT_FOLDER)%nat, d')
    ∧ (∀ folder name,
         folder = App.UPLOAD_FOLDER ∨ folder = App.OUTPUT_FOLDER →
         entry_at d' folder name = kept float_sub t (entry_at d folder name))
    ∧ (∀ folder,
         folder ≠ App.UPLOAD_FOLDER → folder ≠ App.OUTPUT_FOLDER →
         d' !! folder = d !! folder)
    ∧ (∀ folder, is_Some (d' !! folder) ↔ is_Some (d !! folder)).
Proof.
  destruct (sweep_folder_spec (R := nat) t App.UPLOAD_FOLDER 0 d)
    as (d1 & H1 & Hin1 & Hout1 & Hex1).
  destruct (sweep_folder_spec (R := nat) t App.OUTPUT_FOLDER
              (0 + expired_in float_sub t d App.UPLOAD_FOLDER) d1)
    as (d2 & H2 & Hin2 & Hout2 & Hex2).
  assert (Hne : App.UPLOAD_FOLDER ≠ App.OUTPUT_FOLDER) by done.
  assert (Hcount : expired_in float_sub t d1 App.OUTPUT_FOLDER
                   = expired_in float_sub t d App.OUTPUT_FOLDER).
  { unfold expired_in. by rewrite Hout1. }
  exists d2. unfold cleanup_orphaned_files, run_def, def. cbn [for_in].
  unfold bind, ret, return_. rewrite H1. cbn iota. rewrite H2, Hcount.
  cbn iota. split; [done|]. split_and!.
  - intros folder name [-> | ->].
    + transitivity (entry_at d1 App.UPLOAD_FOLDER name); [|apply Hin1].
      unfold entry_at. by rewrite Hout2.
    + rewrite Hin2. unfold entry_at. by rewrite Hout1.
  - intros folder Hu Ho. by rewrite Hout2, Hout1.
  - intros folder. destruct (decide (folder = App.OUTPUT_FOLDER)) as [-> | Ho].
    + rewrite Hex2. by rewrite Hout1.
    + rewrite Hout2 by done.
      destruct (decide (folder = App.UPLOAD_FOLDER)) as [-> | Hu]; [done|].
      by rewrite Hout1.
Qed.

End Orphans.

(** ** The output validator and the re-emission on any images *)

Section Validator.
Variable E : Worker.env.

(** A file whose trailer refers to the catalog, as the trailer of a PDF
    does, is rejected: the first test on the trailer raises. *)
Lemma validate_output_rejects R output_path (fs : gmap string file) f :
  fs !! output_path = Some f →
  trailer_holds_catalog E f = false →
  @validate_output E R output_path fs = (Normal false, fs).
Proof.
  intros Hf Ht. unfold validate_output, in_trailer_Root. wk_unfold.
  repeat (progress (rewrite ?Hf, ?Ht; simpl)).
  destruct (is_empty_file f); simpl; [done|].
  destruct (parse_pdf f); simpl; [|done].
  by rewrite ?Ht.
Qed.

(** A non-empty PDF that holds its catalog in the trailer, without
    [/Names], is accepted. *)
Lemma validate_output_accepts R output_path (fs : gmap string file) f d :
  fs !! output_path = Some f →
  is_empty_file f = false →
  parse_pdf f = Ok d →
  trailer_holds_catalog E f = true →
  root d !! "/Names" = None →
  @validate_output E R output_path fs = (Normal true, fs).
Proof.
  intros Hf He Hp Ht Hn. unfold validate_output, in_trailer_Root, in_Names.
  wk_unfold.
  repeat (progress (rewrite ?Hf, ?He, ?Hp, ?Ht, ?Hn; simpl)). done.
Qed.

(** The validator ends with a verdict, having changed nothing; it
    accepts only a file that holds its catalog in the trailer. *)
Lemma validate_output_pure R output_path (fs : gmap string file) :
  ∃ ok, @validate_output E R output_path fs = (Normal ok, fs)
        ∧ (ok = true →
           ∃ f, fs !! output_path = Some f
                ∧ trailer_holds_catalog E f = true).
Proof.
  unfold validate_output, in_trailer_Root, in_Names. wk_unfold.
  destruct (fs !! output_path) as [f|] eqn:Hf; simpl; [|by eexists].
  rewrite ?Hf; simpl.
  destruct (is_empty_file f); simpl; [by eexists|].
  destruct (parse_pdf f) as [d|e]; simpl; [|by eexists].
  destruct (trailer_holds_catalog E f) eqn:Ht; simpl; [|by eexists].
  destruct (root d !! "/Names") as [names|]; simpl; [|by eauto].
  destruct (py_contains "/JavaScript" names) as [[|]|e1]; simpl;
    try by eexists.
  destruct (py_contains "/EmbeddedFiles" names) as [[|]|e2]; simpl;
    try by eexists.
  eauto.
Qed.

(** X10.  [validate_output] never raises and changes no file.  When it
    returns [True], its argument is an existing file that is not empty,
    parses as a PDF, holds its catalog in the trailer itself, and has
    neither [/Names/JavaScript] nor [/Names/EmbeddedFiles] in that
    catalog.  A file whose trailer refers to the catalog by a reference
    is rejected, whatever it holds: the test [in] on the unresolved
    reference raises and the handler returns [False].  Of a file that
    holds its catalog in the trailer the validator looks at nothing but
    [/Names]: it accepts when the file is a non-empty PDF whose catalog
    has no [/Names]. *)
Theorem validate_output_sound R output_path (fs : gmap string file) :
  ∃ ok,
    @validate_output E R output_path fs = (Normal ok, fs)
    ∧ (ok = true →
       ∃ f d,
         fs !! output_path = Some f
         ∧ is_empty_file f = false
         ∧ parse_pdf f = Ok d
         ∧ trailer_holds_catalog E f = true
         ∧ ¬ names_entry (root d) "/JavaScript"
         ∧ ¬ names_entry (root d) "/EmbeddedFiles")
    ∧ (∀ f,
         fs !! output_path = Some f →
         trailer_holds_catalog E f = false →
         ok = false)
    ∧ (∀ f d,
         fs !! output_path = Some f →
         is_empty_file f = false →
         parse_pdf f = Ok d →
         trailer_holds_catalog E f = true →
         root d !! "/Names" = None →
         ok = true).
Proof.
  unfold validate_output, in_trailer_Root, in_Names. wk_unfold.
  destruct (fs !! output_path) as [f|] eqn:Hf; simpl.
  2: { exists false. by split_and!. }
  rewrite ?Hf; simpl.
  destruct (is_empty_file f) eqn:He; simpl.
  { exists false. split_and!; try done. intros f' d' [= <-]. congruence. }
  destruct (parse_pdf f) as [d|e] eqn:Hp; simpl.
  2: { exists false. split_and!; try done. intros f' d' [= <-]. congruence. }
  destruct (trailer_holds_catalog E f) eqn:Ht; simpl.
  2: { exists false. split_and!; try done. intros f' d' [= <-]. congruence. }
  destruct (root d !! "/Names") as [names|] eqn:Hn; simpl.
  2: { exists true. split_and!; try done.
       - intros _. exists f, d.
         unfold names_entry. rewrite Hn. split_and!; try done.
         + by intros (? & ? & _).
         + by intros (? & ? & _).
       - intros f' [= <-]. congruence. }
  destruct (py_contains "/JavaScript" names) as [[|]|e1] eqn:Hjs; simpl.
  1, 3: exists false; split_and!; try done;
        intros f' d' [= <-]; congruence.
  destruct (py_contains "/EmbeddedFiles" names) as [[|]|e2] eqn:Hef; simpl.
  1, 3: exists false; split_and!; try done;
        intros f' d' [= <-]; congruence.
  exists true. split_and!; try done.
  - intros _. exists f, d. unfold names_entry. rewrite Hn.
    split_and!; try done.
    + intros (dd & [= ->] & Hk). simpl in Hjs.
      by rewrite bool_decide_eq_true_2 in Hjs.
    + intros (dd & [= ->] & Hk). simpl in Hef.
      by rewrite bool_decide_eq_true_2 in Hef.
  - intros f' [= <-]. congruence.
Qed.

End Validator.

Section Reemission.
Variable E : Worker.env.

(** The loop on any images: it draws one page per image as long as no
    image has width zero, and raises at the first that does. *)
Lemma draw_pages_total R images : ∀ c (fs : gmap string file),
  current c = [] →
  if existsb (λ img, width img =? 0) images
  then ∃ e, @draw_pages E R c images fs = (Raise e, fs)
  else ∃ pls,
         @draw_pages E R c images fs
         = (Normal {| pagesize := pagesize c;
                      finished := finished c ++ (page_of <$> pls);
                      current := [] |}, fs)
         ∧ Forall2 (λ img pl, drawn pl = strip_metadata_from_image E img)
             images pls.
Proof.
  induction images as [|img images IH]; intros c fs Hc.
  - exists []. split; [|constructor]. unfold draw_pages, ret. simpl.
    rewrite app_nil_r. destruct c; simpl in *. by subst.
  - cbn [existsb].
    change (draw_pages E c (img :: images))
      with (bind (@draw_page E R c img) (λ c, draw_pages E c images)).
    destruct (strip_size E img) as [Hw _].
    destruct (width img =? 0) eqn:Hz; cbn [orb].
    + exists "ZeroDivisionError".
      unfold bind, draw_page. cbv zeta. rewrite Hw, Hz. reflexivity.
    + assert (∃ pl,
                (∀ k : canvas → M (gmap string file) R canvas,
                   bind (@draw_page E R c img) k fs
                   = k {| pagesize := pagesize c;
                          finished := finished c ++ [current c ++ [pl]];
                          current := [] |} fs)
                ∧ drawn pl = strip_metadata_from_image E img)
        as (pl & Hstep & Hpl).
      { eexists. split;
          [ intros k; unfold bind, draw_page, showPage, drawImage; cbv zeta;
            rewrite Hw, Hz; reflexivity
          | reflexivity ]. }
      rewrite Hstep.
      match goal with
      | |- context [draw_pages E ?c1 images fs] =>
          specialize (IH c1 fs eq_refl); set (cnext := c1) in *
      end.
      destruct (existsb (λ img0, width img0 =? 0) images).
      * destruct IH as (e & ->). by exists e.
      * destruct IH as (pls & -> & Hpls).
        exists (pl :: pls). split; [|by constructor].
        subst cnext. simpl. rewrite Hc, <- app_assoc. reflexivity.
Qed.

(** X11.  [pixels_to_pdf] on any list of images: it never raises.  It
    returns [False], having written nothing, exactly when some image has
    width zero (the aspect ratio divides by the width).  Otherwise it
    returns [True] and has written a PDF of letter-sized pages, one per
    image and in order, each holding that single image stripped of
    metadata.  [validate_output] rejects that file when its trailer
    refers to the catalog by a reference. *)
Theorem reemission_total R R' images output_path (fs : gmap string file) :
  ∃ ok fs',
    @pixels_to_pdf E R images output_path fs = (Normal ok, fs')
    ∧ ok = negb (existsb (λ img, width img =? 0) images)
    ∧ (ok = false → fs' = fs)
    ∧ (ok = true →
       ∃ pls,
         fs' = <[output_path := FCanvas letter (page_of <$> pls)]> fs
         ∧ Forall2 (λ img pl, drawn pl = strip_metadata_from_image E img)
             images pls
         ∧ (trailer_holds_catalog E (FCanvas letter (page_of <$> pls))
            = false →
            @validate_output E R' output_path fs' = (Normal false, fs'))).
Proof.
  pose proof (draw_pages_total bool images (Canvas letter) fs eq_refl) as H.
  unfold pixels_to_pdf, def, try_except, bind, return_, Worker.write_file,
    modify.
  destruct (existsb (λ img, width img =? 0) images).
  - destruct H as (e & ->). exists false, fs. by split_and!.
  - destruct H as (pls & -> & Hpls). simpl.
    eexists true, _. split; [reflexivity|]. split_and!; try done.
    intros _. exists pls. split_and!; try done.
    intros Ht. eapply validate_output_rejects; [|exact Ht].
    apply lookup_insert_eq.
Qed.

End Reemission.

(** ** The CDR pass: what it keeps, and running it twice *)

Section Rebuild.
Variable E : Worker.env.

(** The page edits remove three entries and nothing else. *)
Lemma disarm_page_other page k :
  k ≠ "/Annots" → k ≠ "/AA" → k ≠ "/A" →
  disarm_page page !! k = page !! k.
Proof.
  intros H1 H2 H3. unfold disarm_page.
  repeat case_bool_decide; by rewrite ?lookup_delete_ne.
Qed.

Lemma disarm_page_idempotent page :
  disarm_page (disarm_page page) = disarm_page page.
Proof. apply disarm_page_absent, disarm_page_disarmed. Qed.

(** The removal from the name dictionary reads the catalog only. *)
Lemma remove_from_names_catalog R key w1 w2 (fs1 fs2 fs1' : gmap string file) w1' :
  root w1 = root w2 →
  @remove_from_names R key w1 fs1 = (Normal w1', fs1') →
  @remove_from_names R key w2 fs2
  = (Normal {| pages := pages w2; root := root w1'; info := info w2 |}, fs2)
  ∧ fs1' = fs1 ∧ pages w1' = pages w1 ∧ info w1' = info w1.
Proof.
  intros Hr. unfold remove_from_names. rewrite <- Hr.
  destruct (root w1 !! "/Names") as [names|] eqn:Hn; wk_unfold.
  2: { intros [= <- <-]. rewrite Hr. by destruct w2. }
  destruct (py_contains key names) as [[|]|e]; simpl; [| |done].
  - destruct (py_delitem key names) as [names'|e]; simpl; [|done].
    intros [= <- <-]. simpl. by rewrite Hr.
  - intros [= <- <-]. rewrite Hr. by destruct w2.
Qed.

(** The CDR pass, forwards: from the two removals on the new writer. *)
Lemma disarm_pdf_run R pdf_path output_path (fs : gmap string file) f doc w1 w2 :
  fs !! pdf_path = Some f →
  parse_pdf f = Ok doc →
  @remove_from_names bool "/JavaScript"
    {| pages := disarm_page <$> pages doc; root := PdfWriter_root E;
       info := PdfWriter_info E |} fs = (Normal w1, fs) →
  @remove_from_names bool "/EmbeddedFiles" w1 fs = (Normal w2, fs) →
  @disarm_pdf E R pdf_path output_path fs
  = (Normal true,
     <[output_path := FPdf (add_metadata E (remove_open_action w2))]> fs).
Proof.
  intros Hf Hp H1 H2. unfold disarm_pdf. wk_unfold. rewrite Hf. simpl.
  rewrite Hp. simpl. rewrite page_loop. simpl. rewrite H1. simpl.
  by rewrite H2.
Qed.

(** The CDR pass, backwards: a run that returned [True] made the two
    removals and wrote the writer. *)
Lemma disarm_pdf_true R pdf_path output_path (fs fs' : gmap string file) f doc :
  fs !! pdf_path = Some f →
  parse_pdf f = Ok doc →
  @disarm_pdf E R pdf_path output_path fs = (Normal true, fs') →
  ∃ w1 w2,
    @remove_from_names bool "/JavaScript"
      {| pages := disarm_page <$> pages doc; root := PdfWriter_root E;
         info := PdfWriter_info E |} fs = (Normal w1, fs)
    ∧ @remove_from_names bool "/EmbeddedFiles" w1 fs = (Normal w2, fs)
    ∧ fs' = <[output_path := FPdf (add_metadata E (remove_open_action w2))]> fs.
Proof.
  intros Hf Hp Hd.
  set (w0 := {| pages := disarm_page <$> pages doc; root := PdfWriter_root E;
                info := PdfWriter_info E |}).
  pose proof (remove_from_names_spec bool "/JavaScript" w0 fs) as S1.
  destruct (@remove_from_names bool "/JavaScript" w0 fs)
    as [[w1| |] fs1] eqn:H1; [|done|].
  - destruct S1 as (-> & _).
    pose proof (remove_from_names_spec bool "/EmbeddedFiles" w1 fs) as S2.
    destruct (@remove_from_names bool "/EmbeddedFiles" w1 fs)
      as [[w2| |] fs2] eqn:H2; [|done|].
    + destruct S2 as (-> & _).
      exists w1, w2. split; [done|]. split; [done|].
      rewrite (disarm_pdf_run R pdf_path output_path fs f doc w1 w2
                 Hf Hp H1 H2) in Hd. by injection Hd as <-.
    + destruct S2 as (-> & _).
      exfalso. revert Hd. unfold disarm_pdf. wk_unfold. rewrite Hf. simpl.
      rewrite Hp. simpl. rewrite page_loop. simpl. fold w0. rewrite H1.
      simpl. rewrite H2. simpl. rewrite Hf. simpl.
      destruct (pdf_path =? output_path)%string; by intros [=].
  - destruct S1 as (-> & _).
    exfalso. revert Hd. unfold disarm_pdf. wk_unfold. rewrite Hf. simpl.
    rewrite Hp. simpl. rewrite page_loop. simpl. fold w0. rewrite H1.
    simpl. rewrite Hf. simpl.
    destruct (pdf_path =? output_path)%string; by intros [=].
Qed.

End Rebuild.

(** What the two removals on the catalog and the metadata leave of the
    writer that the page loop filled. *)
Lemma disarm_pdf_written E R pdf_path output_path (fs fs' : gmap string file)
    f doc :
  fs !! pdf_path = Some f →
  parse_pdf f = Ok doc →
  @disarm_pdf E R pdf_path output_path fs = (Normal true, fs') →
  ∃ w1 w2,
    @remove_from_names bool "/JavaScript"
      {| pages := disarm_page <$> pages doc; root := PdfWriter_root E;
         info := PdfWriter_info E |} fs = (Normal w1, fs)
    ∧ @remove_from_names bool "/EmbeddedFiles" w1 fs = (Normal w2, fs)
    ∧ fs' = <[output_path := FPdf (add_metadata E (remove_open_action w2))]> fs
    ∧ pages (add_metadata E (remove_open_action w2))
      = disarm_page <$> pages doc
    ∧ info w2 = PdfWriter_info E.
Proof.
  intros Hf Hp Hd.
  destruct (disarm_pdf_true E R pdf_path output_path fs fs' f doc Hf Hp Hd)
    as (w1 & w2 & Hjs & Hef & ->).
  exists w1, w2. split_and!; try done.
  - destruct (remove_from_names_catalog bool "/JavaScript" _ _
                fs fs fs w1 eq_refl Hjs) as (_ & _ & Hpg1 & _).
    destruct (remove_from_names_catalog bool "/EmbeddedFiles" _ _
                fs fs fs w2 eq_refl Hef) as (_ & _ & Hpg2 & _).
    unfold add_metadata, remove_open_action. simpl.
    case_bool_decide; simpl; by rewrite Hpg2, Hpg1.
  - destruct (remove_from_names_catalog bool "/JavaScript" _ _
                fs fs fs w1 eq_refl Hjs) as (_ & _ & _ & Hi1).
    destruct (remove_from_names_catalog bool "/EmbeddedFiles" _ _
                fs fs fs w2 eq_refl Hef) as (_ & _ & _ & Hi2).
    by rewrite Hi2, Hi1.
Qed.

(** The information dictionary after [add_metadata]. *)
Lemma add_metadata_info E writer :
  info (add_metadata E writer) !! "/Title" = Some (PText "Sanitized Document")
  ∧ info (add_metadata E writer) !! "/Author" = Some (PText "CleanSheet")
  ∧ info (add_metadata E writer) !! "/Subject"
    = Some (PText "Document Sanitized")
  ∧ info (add_metadata E writer) !! "/Creator"
    = Some (PText "CleanSheet Sanitization System")
  ∧ info (add_metadata E writer) !! "/Producer" = Some (PText "CleanSheet")
  ∧ info (add_metadata E writer) !! "/CreationDate" = Some (PText (now E)).
Proof.
  unfold add_metadata. cbn [info].
  split_and!; repeat (rewrite lookup_insert_ne by done);
    apply lookup_insert_eq.
Qed.

(** Two writers with the same information dictionary: after
    [add_metadata] at two readings of the clock they differ at most
    in [/CreationDate]. *)
Lemma add_metadata_clock E t w1 w2 k :
  info w1 = info w2 →
  k ≠ "/CreationDate" →
  info (add_metadata E w1) !! k = info (add_metadata (at_time E t) w2) !! k.
Proof.
  intros Hi Hk. unfold add_metadata. cbn [info now at_time]. rewrite Hi.
  repeat match goal with
  | |- <[?a := _]> _ !! k = <[?a := _]> _ !! k =>
      destruct (decide (a = k)) as [<- | ?];
        [ by rewrite !lookup_insert_eq
        | rewrite !(lookup_insert_ne _ a k) by done ]
  end.
  done.
Qed.

Lemma disarm_pages_kept ps : Forall2 page_kept ps (disarm_page <$> ps).
Proof.
  induction ps as [|p ps IH]; [constructor|].
  rewrite fmap_cons. constructor; [|done].
  split; [apply disarm_page_disarmed|].
  intros k ? ? ? _ _. by apply disarm_page_other.
Qed.

(** X12.  What a successful CDR pass keeps of its input is the pages, in
    order, each without [/Annots], [/AA] and [/A]; of the other entries
    of a page, all but [/Parent] and [/StructParents], which tie it to
    its document, are as they were.  The catalog and the information
    dictionary of the output are those of the new writer: two successful
    passes on any two documents, the second made when the clock reads
    [t2], write the same catalog and information dictionaries that
    differ at most in [/CreationDate], which holds the reading of each
    pass; title, author, subject, creator and producer are the fixed
    CleanSheet entries. *)
Theorem cdr_keeps_pages_only E R t2 p1 o1 (fs1 fs1' : gmap string file)
    f1 doc1 p2 o2 (fs2 fs2' : gmap string file) f2 doc2 :
  fs1 !! p1 = Some f1 → parse_pdf f1 = Ok doc1 →
  fs2 !! p2 = Some f2 → parse_pdf f2 = Ok doc2 →
  @disarm_pdf E R p1 o1 fs1 = (Normal true, fs1') →
  @disarm_pdf (at_time E t2) R p2 o2 fs2 = (Normal true, fs2') →
  ∃ d1 d2,
    fs1' = <[o1 := FPdf d1]> fs1
    ∧ fs2' = <[o2 := FPdf d2]> fs2
    ∧ root d1 = root d2
    ∧ (∀ k, k ≠ "/CreationDate" → info d1 !! k = info d2 !! k)
    ∧ info d1 !! "/Title" = Some (PText "Sanitized Document")
    ∧ info d1 !! "/Author" = Some (PText "CleanSheet")
    ∧ info d1 !! "/Subject" = Some (PText "Document Sanitized")
    ∧ info d1 !! "/Creator" = Some (PText "CleanSheet Sanitization System")
    ∧ info d1 !! "/Producer" = Some (PText "CleanSheet")
    ∧ info d1 !! "/CreationDate" = Some (PText (now E))
    ∧ info d2 !! "/CreationDate" = Some (PText t2)
    ∧ Forall2 page_kept (pages doc1) (pages d1)
    ∧ Forall2 page_kept (pages doc2) (pages d2).
Proof.
  intros Hf1 Hp1 Hf2 Hp2 Hd1 Hd2.
  destruct (disarm_pdf_written E R p1 o1 fs1 fs1' f1 doc1 Hf1 Hp1 Hd1)
    as (w1 & w2 & Hjs1 & Hef1 & -> & Hpg1 & Hi1).
  destruct (disarm_pdf_written (at_time E t2) R p2 o2 fs2 fs2' f2 doc2
              Hf2 Hp2 Hd2)
    as (v1 & v2 & Hjs2 & Hef2 & -> & Hpg2 & Hi2).
  cbn [PdfWriter_root PdfWriter_info at_time] in Hjs2, Hi2.
  set (u1 := {| pages := disarm_page <$> pages doc1;
                root := PdfWriter_root E; info := PdfWriter_info E |}) in *.
  set (u2 := {| pages := disarm_page <$> pages doc2;
                root := PdfWriter_root E; info := PdfWriter_info E |}) in *.
  destruct (remove_from_names_catalog bool "/JavaScript" u1 u2
              fs1 fs2 fs1 w1 eq_refl Hjs1) as (Hjs2' & _ & _ & _).
  pose proof (eq_trans (eq_sym Hjs2) Hjs2') as Hv1. injection Hv1 as ->.
  destruct (remove_from_names_catalog bool "/EmbeddedFiles" w1
              {| pages := pages u2; root := root w1; info := info u2 |}
              fs1 fs2 fs1 w2 eq_refl Hef1) as (Hef2' & _ & _ & _).
  pose proof (eq_trans (eq_sym Hef2) Hef2') as Hv2. injection Hv2 as ->.
  destruct (add_metadata_info E (remove_open_action w2))
    as (Ht & Ha & Hs & Hc & Hpr & Hcd).
  destruct (add_metadata_info (at_time E t2)
              (remove_open_action
                 {| pages := pages u2; root := root w2; info := info u2 |}))
    as (_ & _ & _ & _ & _ & Hcd2).
  eexists _, _. split; [reflexivity|]. split; [reflexivity|].
  split_and!; try done.
  - unfold add_metadata, remove_open_action. simpl.
    by repeat case_bool_decide.
  - intros k Hk. apply add_metadata_clock; [|done].
    unfold remove_open_action. simpl.
    repeat case_bool_decide; simpl; by rewrite Hi1.
  - rewrite Hpg1. apply disarm_pages_kept.
  - rewrite Hpg2. apply disarm_pages_kept.
Qed.

(** X13.  The CDR pass can be repeated: run on the file that a
    successful pass wrote, when the clock reads [t2], it returns [True]
    again and writes a document with the same catalog, with the same
    information dictionary but for [/CreationDate], which holds [t2],
    and with the same pages in the same order, equal in every entry but
    [/Parent] and [/StructParents]. *)
Theorem cdr_idempotent E R t2 pdf_path output_path again
    (fs fs' : gmap string file) f doc :
  fs !! pdf_path = Some f → parse_pdf f = Ok doc →
  @disarm_pdf E R pdf_path output_path fs = (Normal true, fs') →
  ∃ d d',
    fs' = <[output_path := FPdf d]> fs
    ∧ @disarm_pdf (at_time E t2) R output_path again fs'
      = (Normal true, <[again := FPdf d']> fs')
    ∧ root d' = root d
    ∧ (∀ k, k ≠ "/CreationDate" → info d' !! k = info d !! k)
    ∧ info d' !! "/CreationDate" = Some (PText t2)
    ∧ Forall2 (λ page page',
                 ∀ k, k ≠ "/Parent" → k ≠ "/StructParents" →
                      page' !! k = page !! k)
        (pages d) (pages d').
Proof.
  intros Hf Hp Hd.
  destruct (disarm_pdf_written E R pdf_path output_path fs fs' f doc
              Hf Hp Hd)
    as (w1 & w2 & Hjs & Hef & -> & Hpd & Hi).
  set (d := add_metadata E (remove_open_action w2)) in *.
  set (fs1 := <[output_path := FPdf d]> fs).
  set (u0 := {| pages := disarm_page <$> pages doc;
                root := PdfWriter_root E; info := PdfWriter_info E |}) in *.
  set (u1 := {| pages := disarm_page <$> pages d;
                root := PdfWriter_root E; info := PdfWriter_info E |}).
  destruct (remove_from_names_catalog bool "/JavaScript" u0 u1
              fs fs1 fs w1 eq_refl Hjs) as (Hjs' & _ & _ & _).
  simpl in Hjs'.
  set (u2 := {| pages := disarm_page <$> pages d; root := root w1;
                info := PdfWriter_info E |}) in *.
  destruct (remove_from_names_catalog bool "/EmbeddedFiles" w1 u2
              fs fs1 fs w2 eq_refl Hef) as (Hef' & _ & _ & _).
  simpl in Hef'.
  set (u3 := {| pages := disarm_page <$> pages d; root := root w2;
                info := PdfWriter_info E |}) in *.
  exists d, (add_metadata (at_time E t2) (remove_open_action u3)).
  split; [done|]. split.
  { apply (disarm_pdf_run (at_time E t2) R output_path again fs1 (FPdf d) d
             _ _ (lookup_insert_eq _ _ _) eq_refl Hjs' Hef'). }
  assert (disarm_page <$> pages d = pages d) as Hpd'.
  { rewrite Hpd, <- list_fmap_compose. apply list_fmap_ext.
    intros i x _. apply disarm_page_idempotent. }
  split_and!.
  - subst d u3. unfold add_metadata, remove_open_action. simpl.
    by repeat case_bool_decide.
  - intros k Hk. symmetry. subst d. apply add_metadata_clock; [|done].
    subst u3. unfold remove_open_action. simpl.
    repeat case_bool_decide; simpl; by rewrite ?Hi.
  - apply add_metadata_info.
  - assert (pages (add_metadata (at_time E t2) (remove_open_action u3))
            = pages d) as ->.
    { subst u3. unfold add_metadata, remove_open_action. simpl.
      by case_bool_decide. }
    clear. induction (pages d); by constructor.
Qed.

(** X14.  The CDR pass fails open.  On a file that does not parse as a
    PDF, with an output path other than the input path, it returns
    [False], and what it leaves at its output path, for the next stage to
    process, is the original file, byte for byte; whenever it returns
    [False] the two paths differ and that is what it left there.  When
    the two paths are the same and the file does not parse, the copy in
    the handler raises and the pass raises with it, writing nothing.  On
    a missing input it raises and writes nothing. *)
Theorem cdr_fails_open E R pdf_path output_path (fs : gmap string file) :
  (∀ f, fs !! pdf_path = Some f → is_err (parse_pdf f) = true →
        pdf_path ≠ output_path →
        @disarm_pdf E R pdf_path output_path fs
        = (Normal false, <[output_path := f]> fs))
  ∧ (∀ f, fs !! pdf_path = Some f → is_err (parse_pdf f) = true →
          pdf_path = output_path →
          @disarm_pdf E R pdf_path output_path fs
          = (Raise "SameFileError", fs))
  ∧ (∀ fs', @disarm_pdf E R pdf_path output_path fs = (Normal false, fs') →
            pdf_path ≠ output_path
            ∧ ∃ f, fs !! pdf_path = Some f ∧ fs' = <[output_path := f]> fs)
  ∧ (fs !! pdf_path = None →
     ∃ e, @disarm_pdf E R pdf_path output_path fs = (Raise e, fs)).
Proof.
  split_and!.
  - intros f Hf He Hne.
    destruct (disarm_pdf_result E R pdf_path output_path fs f Hf)
      as [(doc & d & Hp & _) | [Hd _]]; [by rewrite Hp in He|].
    apply String.eqb_neq in Hne. by rewrite Hne in Hd.
  - intros f Hf He Heq.
    destruct (disarm_pdf_result E R pdf_path output_path fs f Hf)
      as [(doc & d & Hp & _) | [Hd _]]; [by rewrite Hp in He|].
    apply String.eqb_eq in Heq. by rewrite Heq in Hd.
  - intros fs' Hd. destruct (fs !! pdf_path) as [f|] eqn:Hf.
    + destruct (disarm_pdf_result E R pdf_path output_path fs f Hf)
        as [(doc & d & _ & Hd' & _) | [Hd' _]];
        [rewrite Hd in Hd'; congruence|].
      destruct (String.eqb_spec pdf_path output_path) as [Heq | Hne];
        rewrite Hd in Hd'; [congruence|].
      split; [done|]. exists f. split; [done|]. congruence.
    + revert Hd. unfold disarm_pdf. wk_unfold. rewrite Hf. simpl.
      by rewrite Hf.
  - intros Hf. exists "FileNotFoundError". unfold disarm_pdf. wk_unfold.
    rewrite Hf. simpl. by rewrite Hf.
Qed.


(** ** Where the worker writes *)

Import Confinement.

Section Frames.
Variable W : string → Prop.

Lemma ww_ret {R A} (a : A) : writes_within W (@ret _ R A a).
Proof. by intros fs p _. Qed.

Lemma ww_return {R A} (r : R) : writes_within W (@return_ _ R A r).
Proof. by intros fs p _. Qed.

Lemma ww_raise {R A} e : writes_within W (@raise _ R A e).
Proof. by intros fs p _. Qed.

Lemma ww_gets {R A} (f : gmap string file → A) :
  writes_within W (@gets _ R A f).
Proof. by intros fs p _. Qed.

Lemma ww_call {R A} (o : outcome A) : writes_within W (@call _ R A o).
Proof. by destruct o. Qed.

Lemma ww_bind {R A B} (m : M (gmap string file) R A)
    (k : A → M (gmap string file) R B) :
  writes_within W m → (∀ a, writes_within W (k a)) →
  writes_within W (bind m k).
Proof.
  intros Hm Hk fs p Hp. specialize (Hm fs p Hp). unfold bind.
  destruct (m fs) as [[a|r|e] fs1]; simpl in *; [|done|done].
  by rewrite (Hk a fs1 p Hp).
Qed.

Lemma ww_try_except {R A} (body : M (gmap string file) R A) handler :
  writes_within W body → (∀ e, writes_within W (handler e)) →
  writes_within W (try_except body handler).
Proof.
  intros Hm Hk fs p Hp. specialize (Hm fs p Hp). unfold try_except.
  destruct (body fs) as [[a|r|e] fs1]; simpl in *; [done|done|].
  by rewrite (Hk e fs1 p Hp).
Qed.

Lemma ww_try_finally {R A} (body : M (gmap string file) R A) fin :
  writes_within W body → writes_within W fin →
  writes_within W (try_finally body fin).
Proof.
  intros Hm Hk fs p Hp. specialize (Hm fs p Hp). unfold try_finally.
  destruct (body fs) as [c fs1]. specialize (Hk fs1 p Hp).
  destruct (fin fs1) as [[a|r|e] fs2]; simpl in *; congruence.
Qed.

Lemma ww_when {R} c (body : M (gmap string file) R unit) :
  writes_within W body → writes_within W (when c body).
Proof. intros Hm. destruct c; [done|apply ww_ret]. Qed.

Lemma ww_def {R R'} (body : M (gmap string file) R R) :
  writes_within W body → writes_within W (@def _ R R' body).
Proof.
  intros Hm fs p Hp. specialize (Hm fs p Hp). unfold def.
  by destruct (body fs) as [[a|r|e] fs1].
Qed.

(** A guard that returns early: what follows runs where it failed. *)
Lemma ww_guard {R A} c (r : R) (rest : M (gmap string file) R A) :
  (c = false → writes_within W rest) →
  writes_within W (bind (when c (return_ r)) (λ _, rest)).
Proof. intros Hm. destruct c; [done|]. by apply Hm. Qed.

Lemma ww_os_path_exists {R} p : writes_within W (@Worker.os_path_exists R p).
Proof. apply ww_gets. Qed.

Lemma ww_read_file {R} p : writes_within W (@Worker.read_file R p).
Proof.
  intros fs q _. unfold Worker.read_file, bind, gets. simpl.
  by destruct (fs !! p).
Qed.

Lemma ww_write_file {R} p f :
  W p → writes_within W (@Worker.write_file R p f).
Proof.
  intros Hp fs q Hq. simpl. apply lookup_insert_ne. by intros ->.
Qed.

Lemma ww_os_remove {R} p : W p → writes_within W (@Worker.os_remove R p).
Proof.
  intros Hp fs q Hq. unfold Worker.os_remove, Worker.read_file, bind, gets.
  simpl. destruct (fs !! p); simpl; [|done].
  apply lookup_delete_ne. by intros ->.
Qed.

Lemma ww_shutil_copy {R} src dst :
  W dst → writes_within W (@Worker.shutil_copy R src dst).
Proof.
  intros Hp fs q Hq. unfold Worker.shutil_copy, Worker.read_file, bind, gets.
  simpl. destruct (fs !! src); simpl; [|done].
  destruct (src =? dst)%string; simpl; [done|].
  apply lookup_insert_ne. by intros ->.
Qed.

Lemma ww_os_makedirs {R} d : writes_within W (@Worker.os_makedirs R d).
Proof.
  intros fs q Hq. unfold Worker.os_makedirs, bind, gets. simpl.
  by repeat case_bool_decide.
Qed.

Lemma ww_os_rename {R} src dst :
  W src → W dst → writes_within W (@Worker.os_rename R src dst).
Proof.
  intros Hs Hd fs q Hq. unfold Worker.os_rename, Worker.read_file, bind, gets.
  simpl. destruct (fs !! src); simpl; [|done].
  rewrite lookup_insert_ne by (by intros ->).
  apply lookup_delete_ne. by intros ->.
Qed.

Lemma ww_shutil_rmtree {R} d :
  (∀ p, String.prefix (d +:+ "/") p = true → W p) →
  writes_within W (@Worker.shutil_rmtree R d).
Proof.
  intros Hd fs q Hq. simpl.
  assert (String.prefix (d +:+ "/") q = false) as Hpre.
  { destruct (String.prefix (d +:+ "/") q) eqn:H; [|done].
    by destruct (Hq (Hd q H)). }
  destruct (fs !! q) as [x|] eqn:Hx.
  - by apply map_lookup_filter_Some_2.
  - apply map_lookup_filter_None_2. by left.
Qed.

End Frames.

Ltac ww_step :=
  match goal with
  | |- writes_within _ (bind _ _) => apply ww_bind; [|intros ?]
  | |- writes_within _ (ret _) => apply ww_ret
  | |- writes_within _ (return_ _) => apply ww_return
  | |- writes_within _ (raise _) => apply ww_raise
  | |- writes_within _ (gets _) => apply ww_gets
  | |- writes_within _ (call _) => apply ww_call
  | |- writes_within _ (try_except _ _) => apply ww_try_except; [|intros ?]
  | |- writes_within _ (try_finally _ _) => apply ww_try_finally
  | |- writes_within _ (when _ _) => apply ww_when
  | |- writes_within _ (def _) => apply ww_def
  | |- writes_within _ (Worker.os_path_exists _) => apply ww_os_path_exists
  | |- writes_within _ (Worker.read_file _) => apply ww_read_file
  | |- writes_within _ (Worker.write_file _ _) => apply ww_write_file
  | |- writes_within _ (Worker.os_remove _) => apply ww_os_remove
  | |- writes_within _ (Worker.shutil_copy _ _) => apply ww_shutil_copy
  | |- writes_within _ (Worker.os_rename _ _) => apply ww_os_rename
  | |- writes_within _ (Worker.os_makedirs _) => apply ww_os_makedirs
  | |- writes_within _ (match ?x with _ => _ end) => destruct x
  end.

Ltac ww := cbv zeta; repeat (ww_step; cbv zeta); try done.

Section Confined.
Variable E : Worker.env.
Variable W : string → Prop.

Lemma ww_remove_from_names {R} key writer :
  writes_within W (@remove_from_names R key writer).
Proof. unfold remove_from_names. ww. Qed.

Lemma ww_disarm_pdf {R} pdf_path output_path :
  W output_path → writes_within W (@disarm_pdf E R pdf_path output_path).
Proof.
  intros Ho. unfold disarm_pdf. ww; apply ww_remove_from_names.
Qed.

Lemma ww_run_libreoffice {R} input_path outdir :
  W (Str.path_join outdir
       (Str.splitext_0 (Str.basename input_path) +:+ ".pdf")) →
  writes_within W (@run_libreoffice E R input_path outdir).
Proof. intros Ho. unfold run_libreoffice. ww. Qed.

Lemma ww_strip_macros_from_office {R} input_path output_pdf :
  W output_pdf →
  W (Str.path_join (Str.dirname output_pdf)
       (Str.splitext_0 (Str.basename input_path) +:+ ".pdf")) →
  writes_within W (@strip_macros_from_office E R input_path output_pdf).
Proof.
  intros Ho Hc. unfold strip_macros_from_office. ww.
  by apply ww_run_libreoffice.
Qed.

Lemma ww_convert_to_pdf {R} input_path output_path :
  W output_path →
  W (output_path +:+ ".cdr.pdf") →
  W (Str.path_join (Str.dirname output_path)
       (Str.splitext_0 (Str.basename input_path) +:+ ".pdf")) →
  writes_within W (@convert_to_pdf E R input_path output_path).
Proof.
  intros Ho Ht Hc. unfold convert_to_pdf. ww.
  - by apply ww_disarm_pdf.
  - by apply ww_strip_macros_from_office.
  - by apply ww_run_libreoffice.
Qed.

Lemma ww_pdf_to_pixels {R} pdf_path :
  writes_within W (@pdf_to_pixels E R pdf_path).
Proof. unfold pdf_to_pixels. ww. Qed.

Lemma ww_draw_pages {R} images : ∀ c,
  writes_within W (@draw_pages E R c images).
Proof.
  induction images as [|img images IH]; intros c.
  - apply ww_ret.
  - change (draw_pages E c (img :: images))
      with (bind (@draw_page E R c img) (λ c, draw_pages E c images)).
    apply ww_bind; [|done]. unfold draw_page. ww.
Qed.

Lemma ww_pixels_to_pdf {R} images output_path :
  W output_path →
  writes_within W (@pixels_to_pdf E R images output_path).
Proof. intros Ho. unfold pixels_to_pdf. ww. apply ww_draw_pages. Qed.

Lemma ww_validate_output {R} output_path :
  writes_within W (@validate_output E R output_path).
Proof. unfold validate_output. ww. Qed.

End Confined.

Section WorkerProcess.
Variable E : Worker.env.

Lemma scratch_join name :
  scratch (Str.path_join "/tmp/cleansheet_work" name) = true.
Proof. unfold scratch. cbn. by destruct name. Qed.

Lemma ww_main : writes_within (worker_may_write E) (main E).
Proof.
  unfold main, uncaught. cbv zeta. apply ww_def.
  apply ww_try_except; [|intros e; apply ww_return].
  apply ww_guard. intros Hset.
  assert (worker_may_write E (default EmptyString (OUTPUT_FILE E))) as Hout.
  { right. apply orb_false_elim in Hset as [_ Hset].
    by destruct (OUTPUT_FILE E). }
  apply ww_bind; [apply ww_os_path_exists|]. intros present.
  apply ww_guard. intros _.
  apply ww_bind; [apply ww_os_makedirs|]. intros _.
  apply ww_try_finally.
  - apply ww_try_except; [|intros e; apply ww_return].
    apply ww_bind; [|intros converted].
    { apply ww_convert_to_pdf; left; [reflexivity|reflexivity|].
      apply (scratch_join (_ +:+ ".pdf")). }
    apply ww_guard. intros _.
    apply ww_bind; [|intros _].
    { apply ww_disarm_pdf. left. reflexivity. }
    apply ww_bind; [apply ww_pdf_to_pixels|]. intros pixel_images.
    apply ww_guard. intros _.
    apply ww_bind; [|intros reconstructed].
    { by apply ww_pixels_to_pdf. }
    apply ww_guard. intros _.
    apply ww_bind; [apply ww_validate_output|]. intros valid.
    apply ww_guard. intros _. apply ww_return.
  - apply ww_shutil_rmtree. intros p Hp. by left.
Qed.

(** A called function hands its caller a value or an exception. *)
Lemma def_ends {S R R'} (body : M S R R) (s : S) :
  ∃ s', (∃ r, @def S R R' body s = (Normal r, s'))
        ∨ (∃ e, @def S R R' body s = (Raise e, s')).
Proof.
  unfold def. destruct (body s) as [[r|r|e] s']; exists s'; eauto.
Qed.

Lemma convert_to_pdf_ends R input_path output_path (fs : gmap string file) :
  ∃ fs', (∃ ok, @convert_to_pdf E R input_path output_path fs
                = (Normal ok, fs'))
         ∨ (∃ e, @convert_to_pdf E R input_path output_path fs
                 = (Raise e, fs')).
Proof. unfold convert_to_pdf. apply def_ends. Qed.

Lemma disarm_pdf_ends R pdf_path output_path (fs : gmap string file) :
  ∃ fs', (∃ ok, @disarm_pdf E R pdf_path output_path fs = (Normal ok, fs'))
         ∨ (∃ e, @disarm_pdf E R pdf_path output_path fs = (Raise e, fs')).
Proof. unfold disarm_pdf. apply def_ends. Qed.

Lemma pdf_to_pixels_pure R pdf_path (fs : gmap string file) :
  ∃ rendered, @pdf_to_pixels E R pdf_path fs = (Normal rendered, fs).
Proof.
  unfold pdf_to_pixels. wk_unfold.
  destruct (fs !! pdf_path) as [f|]; simpl; [|by eexists].
  destruct (convert_from_path E f 200); simpl; by eexists.
Qed.

(** X15.  Whatever the job and the filesystem, the worker process ends
    with exit status 0 or 1: the status it gave to [sys.exit], or 1 when
    [os.makedirs] raised, which no handler catches.  It changes no file
    outside its scratch directory other than the output path of the job,
    so an input anywhere else is left as it was.  Unless it stopped
    before the scratch directory was there, in which case it changed
    nothing at all, nothing is left below that directory when it exits,
    on success and on every failure; it stops so, with status 1, when a
    file stands where the scratch directory or its parent should be.
    When the status is 0, the worker wrote at the output path a PDF of
    letter-sized pages with at least one page that holds its catalog in
    the trailer, and an output path outside the scratch directory still
    holds it; so the status is 1 on every job when no such file holds its
    catalog in the trailer. *)
Theorem worker_confined (fs : gmap string file) :
  ∃ code fs',
    main E fs = (Normal code, fs')
    ∧ (code = 0 ∨ code = 1)
    ∧ (∀ p, scratch p = false → OUTPUT_FILE E ≠ Some p →
            fs' !! p = fs !! p)
    ∧ (fs' = fs ∨ ∀ p, scratch p = true → fs' !! p = None)
    ∧ (is_Some (fs !! "/tmp/cleansheet_work") ∨ is_Some (fs !! "/tmp") →
       code = 1 ∧ fs' = fs)
    ∧ (code = 0 →
       ∃ out pgs,
         OUTPUT_FILE E = Some out
         ∧ pgs ≠ []
         ∧ trailer_holds_catalog E (FCanvas letter pgs) = true
         ∧ (scratch out = false →
            fs' !! out = Some (FCanvas letter pgs)))
    ∧ ((∀ pgs, trailer_holds_catalog E (FCanvas letter pgs) = false) →
       code = 1).
Proof.
  assert (∃ code fs',
            main E fs = (Normal code, fs')
            ∧ (code = 0 ∨ code = 1)
            ∧ (fs' = fs
               ∨ ∃ fs0, fs' = filter (λ kv : string * file,
                                        scratch kv.1 = false) fs0)
            ∧ (bool_decide (is_Some (fs !! "/tmp/cleansheet_work"))
               || bool_decide (is_Some (fs !! "/tmp")) = true →
               code = 1 ∧ fs' = fs)
            ∧ (code = 0 →
               ∃ out pgs fs0,
                 OUTPUT_FILE E = Some out ∧ pgs ≠ []
                 ∧ trailer_holds_catalog E (FCanvas letter pgs) = true
                 ∧ fs' = filter (λ kv : string * file, scratch kv.1 = false)
                           (<[out := FCanvas letter pgs]> fs0)))
    as (code & fs' & Hmain & Hcode & Hfin & Hdir & Hzero).
  { unfold main. wk_unfold.
    destruct (INPUT_FILE E) as [input_file|]; simpl;
      [|exists 1, fs; split_and!; auto; done].
    destruct (Str.is_empty input_file); simpl;
      [exists 1, fs; split_and!; auto; done|].
    destruct (OUTPUT_FILE E) as [output_file|]; simpl;
      [|exists 1, fs; split_and!; auto; done].
    destruct (Str.is_empty output_file); simpl;
      [exists 1, fs; split_and!; auto; done|].
    destruct (fs !! input_file) as [f|]; simpl;
      [|exists 1, fs; split_and!; auto; done].
    change (Str.dirname "/tmp/cleansheet_work") with "/tmp".
    destruct (bool_decide (is_Some (fs !! "/tmp/cleansheet_work"))); simpl;
      [exists 1, fs; split_and!; auto; done|].
    destruct (bool_decide (is_Some (fs !! "/tmp"))); simpl;
      [exists 1, fs; split_and!; auto; done|].
    change ("/tmp/cleansheet_work" +:+ "/" +:+ "intermediate.pdf")
      with "/tmp/cleansheet_work/intermediate.pdf".
    change ("/tmp/cleansheet_work" +:+ "/" +:+ "cdr.pdf")
      with "/tmp/cleansheet_work/cdr.pdf".
    change ("/tmp/cleansheet_work" +:+ "/") with "/tmp/cleansheet_work/".
    fold scratch.
    destruct (convert_to_pdf_ends Z input_file
                "/tmp/cleansheet_work/intermediate.pdf" fs)
      as (fs1 & [(b & H1) | (e & H1)]); rewrite H1; simpl;
      [|exists 1; eexists; split_and!; eauto; done].
    destruct b; simpl; [|exists 1; eexists; split_and!; eauto; done].
    destruct (disarm_pdf_ends Z "/tmp/cleansheet_work/intermediate.pdf"
                "/tmp/cleansheet_work/cdr.pdf" fs1)
      as (fs2 & [(b & H2) | (e & H2)]); rewrite H2; simpl;
      [|exists 1; eexists; split_and!; eauto; done].
    destruct (pdf_to_pixels_pure Z "/tmp/cleansheet_work/cdr.pdf" fs2)
      as (rendered & H3).
    rewrite H3. simpl.
    destruct rendered as [[|img images]|]; simpl;
      [exists 1; eexists; split_and!; eauto; done| |
       exists 1; eexists; split_and!; eauto; done].
    pose proof (draw_pages_total E bool (img :: images) (Canvas letter) fs2
                  eq_refl) as H4.
    unfold pixels_to_pdf, def, try_except, bind, return_, Worker.write_file,
      modify.
    destruct (existsb (λ img, width img =? 0) (img :: images)).
    - destruct H4 as (e & ->). simpl.
      exists 1; eexists; split_and!; eauto; done.
    - destruct H4 as (pls & -> & Hpls). simpl.
      match goal with
      | |- context [@validate_output _ ?R' ?o ?s] =>
          destruct (validate_output_pure E R' o s) as (ok & H5 & Hok)
      end.
      rewrite H5. simpl.
      destruct ok; simpl; [|exists 1; eexists; split_and!; eauto; done].
      destruct (Hok eq_refl) as (g & Hg & Ht).
      rewrite lookup_insert_eq in Hg. injection Hg as <-.
      exists 0. eexists. split_and!; eauto; try done.
      intros _. eexists output_file, _, fs2. split_and!; [done| |done|done].
      apply Forall2_length in Hpls. destruct pls; [done|done]. }
  exists code, fs'. split_and!; try done.
  - intros p Hp Ho. pose proof (ww_main fs p) as Hww.
    rewrite Hmain in Hww. apply Hww. by intros [H | H]; congruence.
  - destruct Hfin as [-> | (fs0 & ->)]; [by left|right].
    intros p Hp. apply map_lookup_filter_None_2. right.
    intros x _. simpl. congruence.
  - intros Hd. apply Hdir. apply orb_true_iff.
    destruct Hd as [Hd | Hd]; [left | right]; by apply bool_decide_eq_true_2.
  - intros Hz. destruct (Hzero Hz) as (out & pgs & fs0 & Hout & Hne & Ht & ->).
    exists out, pgs. split_and!; try done. intros Hs.
    apply map_lookup_filter_Some_2; [apply lookup_insert_eq|done].
  - intros Hno. destruct Hcode as [-> | ->]; [|done].
    destruct (Hzero eq_refl) as (out & pgs & fs0 & _ & _ & Ht & _).
    by rewrite Hno in Ht.
Qed.

End WorkerProcess.

(** ** The worker on a PDF that parses *)

Section Job.
Variable E : Worker.env.

(** The normalizer on a [.pdf] name: the CDR pass, then its result moved
    to the requested path. *)
Lemma convert_to_pdf_pdf R input_path output_path stem ext
    (fs : gmap string file) ok g :
  Str.rsplit_dot input_path = Some (stem, ext) →
  Str.lower ext = "pdf" →
  output_path +:+ ".cdr.pdf" ≠ output_path →
  @disarm_pdf E bool input_path (output_path +:+ ".cdr.pdf") fs
  = (Normal ok, <[output_path +:+ ".cdr.pdf" := g]> fs) →
  @convert_to_pdf E R input_path output_path fs
  = (Normal true,
     delete (output_path +:+ ".cdr.pdf")
       (<[output_path := g]> (<[output_path +:+ ".cdr.pdf" := g]> fs))).
Proof.
  intros Hsplit Hext Hne Hd.
  unfold convert_to_pdf. wk_unfold. rewrite Hsplit. simpl.
  rewrite Hext. simpl. rewrite Hd. simpl.
  rewrite lookup_insert_eq. simpl.
  replace (output_path +:+ ".cdr.pdf" =? output_path)%string with false
    by (symmetry; by apply String.eqb_neq).
  simpl.
  rewrite lookup_insert_ne by (intros H; by apply Hne).
  rewrite lookup_insert_eq. simpl.
  rewrite lookup_insert_ne by (intros H; by apply Hne).
  rewrite lookup_insert_eq. reflexivity.
Qed.

Lemma pdf_to_pixels_ok R pdf_path (fs : gmap string file) g images :
  fs !! pdf_path = Some g →
  convert_from_path E g 200 = Ok images →
  @pdf_to_pixels E R pdf_path fs = (Normal (Some images), fs).
Proof.
  intros Hg Hc. unfold pdf_to_pixels. wk_unfold. rewrite Hg. simpl.
  by rewrite Hc.
Qed.

Lemma pixels_to_pdf_ok R images output_path (fs : gmap string file) :
  existsb (λ img, width img =? 0) images = false →
  ∃ pls,
    @pixels_to_pdf E R images output_path fs
    = (Normal true, <[output_path := FCanvas letter (page_of <$> pls)]> fs)
    ∧ Forall2 (λ img pl, drawn pl = strip_metadata_from_image E img)
        images pls.
Proof.
  intros Hw.
  pose proof (draw_pages_total E bool images (Canvas letter) fs eq_refl) as H.
  rewrite Hw in H. destruct H as (pls & H & Hpls). exists pls.
  split; [|done].
  unfold pixels_to_pdf, def, try_except, bind, return_, Worker.write_file,
    modify.
  by rewrite H.
Qed.

(** X16.  A job whose input is named [.pdf] and parses as a PDF, with a
    new writer whose catalog has no [/Names] or a dictionary there, an
    output path outside the scratch directory, and no file where the
    scratch directory or its parent should be.  The rasterizer is
    assumed to render the documents that are disarmed and have the
    edited pages of the input, and nothing is assumed of it on any other
    file; it yields at least one image, none of width zero.  Then the
    worker writes at the output path a PDF of letter-sized pages, one per
    rendered image and in order, each that single image stripped of
    metadata, and the file is there when the worker exits.  The exit
    status is 0 when that file holds its catalog in the trailer and 1
    when its trailer refers to the catalog by a reference: the
    validation of step 5 then fails on the very file the worker built. *)
Theorem pdf_job_outcome input_file output_file stem ext
    (fs : gmap string file) f doc images :
  INPUT_FILE E = Some input_file →
  OUTPUT_FILE E = Some output_file →
  Str.is_empty input_file = false →
  Str.is_empty output_file = false →
  scratch output_file = false →
  Str.rsplit_dot input_file = Some (stem, ext) →
  Str.lower ext = "pdf" →
  fs !! input_file = Some f →
  fs !! "/tmp/cleansheet_work" = None →
  fs !! "/tmp" = None →
  parse_pdf f = Ok doc →
  names_absent_or_dict (PdfWriter_root E) = true →
  (∀ d, disarmed d → pages d = disarm_page <$> pages doc →
        convert_from_path E (FPdf d) 200 = Ok images) →
  images ≠ [] →
  existsb (λ img, width img =? 0) images = false →
  ∃ fs' pls,
    main E fs
    = (Normal
         (if trailer_holds_catalog E (FCanvas letter (page_of <$> pls))
          then 0 else 1), fs')
    ∧ fs' !! output_file = Some (FCanvas letter (page_of <$> pls))
    ∧ Forall2 (λ img pl, drawn pl = strip_metadata_from_image E img)
        images pls.
Proof.
  intros Hin Hout Hine Houte Hos Hsplit Hext Hf Hwd Htmp Hp Hnames Hraster
    Hne Hw.
  destruct (disarm_pdf_result E bool input_file
              ("/tmp/cleansheet_work/intermediate.pdf" +:+ ".cdr.pdf")
              fs f Hf)
    as [(doc' & d1 & Hp' & Hd1 & Hdis1 & Hpg1) | [_ [He | Hn]]].
  2: { by rewrite Hp in He. }
  2: { by rewrite Hnames in Hn. }
  rewrite Hp in Hp'. injection Hp' as <-.
  pose proof (convert_to_pdf_pdf Z input_file
                "/tmp/cleansheet_work/intermediate.pdf" stem ext fs true
                (FPdf d1) Hsplit Hext ltac:(done) Hd1) as Hconv.
  set (fs1 := delete ("/tmp/cleansheet_work/intermediate.pdf" +:+ ".cdr.pdf")
                (<["/tmp/cleansheet_work/intermediate.pdf" := FPdf d1]>
                   (<["/tmp/cleansheet_work/intermediate.pdf" +:+ ".cdr.pdf"
                      := FPdf d1]> fs))) in *.
  assert (fs1 !! "/tmp/cleansheet_work/intermediate.pdf" = Some (FPdf d1))
    as Hf1.
  { subst fs1. rewrite lookup_delete_ne by done. apply lookup_insert_eq. }
  destruct (disarm_pdf_result E Z "/tmp/cleansheet_work/intermediate.pdf"
              "/tmp/cleansheet_work/cdr.pdf" fs1 (FPdf d1) Hf1)
    as [(doc' & d2 & Hp' & Hd2 & Hdis2 & Hpg2) | [_ [He | Hn]]].
  2: { done. }
  2: { by rewrite Hnames in Hn. }
  injection Hp' as <-.
  assert (pages d2 = disarm_page <$> pages doc) as Hpg2'.
  { rewrite Hpg2, Hpg1, <- list_fmap_compose. apply list_fmap_ext.
    intros i x _. apply disarm_page_idempotent. }
  set (fs2 := <["/tmp/cleansheet_work/cdr.pdf" := FPdf d2]> fs1) in *.
  pose proof (pdf_to_pixels_ok Z "/tmp/cleansheet_work/cdr.pdf" fs2
                (FPdf d2) images (lookup_insert_eq _ _ _)
                (Hraster d2 Hdis2 Hpg2')) as Hpix.
  destruct (pixels_to_pdf_ok Z images output_file fs2 Hw)
    as (pls & Hre & Hpls).
  set (fs3 := <[output_file := FCanvas letter (page_of <$> pls)]> fs2) in *.
  assert (@validate_output E Z output_file fs3
          = (Normal (trailer_holds_catalog E
                       (FCanvas letter (page_of <$> pls))), fs3)) as Hval.
  { destruct (trailer_holds_catalog E (FCanvas letter (page_of <$> pls)))
      eqn:Ht.
    - eapply validate_output_accepts; [apply lookup_insert_eq| | |exact Ht|];
        done.
    - eapply validate_output_rejects; [apply lookup_insert_eq|exact Ht]. }
  exists (filter (λ kv : string * file,
                    String.prefix "/tmp/cleansheet_work/" kv.1 = false) fs3),
         pls.
  split_and!; [|by apply map_lookup_filter_Some_2; [apply lookup_insert_eq|]
               |done].
  unfold main. wk_unfold. rewrite Hin, Hout. simpl.
  rewrite Hine, Houte. simpl. rewrite Hf. simpl.
  change (Str.dirname "/tmp/cleansheet_work") with "/tmp".
  rewrite Hwd, Htmp. simpl.
  change ("/tmp/cleansheet_work" +:+ "/" +:+ "intermediate.pdf")
    with "/tmp/cleansheet_work/intermediate.pdf".
  change ("/tmp/cleansheet_work" +:+ "/" +:+ "cdr.pdf")
    with "/tmp/cleansheet_work/cdr.pdf".
  rewrite Hconv. simpl. rewrite Hd2. simpl. fold fs2. rewrite Hpix. simpl.
  destruct images as [|img images]; [done|]. simpl.
  rewrite Hre. simpl. fold fs3. rewrite Hval. simpl.
  by destruct (trailer_holds_catalog E (FCanvas letter (page_of <$> pls))).
Qed.

End Job.

(** The theorem of X16 on the two-page job input, rendered page by page
    as letter-sized sheets: the job ends with status 1 at the validation
    of its own output. *)
Lemma pdf_job_outcome_witness :
  ∃ fs' pls,
    main worker (mounted (hostile 2)) = (Normal 1, fs')
    ∧ fs' !! "/worker/output/1b4e28ba_sanitized.pdf"
      = Some (FCanvas letter (page_of <$> pls))
    ∧ Forall2 (λ img pl, drawn pl = strip_metadata_from_image worker img)
        [letter_scan; letter_scan] pls.
Proof.
  refine (pdf_job_outcome worker "/worker/input/1b4e28ba_report.pdf"
            "/worker/output/1b4e28ba_sanitized.pdf"
            "/worker/input/1b4e28ba_report" "pdf" (mounted (hostile 2))
            (FPdf (hostile 2)) (hostile 2) [letter_scan; letter_scan]
            _ _ _ _ _ _ _ _ _ _ _ _ _ _ _); try reflexivity.
  - intros d _ Hpg. simpl. unfold rasterizer. simpl. rewrite Hpg.
    reflexivity.
  - done.
Defined.

(** ** The normalizer on images and on office documents *)

Section Normalizer.
Variable E : Worker.env.

(** A text without a slash does not start with one. *)
Lemma no_slash_head x s :
  Str.rsplit1 "/" (String x s) = None → x ≠ "/"%char.
Proof.
  simpl. destruct (Str.rsplit1 "/" s) as [[a b]|]; [done|].
  destruct (Ascii.eqb_spec x "/"); [done|]. by intros _.
Qed.

Lemma append_empty s : s = s +:+ EmptyString.
Proof.
  induction s as [|a s IH]; [done|].
  change (String a s = String a (s +:+ EmptyString)). by rewrite <- IH.
Qed.

(** The name that the worker joins to the output directory is relative,
    whatever the input path: [os.path.join] keeps the directory. *)
Lemma converted_name_relative input_path :
  String.prefix "/" (Str.splitext_0 (Str.basename input_path) +:+ ".pdf")
  = false.
Proof.
  assert (Str.rsplit1 "/" (Str.basename input_path) = None) as Hb.
  { unfold Str.basename.
    destruct (Str.rsplit1 "/" input_path) as [[a b]|] eqn:Hp; [|done].
    by apply rsplit1_inv in Hp as [_ Hb]. }
  assert (∀ r, (∃ t, Str.basename input_path = r +:+ t) →
               String.prefix "/" (r +:+ ".pdf") = false) as Hhead.
  { intros [|x r] [t Ht]; [done|]. rewrite Ht in Hb. simpl in Hb.
    apply no_slash_head in Hb.
    change (String.prefix "/" (String x r +:+ ".pdf"))
      with (if Ascii.ascii_dec "/" x
            then String.prefix EmptyString (r +:+ ".pdf") else false).
    by destruct (Ascii.ascii_dec "/" x) as [<- | ?]. }
  unfold Str.splitext_0, Str.rsplit_dot.
  destruct (Str.rsplit1 "." (Str.basename input_path)) as [[a e]|] eqn:Hd.
  - apply rsplit1_inv in Hd as [Hd _].
    destruct (Str.all_char "." a).
    + apply Hhead. exists EmptyString. apply append_empty.
    + apply Hhead. by eexists.
  - apply Hhead. exists EmptyString. apply append_empty.
Qed.


(** X18.  An input whose extension is not [pdf], [jpg], [jpeg] or [png],
    compared without regard to case, is converted the same way whether
    or not the extension is one of the listed office formats: the
    normalizer does what [strip_macros_from_office] does. *)
Theorem other_formats_as_office R input_path output_path stem ext
    (fs : gmap string file) :
  Str.rsplit_dot input_path = Some (stem, ext) →
  Str.lower ext ≠ "pdf" →
  is_in (Str.lower ext) ["jpg"; "jpeg"; "png"] = false →
  @convert_to_pdf E R input_path output_path fs
  = @strip_macros_from_office E R input_path output_path fs.
Proof.
  intros Hsplit Hpdf Himg.
  unfold convert_to_pdf, strip_macros_from_office, run_libreoffice.
  wk_unfold. rewrite Hsplit. simpl.
  replace (Str.lower ext =? "pdf")%string with false
    by (symmetry; by apply String.eqb_neq).
  simpl. unfold is_in in Himg. simpl in Himg. rewrite Himg. simpl.
  match goal with
  | |- context [if ?b then _ else _] => destruct b
  end; simpl.
  - destruct (fs !! input_path) as [f|]; simpl; [|done].
    destruct (libreoffice E f) as [[g|]|e]; simpl; try done.
    all: try by repeat (progress (rewrite ?lookup_insert_eq; simpl)).
    all: destruct (fs !! Str.path_join _ _) eqn:Hc; simpl; [|done].
    all: by repeat (progress (rewrite ?Hc; simpl)).
  - destruct (fs !! input_path) as [f|]; simpl; [|done].
    destruct (libreoffice E f) as [[g|]|e]; simpl; try done.
    all: try by repeat (progress (rewrite ?lookup_insert_eq; simpl)).
    all: destruct (fs !! Str.path_join _ _) eqn:Hc; simpl; [|done].
    all: by repeat (progress (rewrite ?Hc; simpl)).
Qed.

(** X19.  An input named [.jpg], [.jpeg] or [.png], in any case.  When
    it is an image, the normalizer returns [True] and writes a one-page
    PDF holding the image in RGB at its own size, at 100 DPI, without
    metadata unless PIL raised while stripping it.  When the file is not
    an image, or is missing, the normalizer raises and writes nothing. *)
Theorem image_conversion R input_path output_path stem ext
    (fs : gmap string file) :
  Str.rsplit_dot input_path = Some (stem, ext) →
  is_in (Str.lower ext) ["jpg"; "jpeg"; "png"] = true →
  match fs !! input_path with
  | Some (FImage img) =>
      ∃ pl,
        @convert_to_pdf E R input_path output_path fs
        = (Normal true,
           <[output_path :=
               FCanvas ((inject_Z (width img) * 72 / 100)%Q,
                        (inject_Z (height img) * 72 / 100)%Q) [[pl]]]> fs)
        ∧ mode (drawn pl) = "RGB"
        ∧ width (drawn pl) = width img
        ∧ height (drawn pl) = height img
        ∧ (pil_raises E img = false → metadata (drawn pl) = [])
        ∧ at_x pl = 0%Q ∧ at_y pl = 0%Q
        ∧ drawn_width pl = (inject_Z (width img) * 72 / 100)%Q
        ∧ drawn_height pl = (inject_Z (height img) * 72 / 100)%Q
  | _ =>
      ∃ e, @convert_to_pdf E R input_path output_path fs = (Raise e, fs)
  end.
Proof.
  intros Hsplit Himg.
  assert ((Str.lower ext =? "pdf")%string = false) as Hpdf.
  { unfold is_in in Himg. simpl in Himg.
    destruct (String.eqb_spec (Str.lower ext) "pdf") as [Heq|]; [|done].
    by rewrite Heq in Himg. }
  unfold convert_to_pdf. wk_unfold. rewrite Hsplit. simpl.
  rewrite Hpdf. simpl. unfold is_in in Himg. simpl in Himg.
  rewrite Himg. simpl.
  destruct (fs !! input_path) as [[d|img|size pgs|n]|]; simpl;
    try by eexists.
  destruct (strip_size E img) as [Hw Hh].
  unfold strip_metadata_from_image in *.
  destruct (pil_raises E img); simpl in *.
  - destruct (mode img =? "RGB")%string eqn:Hm; simpl.
    + apply String.eqb_eq in Hm.
      eexists. split; [reflexivity|]. by split_and!.
    + eexists. split; [reflexivity|]. by split_and!.
  - eexists. split; [reflexivity|]. by split_and!.
Qed.

End Normalizer.

(** ** The theorems on concrete documents *)

(** The theorem of X12 on the hostile two-page document and on a
    brochure, the second pass a minute after the first. *)
Lemma cdr_keeps_pages_only_witness :
  ∃ d1 d2,
    (@disarm_pdf worker unit "/worker/input/1b4e28ba_report.pdf"
       "/tmp/cleansheet_work/cdr.pdf" (mounted (hostile 2))).2
    = <["/tmp/cleansheet_work/cdr.pdf" := FPdf d1]> (mounted (hostile 2))
    ∧ (@disarm_pdf (at_time worker "D:20240101000100") unit
         "/worker/input/1b4e28ba_report.pdf"
         "/tmp/cleansheet_work/cdr.pdf" (mounted MoreDocuments.brochure)).2
      = <["/tmp/cleansheet_work/cdr.pdf" := FPdf d2]>
          (mounted MoreDocuments.brochure)
    ∧ root d1 = root d2
    ∧ (∀ k, k ≠ "/CreationDate" → info d1 !! k = info d2 !! k)
    ∧ info d1 !! "/Title" = Some (PText "Sanitized Document")
    ∧ info d1 !! "/Author" = Some (PText "CleanSheet")
    ∧ info d1 !! "/Subject" = Some (PText "Document Sanitized")
    ∧ info d1 !! "/Creator" = Some (PText "CleanSheet Sanitization System")
    ∧ info d1 !! "/Producer" = Some (PText "CleanSheet")
    ∧ info d1 !! "/CreationDate" = Some (PText (now worker))
    ∧ info d2 !! "/CreationDate" = Some (PText "D:20240101000100")
    ∧ Forall2 page_kept (pages (hostile 2)) (pages d1)
    ∧ Forall2 page_kept (pages MoreDocuments.brochure) (pages d2).
Proof.
  refine (cdr_keeps_pages_only worker unit "D:20240101000100"
            "/worker/input/1b4e28ba_report.pdf"
            "/tmp/cleansheet_work/cdr.pdf" (mounted (hostile 2)) _
            (FPdf (hostile 2)) (hostile 2)
            "/worker/input/1b4e28ba_report.pdf"
            "/tmp/cleansheet_work/cdr.pdf" (mounted MoreDocuments.brochure) _
            (FPdf MoreDocuments.brochure) MoreDocuments.brochure
            _ _ _ _ _ _); try reflexivity; vm_compute; reflexivity.
Defined.

(** The theorem of X13 on the hostile two-page document, the second
    pass a minute after the first. *)
Lemma cdr_idempotent_witness :
  ∃ d d',
    (@disarm_pdf worker unit "/worker/input/1b4e28ba_report.pdf"
       "/tmp/cleansheet_work/intermediate.pdf" (mounted (hostile 2))).2
    = <["/tmp/cleansheet_work/intermediate.pdf" := FPdf d]>
        (mounted (hostile 2))
    ∧ @disarm_pdf (at_time worker "D:20240101000100") unit
        "/tmp/cleansheet_work/intermediate.pdf"
        "/tmp/cleansheet_work/cdr.pdf"
        (@disarm_pdf worker unit "/worker/input/1b4e28ba_report.pdf"
           "/tmp/cleansheet_work/intermediate.pdf" (mounted (hostile 2))).2
      = (Normal true,
         <["/tmp/cleansheet_work/cdr.pdf" := FPdf d']>
           (@disarm_pdf worker unit "/worker/input/1b4e28ba_report.pdf"
              "/tmp/cleansheet_work/intermediate.pdf"
              (mounted (hostile 2))).2)
    ∧ root d' = root d
    ∧ (∀ k, k ≠ "/CreationDate" → info d' !! k = info d !! k)
    ∧ info d' !! "/CreationDate" = Some (PText "D:20240101000100")
    ∧ Forall2 (λ page page',
                 ∀ k, k ≠ "/Parent" → k ≠ "/StructParents" →
                      page' !! k = page !! k)
        (pages d) (pages d').
Proof.
  refine (cdr_idempotent worker unit "D:20240101000100"
            "/worker/input/1b4e28ba_report.pdf"
            "/tmp/cleansheet_work/intermediate.pdf"
            "/tmp/cleansheet_work/cdr.pdf" (mounted (hostile 2)) _
            (FPdf (hostile 2)) (hostile 2) _ _ _);
    try reflexivity; vm_compute; reflexivity.
Defined.

(** The theorem of X18 on a text file. *)
Lemma other_formats_as_office_witness :
  @convert_to_pdf worker unit "/worker/input/notes.txt"
    "/tmp/cleansheet_work/intermediate.pdf"
    {[ "/worker/input/notes.txt" := FBytes 120 ]}
  = @strip_macros_from_office worker unit "/worker/input/notes.txt"
      "/tmp/cleansheet_work/intermediate.pdf"
      {[ "/worker/input/notes.txt" := FBytes 120 ]}.
Proof.
  refine (other_formats_as_office worker unit "/worker/input/notes.txt"
            "/tmp/cleansheet_work/intermediate.pdf" "/worker/input/notes"
            "txt" {[ "/worker/input/notes.txt" := FBytes 120 ]} _ _ _);
    [reflexivity | done | reflexivity].
Defined.

(** The theorem of X19 on a photograph named in upper case. *)
Lemma image_conversion_witness :
  match ({[ "/worker/input/photo.JPG" := FImage MoreDocuments.photo ]}
           : gmap string file) !! "/worker/input/photo.JPG" with
  | Some (FImage img) =>
      ∃ pl,
        @convert_to_pdf worker unit "/worker/input/photo.JPG"
          "/tmp/cleansheet_work/intermediate.pdf"
          {[ "/worker/input/photo.JPG" := FImage MoreDocuments.photo ]}
        = (Normal true,
           <["/tmp/cleansheet_work/intermediate.pdf" :=
               FCanvas ((inject_Z (width img) * 72 / 100)%Q,
                        (inject_Z (height img) * 72 / 100)%Q) [[pl]]]>
             {[ "/worker/input/photo.JPG" := FImage MoreDocuments.photo ]})
        ∧ mode (drawn pl) = "RGB"
        ∧ width (drawn pl) = width img
        ∧ height (drawn pl) = height img
        ∧ (pil_raises worker img = false → metadata (drawn pl) = [])
        ∧ at_x pl = 0%Q ∧ at_y pl = 0%Q
        ∧ drawn_width pl = (inject_Z (width img) * 72 / 100)%Q
        ∧ drawn_height pl = (inject_Z (height img) * 72 / 100)%Q
  | _ =>
      ∃ e, @convert_to_pdf worker unit "/worker/input/photo.JPG"
             "/tmp/cleansheet_work/intermediate.pdf"
             {[ "/worker/input/photo.JPG" := FImage MoreDocuments.photo ]}
           = (Raise e,
              {[ "/worker/input/photo.JPG" := FImage MoreDocuments.photo ]})
  end.
Proof.
  refine (image_conversion worker unit "/worker/input/photo.JPG"
            "/tmp/cleansheet_work/intermediate.pdf" "/worker/input/photo"
            "JPG"
            {[ "/worker/input/photo.JPG" := FImage MoreDocuments.photo ]}
            _ _); reflexivity.
Defined.
